(** * pdlib_nrf24l01: the SPI command / register transaction layer

    A shallow embedding of the two variants of the nRF24L01 driver
    ([src/arm/.../pdlib_nrf24l01.c] and
    [src/example/.../pdlib_nrf24l01_test/pdlib_nrf24l01.c]) as state-passing
    functions over a world that holds the driver's globals, a recording
    GPIO/SPI collaborator and a scripted allocator. *)

From Stdlib Require Import ZArith List Lia Bool.
Import ListNotations.
Local Open Scope Z_scope.

(** ** C integer types *)

(** [unsigned char]: conversion to the type keeps the low eight bits. *)
Definition u8 (x : Z) : Z := x mod 256.

(** [unsigned int] on the 32-bit target. *)
Definition u32 (x : Z) : Z := x mod 4294967296.

Definition is_u8 (x : Z) : Prop := 0 <= x < 256.

(** ** The register map, [nRF24L01.h]

    The header is not part of the sources; the driver only names its macros.
    They are taken as parameters, bundled in one record. *)

Record nRF24L01_h : Set := {
  RF24_R_REGISTER : Z;
  RF24_W_REGISTER : Z;
  RF24_NOP : Z;
  RF24_FLUSH_TX : Z;
  RF24_FLUSH_RX : Z;
  RF24_W_TX_PAYLOAD : Z;
  RF24_CONFIG : Z;
  RF24_RF_CH : Z;
  RF24_RF_SETUP : Z;
  RF24_STATUS : Z;
  RF24_FIFO_STATUS : Z;
  RF24_RX_ADDR_P0 : Z;
  RF24_TX_ADDR : Z;
  RF24_RX_PW_P0 : Z;
  RF24_TX_DS : Z;
  RF24_MAX_RT : Z;
  RF24_TX_FULL : Z
}.

(** Every macro the driver passes as a command, register or mask is a byte,
    and the six per-pipe registers reached as [RF24_RX_ADDR_P0 + pipe] and
    [RF24_RX_PW_P0 + pipe] are byte addresses too. *)
Definition header_ok (h : nRF24L01_h) : Prop :=
  Forall is_u8
    [ RF24_R_REGISTER h; RF24_W_REGISTER h; RF24_NOP h; RF24_FLUSH_TX h;
      RF24_FLUSH_RX h; RF24_W_TX_PAYLOAD h; RF24_CONFIG h; RF24_RF_CH h;
      RF24_RF_SETUP h; RF24_STATUS h; RF24_FIFO_STATUS h; RF24_RX_ADDR_P0 h;
      RF24_TX_ADDR h; RF24_RX_PW_P0 h; RF24_TX_DS h; RF24_MAX_RT h;
      RF24_TX_FULL h ]
  /\ RF24_RX_ADDR_P0 h + 5 < 256
  /\ RF24_RX_PW_P0 h + 5 < 256.

(** The values of the chip vendor's product specification, used wherever a
    concrete header is needed. *)
Definition datasheet : nRF24L01_h := {|
  RF24_R_REGISTER := 0x00;
  RF24_W_REGISTER := 0x20;
  RF24_NOP := 0xFF;
  RF24_FLUSH_TX := 0xE1;
  RF24_FLUSH_RX := 0xE2;
  RF24_W_TX_PAYLOAD := 0xA0;
  RF24_CONFIG := 0x00;
  RF24_RF_CH := 0x05;
  RF24_RF_SETUP := 0x06;
  RF24_STATUS := 0x07;
  RF24_FIFO_STATUS := 0x17;
  RF24_RX_ADDR_P0 := 0x0A;
  RF24_TX_ADDR := 0x10;
  RF24_RX_PW_P0 := 0x11;
  RF24_TX_DS := 0x20;
  RF24_MAX_RT := 0x10;
  RF24_TX_FULL := 0x20
|}.

(** The macros of [nRF24L01.h] named by the rest of the driver: the bits of
    [CONFIG] and [FIFO_STATUS] and the registers written at start-up.  Like
    the ones above they are parameters. *)
Record nRF24L01_rest : Set := {
  RF24_PWR_UP : Z;
  RF24_PRIM_RX : Z;
  RF24_RX_EMPTY : Z;
  RF24_EN_AA : Z;
  RF24_EN_RXADDR : Z;
  RF24_SETUP_AW : Z;
  RF24_SETUP_RETR : Z;
  RF24_CD : Z;
  RF24_RX_ADDR_P1 : Z;
  RF24_RX_ADDR_P2 : Z;
  RF24_RX_ADDR_P3 : Z;
  RF24_RX_ADDR_P4 : Z;
  RF24_RX_ADDR_P5 : Z;
  RF24_RX_PW_P1 : Z;
  RF24_RX_PW_P2 : Z;
  RF24_RX_PW_P3 : Z;
  RF24_RX_PW_P4 : Z;
  RF24_RX_PW_P5 : Z;
  RF24_DYNPD : Z;
  RF24_FEATURE : Z
}.

(** The three bit masks are bytes. *)
Definition bits_ok (b : nRF24L01_rest) : Prop :=
  is_u8 (RF24_PWR_UP b) /\ is_u8 (RF24_PRIM_RX b) /\ is_u8 (RF24_RX_EMPTY b).

Definition datasheet_rest : nRF24L01_rest := {|
  RF24_PWR_UP := 0x02;
  RF24_PRIM_RX := 0x01;
  RF24_RX_EMPTY := 0x01;
  RF24_EN_AA := 0x01;
  RF24_EN_RXADDR := 0x02;
  RF24_SETUP_AW := 0x03;
  RF24_SETUP_RETR := 0x04;
  RF24_CD := 0x09;
  RF24_RX_ADDR_P1 := 0x0B;
  RF24_RX_ADDR_P2 := 0x0C;
  RF24_RX_ADDR_P3 := 0x0D;
  RF24_RX_ADDR_P4 := 0x0E;
  RF24_RX_ADDR_P5 := 0x0F;
  RF24_RX_PW_P1 := 0x12;
  RF24_RX_PW_P2 := 0x13;
  RF24_RX_PW_P3 := 0x14;
  RF24_RX_PW_P4 := 0x15;
  RF24_RX_PW_P5 := 0x16;
  RF24_DYNPD := 0x1C;
  RF24_FEATURE := 0x1D
|}.

(** [#define TYPE_RX 0x01] and [#define TYPE_TX 0x02], in both files. *)
Definition TYPE_RX : Z := 0x01.
Definition TYPE_TX : Z := 0x02.

(** ** The world: driver globals and the recording collaborators *)

(** What the GPIO driver and the SPI transport are asked to do, in order. *)
Inductive event : Set :=
| GPIOPinWrite (ulPort ucPins ucVal : Z)
| SPIByte (mosi : Z).

Record world : Type := {
  (* static globals of the driver *)
  g_ulCEPin : Z;
  g_ulCEBase : Z;
  g_ulCSNPin : Z;
  g_ulCSNBase : Z;
  g_ucStatus : Z;
  (* scripted bytes handed back by the transport, and how many were taken *)
  miso : nat -> Z;
  rx_count : nat;
  (* outcome of each malloc (None: NULL; Some j: a block whose indeterminate
     initial content at offset i is j i), and how many calls were made *)
  heap : nat -> option (nat -> Z);
  alloc_count : nat;
  (* recorded calls, oldest first *)
  log : list event
}.

Definition set_g_ucStatus (v : Z) (w : world) : world :=
  {| g_ulCEPin := g_ulCEPin w; g_ulCEBase := g_ulCEBase w;
     g_ulCSNPin := g_ulCSNPin w; g_ulCSNBase := g_ulCSNBase w;
     g_ucStatus := v;
     miso := miso w; rx_count := rx_count w;
     heap := heap w; alloc_count := alloc_count w;
     log := log w |}.

Definition record (e : list event) (w : world) : world :=
  {| g_ulCEPin := g_ulCEPin w; g_ulCEBase := g_ulCEBase w;
     g_ulCSNPin := g_ulCSNPin w; g_ulCSNBase := g_ulCSNBase w;
     g_ucStatus := g_ucStatus w;
     miso := miso w; rx_count := rx_count w;
     heap := heap w; alloc_count := alloc_count w;
     log := log w ++ e |}.

Definition take_miso (w : world) : world :=
  {| g_ulCEPin := g_ulCEPin w; g_ulCEBase := g_ulCEBase w;
     g_ulCSNPin := g_ulCSNPin w; g_ulCSNBase := g_ulCSNBase w;
     g_ucStatus := g_ucStatus w;
     miso := miso w; rx_count := S (rx_count w);
     heap := heap w; alloc_count := alloc_count w;
     log := log w |}.

Definition take_alloc (w : world) : world :=
  {| g_ulCEPin := g_ulCEPin w; g_ulCEBase := g_ulCEBase w;
     g_ulCSNPin := g_ulCSNPin w; g_ulCSNBase := g_ulCSNBase w;
     g_ucStatus := g_ucStatus w;
     miso := miso w; rx_count := rx_count w;
     heap := heap w; alloc_count := S (alloc_count w);
     log := log w |}.

(** ** A state monad over the world *)

Definition M (A : Type) : Type := world -> A * world.

Definition ret {A : Type} (a : A) : M A := fun w => (a, w).

Definition bind {A B : Type} (c : M A) (k : A -> M B) : M B :=
  fun w => let (a, w') := c w in k a w'.

Declare Scope drv_scope.
Delimit Scope drv_scope with drv.
Notation "x <- c ;; k" := (bind c (fun x => k))
  (at level 61, c at next level, right associativity) : drv_scope.
Notation "c ;; k" := (bind c (fun _ => k))
  (at level 61, right associativity) : drv_scope.
Local Open Scope drv_scope.

Definition modify (f : world -> world) : M unit := fun w => (tt, f w).

(** The world after running [c], and the value it returns. *)
Definition exec {A : Type} (c : M A) (w : world) : world := snd (c w).
Definition eval {A : Type} (c : M A) (w : world) : A := fst (c w).

(** ** C library: malloc, memcpy *)

(** A pointer to a byte buffer: [None] is NULL. *)
Definition ptr : Type := option (list Z).

(** [malloc n]: the allocator's next scripted outcome; a block that is handed
    out has [n] bytes of indeterminate content. *)
Definition malloc (n : Z) : M ptr := fun w =>
  (match heap w (alloc_count w) with
   | None => None
   | Some junk => Some (map (fun i => u8 (junk i)) (seq 0 (Z.to_nat n)))
   end, take_alloc w).

(** [memcpy (dst + off) src n] inside the block [dst]. *)
Definition memcpy (dst : list Z) (off : nat) (src : list Z) (n : Z) : list Z :=
  firstn off dst ++ firstn (Z.to_nat n) src
    ++ skipn (off + length (firstn (Z.to_nat n) src)) dst.

(** [dst[0] = v]. *)
Definition store0 (dst : list Z) (v : Z) : list Z :=
  match dst with
  | [] => []
  | _ :: t => v :: t
  end.

(** [dst[i] = v]; a store past the end of the block is left out. *)
Fixpoint store_at (dst : list Z) (i : nat) (v : Z) : list Z :=
  match dst, i with
  | [], _ => []
  | _ :: t, O => v :: t
  | x :: t, S i' => x :: store_at t i' v
  end.

(** Run [c] for its effect only. *)
Definition ignore {A : Type} (c : M A) : M unit := fun w => (tt, snd (c w)).

(** ** Collaborators: GPIO and SPI transport *)

Definition ROM_GPIOPinWrite (ulPort ucPins ucVal : Z) : M unit :=
  modify (record [GPIOPinWrite ulPort ucPins ucVal]).

(** Modelled from the spec: the SPI transport [pdlib_spi] is missing from the
    sources.  Sections 6 and 8 describe it as a collaborator with
    [transferByte(byte) -> byte] (full-duplex single-byte exchange),
    [sendBytes(buffer, length) -> status] and [receiveByteBlocking() -> byte],
    which records the bytes it is given and hands back scripted bytes: each
    call that returns a byte takes the next scripted one. *)
Definition pdlibSPI_TransferByte (b : Z) : M Z := fun w =>
  (u8 (miso w (rx_count w)), take_miso (record [SPIByte b] w)).

Definition pdlibSPI_SendData (buf : list Z) (len : Z) : M Z := fun w =>
  (0, record (map SPIByte (firstn (Z.to_nat len) buf)) w).

Definition pdlibSPI_ReceiveDataBlocking : M Z := fun w =>
  (u8 (miso w (rx_count w)), take_miso w).

(** The two edges of the chip-select line, as recorded from world [w]. *)
Definition CSN_low (w : world) : event :=
  GPIOPinWrite (g_ulCSNBase w) (g_ulCSNPin w) 0x00.
Definition CSN_high (w : world) : event :=
  GPIOPinWrite (g_ulCSNBase w) (g_ulCSNPin w) 0xFF.

(** One chip-select bracket around the bytes [bs]. *)
Definition bracket (w : world) (bs : list Z) : list event :=
  CSN_low w :: map SPIByte bs ++ [CSN_high w].

(** ** Variant 1: [src/arm/stellaris_lm4f120h5qr/pdlib_nrf24l01.c] *)

Module Arm.
Section Driver.

Variable h : nRF24L01_h.

Definition _NRF24L01_CELow : M unit := fun w =>
  ROM_GPIOPinWrite (g_ulCEBase w) (g_ulCEPin w) 0x00 w.

Definition _NRF24L01_CEHigh : M unit := fun w =>
  ROM_GPIOPinWrite (g_ulCEBase w) (g_ulCEPin w) 0xFF w.

Definition _NRF24L01_CSNLow : M unit := fun w =>
  ROM_GPIOPinWrite (g_ulCSNBase w) (g_ulCSNPin w) 0x00 w.

Definition _NRF24L01_CSNHigh : M unit := fun w =>
  ROM_GPIOPinWrite (g_ulCSNBase w) (g_ulCSNPin w) 0xFF w.

Definition _NRF24L01_RegisterWrite_8 (ucRegister ucValue : Z) : M unit :=
  let ucData := [u8 (Z.lor (RF24_W_REGISTER h) ucRegister); ucValue] in
  _NRF24L01_CSNLow ;;
  _ <- pdlibSPI_SendData ucData 2 ;;
  st <- pdlibSPI_ReceiveDataBlocking ;;
  modify (set_g_ucStatus st) ;;
  _NRF24L01_CSNHigh.

Definition _NRF24L01_RegisterWrite_Multi
    (ucRegister : Z) (pucData : ptr) (uiLength : Z) : M unit :=
  match pucData with
  | Some data =>
      pucBuffer <- malloc (u32 (1 * (uiLength + 1))) ;;
      match pucBuffer with
      | Some buf =>
          let buf := store0 buf (u8 (Z.lor (RF24_W_REGISTER h) ucRegister)) in
          let buf := memcpy buf 1 data uiLength in
          _NRF24L01_CSNLow ;;
          _ <- pdlibSPI_SendData buf (u32 (uiLength + 1)) ;;
          st <- pdlibSPI_ReceiveDataBlocking ;;
          modify (set_g_ucStatus st) ;;
          _NRF24L01_CSNHigh
      | None => ret tt
      end
  | None => ret tt
  end.

Definition _NRF24L01_SendCommand
    (ucCommand : Z) (pucData : ptr) (uiLength : Z) : M unit :=
  pucBuffer <- malloc (u32 (1 * (uiLength + 1))) ;;
  match pucBuffer with
  | Some buf =>
      let buf := store0 buf ucCommand in
      let buf := match pucData with
                 | Some data => memcpy buf 1 data uiLength
                 | None => buf
                 end in
      _NRF24L01_CSNLow ;;
      _ <- pdlibSPI_SendData buf (u32 (uiLength + 1)) ;;
      st <- pdlibSPI_ReceiveDataBlocking ;;
      modify (set_g_ucStatus st) ;;
      _NRF24L01_CSNHigh
  | None => ret tt
  end.

Definition NRF24L01_RegisterRead_8 (ucRegister : Z) : M Z :=
  let ucData := u8 (Z.lor (RF24_R_REGISTER h) ucRegister) in
  _NRF24L01_CSNLow ;;
  _ <- pdlibSPI_SendData [ucData] 0x01 ;;
  st <- pdlibSPI_ReceiveDataBlocking ;;
  modify (set_g_ucStatus st) ;;
  let ucData := u8 (RF24_NOP h) in
  _ <- pdlibSPI_SendData [ucData] 0x01 ;;
  ucData <- pdlibSPI_ReceiveDataBlocking ;;
  _NRF24L01_CSNHigh ;;
  ret ucData.

Definition NRF24L01_GetStatus : M Z :=
  _ <- NRF24L01_RegisterRead_8 (u8 (RF24_NOP h)) ;;
  fun w => (g_ucStatus w, w).

Definition NRF24L01_SetAirDataRate (ucDataRate : Z) : M unit :=
  ucCurrentVal <- NRF24L01_RegisterRead_8 (u8 (RF24_RF_SETUP h)) ;;
  let ucCurrentVal := u8 (Z.lor ucCurrentVal (Z.shiftl ucDataRate 3)) in
  _NRF24L01_RegisterWrite_8 (u8 (RF24_RF_SETUP h)) ucCurrentVal.

Definition NRF24L01_SetRFChannel (ucRFChannel : Z) : M unit :=
  _NRF24L01_RegisterWrite_8 (u8 (RF24_RF_CH h)) ucRFChannel.

Definition NRF24L01_SetPAGain (ucPAGain : Z) : M unit :=
  ucCurrentVal <- NRF24L01_RegisterRead_8 (u8 (RF24_RF_SETUP h)) ;;
  let ucCurrentVal := u8 (Z.lor ucCurrentVal (Z.shiftl ucPAGain 1)) in
  _NRF24L01_RegisterWrite_8 (u8 (RF24_RF_SETUP h)) ucCurrentVal.

Definition NRF24L01_SetLNAGain (ucLNAGain : Z) : M unit :=
  ucCurrentVal <- NRF24L01_RegisterRead_8 (u8 (RF24_RF_SETUP h)) ;;
  let ucCurrentVal := u8 (Z.lor ucCurrentVal (Z.shiftl ucLNAGain 0)) in
  _NRF24L01_RegisterWrite_8 (u8 (RF24_RF_SETUP h)) ucCurrentVal.

Definition NRF24L01_FlushTX : M unit :=
  _NRF24L01_SendCommand (u8 (RF24_FLUSH_TX h)) None 0.

Definition NRF24L01_FlushRX : M unit :=
  _NRF24L01_SendCommand (u8 (RF24_FLUSH_RX h)) None 0.

Definition NRF24L01_GetRxDataAmount (ucDataPipe : Z) : M Z :=
  if ucDataPipe <? 6 then
    ucTemp <- NRF24L01_RegisterRead_8 (u8 (RF24_RX_PW_P0 h + ucDataPipe)) ;;
    ret (Z.land ucTemp 0x3F)
  else
    ret 0.

Definition NRF24L01_SetTXAddress (pucAddress : ptr) : M unit :=
  _NRF24L01_RegisterWrite_Multi (u8 (RF24_TX_ADDR h)) pucAddress 5.

Definition NRF24L01_SetRxAddress (ucDataPipe : Z) (pucAddress : ptr) : M unit :=
  match pucAddress with
  | Some address =>
      match ucDataPipe with
      | 0 | 1 =>
          _NRF24L01_RegisterWrite_Multi
            (u8 (RF24_RX_ADDR_P0 h + ucDataPipe)) pucAddress 5
      | 2 | 3 | 4 | 5 =>
          _NRF24L01_RegisterWrite_8
            (u8 (RF24_RX_ADDR_P0 h + ucDataPipe)) (nth 0 address 0)
      | _ => ret tt
      end
  | None => ret tt
  end.

Definition NRF24L01_SetTxPayload (pucData : ptr) (uiLength : Z) : M unit :=
  _NRF24L01_SendCommand (u8 (RF24_W_TX_PAYLOAD h)) pucData uiLength.

(** *** The rest of the device control API *)

Variable b : nRF24L01_rest.

(** Whether the build defines [PDLIB_SPI]. *)
Variable PDLIB_SPI : bool.

Definition NRF24L01_PowerDown : M unit :=
  ucCurrentVal <- NRF24L01_RegisterRead_8 (u8 (RF24_CONFIG h)) ;;
  let ucCurrentVal := u8 (Z.land ucCurrentVal (Z.lnot (RF24_PWR_UP b))) in
  _NRF24L01_RegisterWrite_8 (u8 (RF24_CONFIG h)) ucCurrentVal ;;
  _NRF24L01_CELow.

Definition NRF24L01_PowerUp : M unit :=
  ucCurrentVal <- NRF24L01_RegisterRead_8 (u8 (RF24_CONFIG h)) ;;
  let ucCurrentVal := u8 (Z.lor ucCurrentVal (RF24_PWR_UP b)) in
  _NRF24L01_RegisterWrite_8 (u8 (RF24_CONFIG h)) ucCurrentVal.

Definition NRF24L01_EnableRxMode : M unit :=
  ucCurrentVal <- NRF24L01_RegisterRead_8 (u8 (RF24_CONFIG h)) ;;
  let ucCurrentVal := u8 (Z.lor ucCurrentVal (RF24_PRIM_RX b)) in
  _NRF24L01_RegisterWrite_8 (u8 (RF24_CONFIG h)) ucCurrentVal ;;
  _NRF24L01_CEHigh.

Definition NRF24L01_EnableTxMode : M unit :=
  ucCurrentVal <- NRF24L01_RegisterRead_8 (u8 (RF24_CONFIG h)) ;;
  let ucCurrentVal := u8 (Z.land ucCurrentVal (Z.lnot (RF24_PRIM_RX b))) in
  _NRF24L01_RegisterWrite_8 (u8 (RF24_CONFIG h)) ucCurrentVal ;;
  _NRF24L01_CEHigh.

Definition NRF24L01_IsDataReadyRx : M Z :=
  ucRxFifo <- NRF24L01_RegisterRead_8 (u8 (RF24_FIFO_STATUS h)) ;;
  ret (if Z.land ucRxFifo (RF24_RX_EMPTY b) =? 0 then 1 else 0).

(** [NRF24L01_ExecuteCommand].  [pucStatus] is the byte its last argument
    points to, [None] for a null pointer; the result is the return value
    with the byte pointed to afterwards, or [None] where the function stores
    through a null [pucStatus].  The receive call after the transfer takes a
    byte from the transport and its value is dropped, so [g_ucStatus] is
    what it was, and that is the value stored through [pucStatus]. *)
Definition NRF24L01_ExecuteCommand
    (ucType ucCommand : Z) (pucData : ptr) (uiLength : Z)
    (pucStatus : option Z) (w : world) : option (Z * option Z * world) :=
  let iReturn := -1 in
  let rejected :=
    if uiLength >? 0 then
      match pucData with None => true | Some _ => false end
    else
      (TYPE_TX =? ucType) && negb (RF24_NOP h =? ucCommand) in
  if rejected then Some (iReturn, pucStatus, w)
  else if TYPE_RX =? ucType then
    (* Rx operation: nothing *)
    Some (iReturn, pucStatus, w)
  else if TYPE_TX =? ucType then
    if PDLIB_SPI then
      let (pucDataBuffer, w1) := malloc (u32 (1 * (uiLength + 1))) w in
      match pucDataBuffer with
      | Some buf =>
          let buf := store0 buf ucCommand in
          let buf := match pucData with
                     | Some data => memcpy buf 1 data uiLength
                     | None => buf
                     end in
          let (iReturn, w2) := pdlibSPI_SendData buf (u32 (uiLength + 1)) w1 in
          (* pdlibSPI_ReceiveDataBlocking(&g_ucStatus): the value of the
             call is not used *)
          let (_, w3) := pdlibSPI_ReceiveDataBlocking w2 in
          match pucStatus with
          | Some _ => Some (iReturn, Some (g_ucStatus w3), w3)
          | None => None
          end
      | None => Some (-1, pucStatus, w1)
      end
    else Some (iReturn, pucStatus, w)
  else Some (iReturn, pucStatus, w).

(** The calls of the device control API and the register read, and a run
    of them in order.  These are the public functions of the file other
    than [NRF24L01_Init] and [NRF24L01_ExecuteCommand]. *)
Inductive call : Type :=
| Call_RegisterRead_8 (ucRegister : Z)
| Call_GetStatus
| Call_SetAirDataRate (ucDataRate : Z)
| Call_SetRFChannel (ucRFChannel : Z)
| Call_SetPAGain (ucPAGain : Z)
| Call_SetLNAGain (ucLNAGain : Z)
| Call_PowerDown
| Call_PowerUp
| Call_FlushTX
| Call_FlushRX
| Call_EnableRxMode
| Call_EnableTxMode
| Call_IsDataReadyRx
| Call_GetRxDataAmount (ucDataPipe : Z)
| Call_SetTXAddress (pucAddress : ptr)
| Call_SetRxAddress (ucDataPipe : Z) (pucAddress : ptr)
| Call_SetTxPayload (pucData : ptr) (uiLength : Z).

Definition perform (c : call) : M unit :=
  match c with
  | Call_RegisterRead_8 r => ignore (NRF24L01_RegisterRead_8 r)
  | Call_GetStatus => ignore NRF24L01_GetStatus
  | Call_SetAirDataRate a => NRF24L01_SetAirDataRate a
  | Call_SetRFChannel c => NRF24L01_SetRFChannel c
  | Call_SetPAGain a => NRF24L01_SetPAGain a
  | Call_SetLNAGain a => NRF24L01_SetLNAGain a
  | Call_PowerDown => NRF24L01_PowerDown
  | Call_PowerUp => NRF24L01_PowerUp
  | Call_FlushTX => NRF24L01_FlushTX
  | Call_FlushRX => NRF24L01_FlushRX
  | Call_EnableRxMode => NRF24L01_EnableRxMode
  | Call_EnableTxMode => NRF24L01_EnableTxMode
  | Call_IsDataReadyRx => ignore NRF24L01_IsDataReadyRx
  | Call_GetRxDataAmount p => ignore (NRF24L01_GetRxDataAmount p)
  | Call_SetTXAddress a => NRF24L01_SetTXAddress a
  | Call_SetRxAddress p a => NRF24L01_SetRxAddress p a
  | Call_SetTxPayload d n => NRF24L01_SetTxPayload d n
  end.

Fixpoint perform_all (cs : list call) : M unit :=
  match cs with
  | [] => ret tt
  | c :: cs' => perform c ;; perform_all cs'
  end.

End Driver.
End Arm.

(** ** Variant 2:
       [src/example/stellaris_lm4f120h5qr/pdlib_nrf24l01_test/pdlib_nrf24l01.c] *)

Module Example.
Section Driver.

Variable h : nRF24L01_h.

Definition _NRF24L01_CELow : M unit := fun w =>
  ROM_GPIOPinWrite (g_ulCEBase w) (g_ulCEPin w) 0x00 w.

Definition _NRF24L01_CEHigh : M unit := fun w =>
  ROM_GPIOPinWrite (g_ulCEBase w) (g_ulCEPin w) 0xFF w.

Definition _NRF24L01_CSNLow : M unit := fun w =>
  ROM_GPIOPinWrite (g_ulCSNBase w) (g_ulCSNPin w) 0x00 w.

Definition _NRF24L01_CSNHigh : M unit := fun w =>
  ROM_GPIOPinWrite (g_ulCSNBase w) (g_ulCSNPin w) 0xFF w.

Definition NRF24L01_RegisterWrite_8 (ucRegister ucValue : Z) : M unit :=
  let ucData := [u8 (Z.lor (RF24_W_REGISTER h) ucRegister); ucValue] in
  _NRF24L01_CSNLow ;;
  (* send address *)
  st <- pdlibSPI_TransferByte (nth 0 ucData 0) ;;
  modify (set_g_ucStatus st) ;;
  (* send data *)
  _ <- pdlibSPI_TransferByte (nth 1 ucData 0) ;;
  _NRF24L01_CSNHigh.

Definition NRF24L01_RegisterWrite_Multi
    (ucRegister : Z) (pucData : ptr) (uiLength : Z) : M unit :=
  match pucData with
  | Some data =>
      pucBuffer <- malloc (u32 (1 * uiLength)) ;;
      match pucBuffer with
      | Some buf =>
          let buf := memcpy buf 0 data uiLength in
          _NRF24L01_CSNLow ;;
          st <- pdlibSPI_TransferByte
                  (u8 (Z.lor (RF24_W_REGISTER h) ucRegister)) ;;
          modify (set_g_ucStatus st) ;;
          _ <- pdlibSPI_SendData buf uiLength ;;
          _NRF24L01_CSNHigh
      | None => ret tt
      end
  | None => ret tt
  end.

Definition _NRF24L01_SendCommand
    (ucCommand : Z) (pucData : ptr) (uiLength : Z) : M unit :=
  pucBuffer <- malloc (u32 (1 * (uiLength + 1))) ;;
  match pucBuffer with
  | Some buf =>
      let buf := store0 buf ucCommand in
      let buf := match pucData with
                 | Some data => memcpy buf 1 data uiLength
                 | None => buf
                 end in
      _NRF24L01_CSNLow ;;
      _ <- pdlibSPI_SendData buf (u32 (uiLength + 1)) ;;
      (* g_ucStatus = pdlibSPI_ReceiveDataBlocking(); is commented out *)
      _NRF24L01_CSNHigh
  | None => ret tt
  end.

Definition NRF24L01_RegisterRead_8 (ucRegister : Z) : M Z :=
  _NRF24L01_CSNLow ;;
  st <- pdlibSPI_TransferByte (u8 (Z.lor (RF24_R_REGISTER h) ucRegister)) ;;
  modify (set_g_ucStatus st) ;;
  ucData <- pdlibSPI_TransferByte (u8 (RF24_NOP h)) ;;
  _NRF24L01_CSNHigh ;;
  ret ucData.

Definition NRF24L01_GetStatus : M Z :=
  _ <- NRF24L01_RegisterRead_8 (u8 (RF24_NOP h)) ;;
  fun w => (g_ucStatus w, w).

Definition NRF24L01_SetAirDataRate (ucDataRate : Z) : M unit :=
  ucCurrentVal <- NRF24L01_RegisterRead_8 (u8 (RF24_RF_SETUP h)) ;;
  let ucDataRate := u8 (ucDataRate - 1) in
  let ucCurrentVal := u8 (Z.lor ucCurrentVal (Z.shiftl ucDataRate 3)) in
  NRF24L01_RegisterWrite_8 (u8 (RF24_RF_SETUP h)) ucCurrentVal.

Definition NRF24L01_SetRFChannel (ucRFChannel : Z) : M unit :=
  NRF24L01_RegisterWrite_8 (u8 (RF24_RF_CH h)) ucRFChannel.

(** C's [a && b] on integers. *)
Definition logical_and (a b : Z) : Z :=
  if (a =? 0) || (b =? 0) then 0 else 1.

Definition NRF24L01_SetPAGain (iPAGain : Z) : M unit :=
  ucCurrentVal <- NRF24L01_RegisterRead_8 (u8 (RF24_RF_SETUP h)) ;;
  let iPAGain := if iPAGain <? -18 then -18
                 else if iPAGain >? 0 then 0
                 else iPAGain in
  let iPAGain := 3 - Z.quot (-1 * iPAGain) 6 in
  let ucCurrentVal :=
    u8 (Z.lor ucCurrentVal (Z.shiftl (logical_and iPAGain 0x03) 1)) in
  NRF24L01_RegisterWrite_8 (u8 (RF24_RF_SETUP h)) ucCurrentVal.

Definition NRF24L01_SetLNAGain (ucLNAGain : Z) : M unit :=
  ucCurrentVal <- NRF24L01_RegisterRead_8 (u8 (RF24_RF_SETUP h)) ;;
  let ucCurrentVal := u8 (Z.lor ucCurrentVal (Z.shiftl ucLNAGain 0)) in
  NRF24L01_RegisterWrite_8 (u8 (RF24_RF_SETUP h)) ucCurrentVal.

Definition NRF24L01_FlushTX : M unit :=
  _NRF24L01_SendCommand (u8 (RF24_FLUSH_TX h)) None 0.

Definition NRF24L01_FlushRX : M unit :=
  _NRF24L01_SendCommand (u8 (RF24_FLUSH_RX h)) None 0.

Definition NRF24L01_IsTxFifoFull : M Z :=
  ucTxFifo <- NRF24L01_RegisterRead_8 (u8 (RF24_FIFO_STATUS h)) ;;
  ret (if Z.land ucTxFifo (RF24_TX_FULL h) =? 0 then 1 else 0).

Definition NRF24L01_GetRxDataAmount (ucDataPipe : Z) : M Z :=
  if ucDataPipe <? 6 then
    ucTemp <- NRF24L01_RegisterRead_8 (u8 (RF24_RX_PW_P0 h + ucDataPipe)) ;;
    ret (Z.land ucTemp 0x3F)
  else
    ret 0.

Definition NRF24L01_SetTXAddress (pucAddress : ptr) : M unit :=
  NRF24L01_RegisterWrite_Multi (u8 (RF24_TX_ADDR h)) pucAddress 5.

(** The completion bits tested by the wait: [RF24_MAX_RT | RF24_TX_DS]. *)
Definition tx_done_mask : Z := Z.lor (RF24_MAX_RT h) (RF24_TX_DS h).

(** [while(!(g_ucStatus & (RF24_MAX_RT | RF24_TX_DS))) NRF24L01_GetStatus();]
    with a bound on the number of times the condition is evaluated; [None]
    when the bound is reached with the loop still running. *)
Fixpoint wait_loop (fuel : nat) (w : world) : option world :=
  match fuel with
  | O => None
  | S fuel' =>
      if Z.land (g_ucStatus w) tx_done_mask =? 0
      then wait_loop fuel' (snd (NRF24L01_GetStatus w))
      else Some w
  end.

Definition NRF24L01_WaitForTxComplete
    (fuel : nat) (ucWaitMode : Z) (w : world) : option (Z * world) :=
  let w1 := snd (NRF24L01_GetStatus w) in
  if ucWaitMode =? 0 then
    Some (Z.shiftl (Z.land (g_ucStatus w1) tx_done_mask) 4, w1)
  else
    match wait_loop fuel w1 with
    | Some w2 => Some (Z.shiftl (Z.land (g_ucStatus w2) tx_done_mask) 4, w2)
    | None => None
    end.

Definition NRF24L01_SetRxAddress (ucDataPipe : Z) (pucAddress : ptr) : M unit :=
  match pucAddress with
  | Some address =>
      match ucDataPipe with
      | 0 | 1 =>
          NRF24L01_RegisterWrite_Multi
            (u8 (RF24_RX_ADDR_P0 h + ucDataPipe)) pucAddress 5
      | 2 | 3 | 4 | 5 =>
          NRF24L01_RegisterWrite_8
            (u8 (RF24_RX_ADDR_P0 h + ucDataPipe)) (nth 0 address 0)
      | _ => ret tt
      end
  | None => ret tt
  end.

Definition NRF24L01_SetTxPayload (pucData : ptr) (uiLength : Z) : M Z :=
  full <- NRF24L01_IsTxFifoFull ;;
  if negb (full =? 0) then
    ret (-1)
  else
    _NRF24L01_SendCommand (u8 (RF24_W_TX_PAYLOAD h)) pucData uiLength ;;
    ret 0.

(** *** The rest of the device control API *)

Variable b : nRF24L01_rest.

(** Whether the build defines [PDLIB_SPI]. *)
Variable PDLIB_SPI : bool.

Definition NRF24L01_PowerDown : M unit :=
  ucCurrentVal <- NRF24L01_RegisterRead_8 (u8 (RF24_CONFIG h)) ;;
  let ucCurrentVal := u8 (Z.land ucCurrentVal (Z.lnot (RF24_PWR_UP b))) in
  NRF24L01_RegisterWrite_8 (u8 (RF24_CONFIG h)) ucCurrentVal ;;
  _NRF24L01_CELow.

Definition NRF24L01_PowerUp : M unit :=
  ucCurrentVal <- NRF24L01_RegisterRead_8 (u8 (RF24_CONFIG h)) ;;
  let ucCurrentVal := u8 (Z.lor ucCurrentVal (RF24_PWR_UP b)) in
  NRF24L01_RegisterWrite_8 (u8 (RF24_CONFIG h)) ucCurrentVal.

Definition NRF24L01_EnableRxMode : M unit :=
  ucCurrentVal <- NRF24L01_RegisterRead_8 (u8 (RF24_CONFIG h)) ;;
  let ucCurrentVal := u8 (Z.lor ucCurrentVal (RF24_PRIM_RX b)) in
  NRF24L01_RegisterWrite_8 (u8 (RF24_CONFIG h)) ucCurrentVal ;;
  _NRF24L01_CEHigh.

Definition NRF24L01_EnableTxMode : M unit :=
  ucCurrentVal <- NRF24L01_GetStatus ;;
  (* clear TX_DS and MAX_RT interrupts *)
  let ucCurrentVal :=
    u8 (Z.land ucCurrentVal
               (Z.lnot (Z.lor (RF24_TX_DS h) (RF24_MAX_RT h)))) in
  NRF24L01_RegisterWrite_8 (u8 (RF24_STATUS h)) ucCurrentVal ;;
  (* set to TX mode *)
  ucCurrentVal <- NRF24L01_RegisterRead_8 (u8 (RF24_CONFIG h)) ;;
  let ucCurrentVal := u8 (Z.land ucCurrentVal (Z.lnot (RF24_PRIM_RX b))) in
  NRF24L01_RegisterWrite_8 (u8 (RF24_CONFIG h)) ucCurrentVal ;;
  _NRF24L01_CEHigh.

Definition NRF24L01_IsDataReadyRx : M Z :=
  ucRxFifo <- NRF24L01_RegisterRead_8 (u8 (RF24_FIFO_STATUS h)) ;;
  ret (if Z.land ucRxFifo (RF24_RX_EMPTY b) =? 0 then 1 else 0).

(** [NRF24L01_ExecuteCommand].  [pucStatus] is the byte its last argument
    points to, [None] for a null pointer; the result is the return value
    with the byte pointed to afterwards, or [None] where the function stores
    through a null [pucStatus].  The receive call after the transfer takes a
    byte from the transport and its value is dropped, so [g_ucStatus] is
    what it was, and that is the value stored through [pucStatus]. *)
Definition NRF24L01_ExecuteCommand
    (ucType ucCommand : Z) (pucData : ptr) (uiLength : Z)
    (pucStatus : option Z) (w : world) : option (Z * option Z * world) :=
  let iReturn := -1 in
  let rejected :=
    if uiLength >? 0 then
      match pucData with None => true | Some _ => false end
    else
      (TYPE_TX =? ucType) && negb (RF24_NOP h =? ucCommand) in
  if rejected then Some (iReturn, pucStatus, w)
  else if TYPE_RX =? ucType then
    (* Rx operation: nothing *)
    Some (iReturn, pucStatus, w)
  else if TYPE_TX =? ucType then
    if PDLIB_SPI then
      let (pucDataBuffer, w1) := malloc (u32 (1 * (uiLength + 1))) w in
      match pucDataBuffer with
      | Some buf =>
          let buf := store0 buf ucCommand in
          let buf := match pucData with
                     | Some data => memcpy buf 1 data uiLength
                     | None => buf
                     end in
          let (iReturn, w2) := pdlibSPI_SendData buf (u32 (uiLength + 1)) w1 in
          (* pdlibSPI_ReceiveDataBlocking(&g_ucStatus): the value of the
             call is not used *)
          let (_, w3) := pdlibSPI_ReceiveDataBlocking w2 in
          match pucStatus with
          | Some _ => Some (iReturn, Some (g_ucStatus w3), w3)
          | None => None
          end
      | None => Some (-1, pucStatus, w1)
      end
    else Some (iReturn, pucStatus, w)
  else Some (iReturn, pucStatus, w).

(** The receive loop of [NRF24L01_RegisterRead_Multi]:
    [for(i = 0; i<uiLength; i++) pucBuffer[i] = pdlibSPI_TransferByte(RF24_NOP);]
    with [n] iterations left at index [i]. *)
Fixpoint read_bytes (n i : nat) (pucBuffer : list Z) : M (list Z) :=
  match n with
  | O => ret pucBuffer
  | S n' =>
      v <- pdlibSPI_TransferByte (u8 (RF24_NOP h)) ;;
      read_bytes n' (S i) (store_at pucBuffer i v)
  end.

(** [pucBuffer] is the caller's (non-null) buffer; the result is the status
    byte returned and the buffer afterwards. *)
Definition NRF24L01_RegisterRead_Multi
    (ucRegister : Z) (pucBuffer : list Z) (uiLength : Z) : M (Z * list Z) :=
  _NRF24L01_CSNLow ;;
  st <- pdlibSPI_TransferByte (u8 (Z.lor (RF24_R_REGISTER h) ucRegister)) ;;
  modify (set_g_ucStatus st) ;;
  pucBuffer <- read_bytes (Z.to_nat uiLength) 0 pucBuffer ;;
  _NRF24L01_CSNHigh ;;
  fun w => ((g_ucStatus w, pucBuffer), w).

Definition NRF24L01_RegisterInit : M unit :=
  let ucRxAddr1 := [0xE7; 0xE7; 0xE7; 0xE7; 0xE7] in
  let ucRxAddr2 := [0xC2; 0xC2; 0xC2; 0xC2; 0xC2] in
  NRF24L01_FlushTX ;;
  NRF24L01_FlushRX ;;
  _NRF24L01_CELow ;;
  NRF24L01_RegisterWrite_8 (u8 (RF24_CONFIG h)) 0x09 ;;
  _ <- NRF24L01_RegisterRead_8 (u8 (RF24_CONFIG h)) ;;
  NRF24L01_RegisterWrite_8 (u8 (RF24_EN_AA b)) 0x3F ;;
  _ <- NRF24L01_RegisterRead_8 (u8 (RF24_EN_AA b)) ;;
  NRF24L01_RegisterWrite_8 (u8 (RF24_EN_RXADDR b)) 0x03 ;;
  _ <- NRF24L01_RegisterRead_8 (u8 (RF24_EN_RXADDR b)) ;;
  NRF24L01_RegisterWrite_8 (u8 (RF24_SETUP_AW b)) 0x03 ;;
  NRF24L01_RegisterWrite_8 (u8 (RF24_SETUP_RETR b)) 0x03 ;;
  NRF24L01_RegisterWrite_8 (u8 (RF24_RF_CH h)) 0x02 ;;
  NRF24L01_RegisterWrite_8 (u8 (RF24_RF_SETUP h)) 0x0F ;;
  NRF24L01_RegisterWrite_8 (u8 (RF24_STATUS h)) 0x70 ;;
  NRF24L01_RegisterWrite_8 (u8 (RF24_CD b)) 0x00 ;;
  NRF24L01_RegisterWrite_Multi (u8 (RF24_RX_ADDR_P0 h)) (Some ucRxAddr1) 5 ;;
  NRF24L01_RegisterWrite_Multi (u8 (RF24_RX_ADDR_P1 b)) (Some ucRxAddr2) 5 ;;
  NRF24L01_RegisterWrite_8 (u8 (RF24_RX_ADDR_P2 b)) 0xC3 ;;
  NRF24L01_RegisterWrite_8 (u8 (RF24_RX_ADDR_P3 b)) 0xC4 ;;
  NRF24L01_RegisterWrite_8 (u8 (RF24_RX_ADDR_P4 b)) 0xC5 ;;
  NRF24L01_RegisterWrite_8 (u8 (RF24_RX_ADDR_P5 b)) 0xC6 ;;
  NRF24L01_RegisterWrite_Multi (u8 (RF24_TX_ADDR h)) (Some ucRxAddr1) 5 ;;
  NRF24L01_RegisterWrite_8 (u8 (RF24_RX_PW_P0 h)) 0x00 ;;
  NRF24L01_RegisterWrite_8 (u8 (RF24_RX_PW_P1 b)) 0x00 ;;
  NRF24L01_RegisterWrite_8 (u8 (RF24_RX_PW_P2 b)) 0x00 ;;
  NRF24L01_RegisterWrite_8 (u8 (RF24_RX_PW_P3 b)) 0x00 ;;
  NRF24L01_RegisterWrite_8 (u8 (RF24_RX_PW_P4 b)) 0x00 ;;
  NRF24L01_RegisterWrite_8 (u8 (RF24_RX_PW_P5 b)) 0x00 ;;
  NRF24L01_RegisterWrite_8 (u8 (RF24_DYNPD b)) 0x00 ;;
  NRF24L01_RegisterWrite_8 (u8 (RF24_FEATURE b)) 0x00.

(** The calls of the device control API and the register reads, and a run
    of them in order.  These are the public functions of the file other
    than [NRF24L01_Init], [NRF24L01_ExecuteCommand] and
    [NRF24L01_WaitForTxComplete]; the wait, which may not return, joins
    them in [run_steps] below. *)
Inductive call : Type :=
| Call_RegisterInit
| Call_RegisterRead_8 (ucRegister : Z)
| Call_RegisterRead_Multi (ucRegister : Z) (pucBuffer : list Z) (uiLength : Z)
| Call_GetStatus
| Call_SetAirDataRate (ucDataRate : Z)
| Call_SetRFChannel (ucRFChannel : Z)
| Call_SetPAGain (iPAGain : Z)
| Call_SetLNAGain (ucLNAGain : Z)
| Call_PowerDown
| Call_PowerUp
| Call_FlushTX
| Call_FlushRX
| Call_EnableRxMode
| Call_EnableTxMode
| Call_IsDataReadyRx
| Call_IsTxFifoFull
| Call_GetRxDataAmount (ucDataPipe : Z)
| Call_SetTXAddress (pucAddress : ptr)
| Call_SetRxAddress (ucDataPipe : Z) (pucAddress : ptr)
| Call_SetTxPayload (pucData : ptr) (uiLength : Z).

Definition perform (c : call) : M unit :=
  match c with
  | Call_RegisterInit => NRF24L01_RegisterInit
  | Call_RegisterRead_8 r => ignore (NRF24L01_RegisterRead_8 r)
  | Call_RegisterRead_Multi r buf n =>
      ignore (NRF24L01_RegisterRead_Multi r buf n)
  | Call_GetStatus => ignore NRF24L01_GetStatus
  | Call_SetAirDataRate a => NRF24L01_SetAirDataRate a
  | Call_SetRFChannel c => NRF24L01_SetRFChannel c
  | Call_SetPAGain a => NRF24L01_SetPAGain a
  | Call_SetLNAGain a => NRF24L01_SetLNAGain a
  | Call_PowerDown => NRF24L01_PowerDown
  | Call_PowerUp => NRF24L01_PowerUp
  | Call_FlushTX => NRF24L01_FlushTX
  | Call_FlushRX => NRF24L01_FlushRX
  | Call_EnableRxMode => NRF24L01_EnableRxMode
  | Call_EnableTxMode => NRF24L01_EnableTxMode
  | Call_IsDataReadyRx => ignore NRF24L01_IsDataReadyRx
  | Call_IsTxFifoFull => ignore NRF24L01_IsTxFifoFull
  | Call_GetRxDataAmount p => ignore (NRF24L01_GetRxDataAmount p)
  | Call_SetTXAddress a => NRF24L01_SetTXAddress a
  | Call_SetRxAddress p a => NRF24L01_SetRxAddress p a
  | Call_SetTxPayload d n => ignore (NRF24L01_SetTxPayload d n)
  end.

Fixpoint perform_all (cs : list call) : M unit :=
  match cs with
  | [] => ret tt
  | c :: cs' => perform c ;; perform_all cs'
  end.

End Driver.
End Example.

(** ** Concrete worlds *)

(** A script read off a list; once the list is used up the script yields [d]. *)
Definition scripted {A : Type} (l : list A) (d : A) : nat -> A :=
  fun n => nth n l d.

(** The driver right after [NRF24L01_Init]: CE on port E pin 1, CSN on port E
    pin 2, nothing recorded yet. *)
Definition boot (m : nat -> Z) (hp : nat -> option (nat -> Z)) : world :=
  {| g_ulCEPin := 0x02; g_ulCEBase := 0x40024000;
     g_ulCSNPin := 0x04; g_ulCSNBase := 0x40024000;
     g_ucStatus := 0;
     miso := m; rx_count := 0;
     heap := hp; alloc_count := 0;
     log := [] |}.

(** An allocator that always succeeds and hands out blocks filled with
    [0xA5], and one that always fails. *)
Definition heap_ok : nat -> option (nat -> Z) := fun _ => Some (fun _ => 0xA5).
Definition heap_exhausted : nat -> option (nat -> Z) := fun _ => None.

(** ** Vocabulary of the statements *)

(** The status byte that the [k]-th status poll from world [w] on receives:
    every poll is one register read, which takes two scripted bytes, the
    status first. *)
Definition status_at (w : world) (k : nat) : Z :=
  u8 (miso w (rx_count w + 2 * k)).

(** The transmit-complete bit [TX_DS] or the max-retransmits bit [MAX_RT]
    is set in the status byte [st]. *)
Definition tx_done (h : nRF24L01_h) (st : Z) : bool :=
  negb (Z.land st (RF24_TX_DS h) =? 0)
  || negb (Z.land st (RF24_MAX_RT h) =? 0).

(** The result code for the status byte [st]: its [TX_DS] and [MAX_RT] bits,
    every other bit masked out, shifted left by four. *)
Definition tx_result (h : nRF24L01_h) (st : Z) : Z :=
  Z.shiftl (Z.lor (Z.land st (RF24_TX_DS h)) (Z.land st (RF24_MAX_RT h))) 4.

(** The chip-select bracket of one read of register [reg], and of one write
    of [v] to it. *)
Definition read_txn (h : nRF24L01_h) (w : world) (reg : Z) : list event :=
  bracket w [Z.lor (RF24_R_REGISTER h) reg; RF24_NOP h].
Definition write_txn (h : nRF24L01_h) (w : world) (reg v : Z) : list event :=
  bracket w [Z.lor (RF24_W_REGISTER h) reg; v].



(** The bracket every status poll records: a read of the register whose
    address is the no-op byte. *)
Definition poll_txn (h : nRF24L01_h) (w : world) : list event :=
  bracket w [u8 (Z.lor (RF24_R_REGISTER h) (u8 (RF24_NOP h))); u8 (RF24_NOP h)].

(** The world after [n] status polls. *)
Definition polled (h : nRF24L01_h) (n : nat) (w : world) : world :=
  Nat.iter n (exec (Example.NRF24L01_GetStatus h)) w.

(** [op] was skipped: nothing was recorded and the status byte is as before. *)
Definition skipped {A : Type} (op : M A) (w : world) : Prop :=
  log (exec op w) = log w /\ g_ucStatus (exec op w) = g_ucStatus w.

(** The world [w] after more events were recorded, [rx] more scripted bytes
    and [al] more allocations were taken, with [st] as the stored status. *)
Definition advance
    (evs : list event) (rx al : nat) (st : Z) (w : world) : world :=
  {| g_ulCEPin := g_ulCEPin w; g_ulCEBase := g_ulCEBase w;
     g_ulCSNPin := g_ulCSNPin w; g_ulCSNBase := g_ulCSNBase w;
     g_ucStatus := st;
     miso := miso w; rx_count := rx + rx_count w;
     heap := heap w; alloc_count := al + alloc_count w;
     log := log w ++ evs |}.

(** A write of [v] to the chip-enable line, as recorded from world [w]. *)
Definition CE_write (w : world) (v : Z) : event :=
  GPIOPinWrite (g_ulCEBase w) (g_ulCEPin w) v.

(** Events that respect the chip-select discipline: a sequence of complete
    brackets (chip select low, bytes, chip select high) and of writes to the
    chip-enable line between them. *)
Inductive transactions (w : world) : list event -> Prop :=
| transactions_nil : transactions w []
| transactions_bracket (bs : list Z) (rest : list event) :
    transactions w rest -> transactions w (bracket w bs ++ rest)
| transactions_CE (v : Z) (rest : list event) :
    transactions w rest -> transactions w (CE_write w v :: rest).

(** [st] is the status stored in [w], or one of the next [rx] bytes the
    transport hands back from [w] on. *)
Definition kept_or_received (w : world) (rx : nat) (st : Z) : Prop :=
  st = g_ucStatus w \/
  exists k : nat, (k < rx)%nat /\ st = u8 (miso w (k + rx_count w)).

(** [w'] is [w] after some driver activity: only the log, the two counters
    and the status changed; what was logged respects the chip-select
    discipline; the status is the old one or one of the bytes taken from the
    transport. *)
Definition driven (w w' : world) : Prop :=
  exists (evs : list event) (rx al : nat) (st : Z),
    w' = advance evs rx al st w /\
    transactions w evs /\
    kept_or_received w rx st.

(** [c] only ever drives the world the way [driven] allows. *)
Definition safe {A : Type} (c : M A) : Prop :=
  forall w : world, driven w (exec c w).

(** A GPIO write to port [base] with pin mask [pins] reaches the chip-select
    line. *)
Definition on_CSN (w : world) (base pins : Z) : bool :=
  (base =? g_ulCSNBase w) && negb (Z.land pins (g_ulCSNPin w) =? 0).

(** The chip-select discipline, checked event by event; [low] tells whether
    chip select is low before the first event.  Chip select is pulled low
    only when it is high and released only when it is low; bytes are
    transferred only while it is low; the other lines are written only while
    it is high; at the end it is high. *)
Fixpoint well_bracketed (w : world) (low : bool) (evs : list event) : bool :=
  match evs with
  | [] => negb low
  | SPIByte _ :: rest => low && well_bracketed w low rest
  | GPIOPinWrite base pins v :: rest =>
      if on_CSN w base pins then
        if Z.land v (g_ulCSNPin w) =? 0
        then negb low && well_bracketed w true rest
        else low && well_bracketed w false rest
      else negb low && well_bracketed w low rest
  end.

(** What a caller may pass: an [unsigned char], an [unsigned int] length
    whose successor does not wrap, a buffer (when not null) of at least [n]
    bytes. *)
Definition byte_arg (a : Z) : bool := (0 <=? a) && (a <? 256).
Definition length_arg (n : Z) : bool := (0 <=? n) && (n + 1 <? 4294967296).
Definition room (p : ptr) (n : Z) : bool :=
  match p with
  | Some data => n <=? Z.of_nat (length data)
  | None => true
  end.

(** The bytes [NRF24L01_SetRxAddress] reads from its address argument. *)
Definition rx_address_bytes (ucDataPipe : Z) : Z :=
  if ucDataPipe <? 2 then 5 else if ucDataPipe <? 6 then 1 else 0.

(** The calls whose arguments are values of the parameter types, with
    buffers as long as the function reads or writes. *)
Definition Arm_call_ok (c : Arm.call) : bool :=
  match c with
  | Arm.Call_RegisterRead_8 a | Arm.Call_SetAirDataRate a
  | Arm.Call_SetRFChannel a | Arm.Call_SetPAGain a | Arm.Call_SetLNAGain a
  | Arm.Call_GetRxDataAmount a => byte_arg a
  | Arm.Call_SetTXAddress p => room p 5
  | Arm.Call_SetRxAddress a p => byte_arg a && room p (rx_address_bytes a)
  | Arm.Call_SetTxPayload p n => length_arg n && room p n
  | _ => true
  end.

Definition Example_call_ok (c : Example.call) : bool :=
  match c with
  | Example.Call_RegisterRead_8 a | Example.Call_SetAirDataRate a
  | Example.Call_SetRFChannel a | Example.Call_SetLNAGain a
  | Example.Call_GetRxDataAmount a => byte_arg a
  | Example.Call_SetPAGain g => (-2147483648 <=? g) && (g <? 2147483648)
  | Example.Call_RegisterRead_Multi a buf n =>
      byte_arg a && (0 <=? n) && (n <? 2147483648)
      && (n <=? Z.of_nat (length buf))
  | Example.Call_SetTXAddress p => room p 5
  | Example.Call_SetRxAddress a p => byte_arg a && room p (rx_address_bytes a)
  | Example.Call_SetTxPayload p n => length_arg n && room p n
  | _ => true
  end.

(** A step of a run of the example variant: one of the calls above, or a
    wait for the end of a transmission with fuel for its loop. *)
Inductive step : Type :=
| Step_call (c : Example.call)
| Step_wait (ucWaitMode : Z) (fuel : nat).

Definition step_ok (s : step) : bool :=
  match s with
  | Step_call c => Example_call_ok c
  | Step_wait ucWaitMode _ => byte_arg ucWaitMode
  end.

(** The world after the steps, [None] if a wait ran out of fuel. *)
Fixpoint run_steps
    (h : nRF24L01_h) (b : nRF24L01_rest) (ss : list step) (w : world)
    : option world :=
  match ss with
  | [] => Some w
  | Step_call c :: ss' => run_steps h b ss' (exec (Example.perform h b c) w)
  | Step_wait ucWaitMode fuel :: ss' =>
      match Example.NRF24L01_WaitForTxComplete h fuel ucWaitMode w with
      | Some (_, w1) => run_steps h b ss' w1
      | None => None
      end
  end.

(** The four pin settings of the driver. *)
Definition pins (w : world) : Z * Z * Z * Z :=
  (g_ulCEBase w, g_ulCEPin w, g_ulCSNBase w, g_ulCSNPin w).

(** The next [n] bytes the transport will hand back from world [w] on. *)
Definition received (w : world) (n : nat) : list Z :=
  map (fun j => u8 (miso w (rx_count w + j))) (seq 0 n).

(** [dst] after the bytes [vs] were stored at indices [i], [i+1], ... *)
Fixpoint store_from (dst : list Z) (i : nat) (vs : list Z) : list Z :=
  match vs with
  | [] => dst
  | v :: vs' => store_from (store_at dst i v) (S i) vs'
  end.

(** The world [w] with another script of transport bytes. *)
Definition with_miso (m : nat -> Z) (w : world) : world :=
  {| g_ulCEPin := g_ulCEPin w; g_ulCEBase := g_ulCEBase w;
     g_ulCSNPin := g_ulCSNPin w; g_ulCSNBase := g_ulCSNBase w;
     g_ucStatus := g_ucStatus w;
     miso := m; rx_count := rx_count w;
     heap := heap w; alloc_count := alloc_count w;
     log := log w |}.

(** The events [evs], recorded only if allocation number [k] succeeds. *)
Definition if_allocated (w : world) (k : nat) (evs : list event) : list event :=
  match heap w k with
  | Some _ => evs
  | None => []
  end.

(** [c] records the events [ev w k], where [k] is the number of the next
    allocation, and makes [da] allocations. *)
Definition emits {A : Type}
    (c : M A) (ev : world -> nat -> list event) (da : nat) : Prop :=
  forall w : world, exists (rx : nat) (st : Z),
    exec c w = advance (ev w (alloc_count w)) rx da st w.

(** [ev] looks only at the pins and the allocator of the world. *)
Definition stable (ev : world -> nat -> list event) : Prop :=
  forall (e : list event) (rx al : nat) (st : Z) (w : world) (k : nat),
    ev (advance e rx al st w) k = ev w k.

(** What [NRF24L01_RegisterInit] puts on the pins and the bus from world
    [w]: the two flushes and the three address writes each depend on one
    allocation. *)
Definition register_init_events
    (h : nRF24L01_h) (b : nRF24L01_rest) (w : world) : list event :=
  let k := alloc_count w in
  let wr (r v : Z) :=
    bracket w [u8 (Z.lor (RF24_W_REGISTER h) (u8 r)); v] in
  let rd (r : Z) :=
    bracket w [u8 (Z.lor (RF24_R_REGISTER h) (u8 r)); u8 (RF24_NOP h)] in
  let wrN (i : nat) (r : Z) (data : list Z) :=
    if_allocated w (i + k)
      (bracket w (u8 (Z.lor (RF24_W_REGISTER h) (u8 r)) :: data)) in
  if_allocated w k (bracket w [u8 (RF24_FLUSH_TX h)])
  ++ if_allocated w (1 + k) (bracket w [u8 (RF24_FLUSH_RX h)])
  ++ [CE_write w 0x00]
  ++ wr (RF24_CONFIG h) 0x09 ++ rd (RF24_CONFIG h)
  ++ wr (RF24_EN_AA b) 0x3F ++ rd (RF24_EN_AA b)
  ++ wr (RF24_EN_RXADDR b) 0x03 ++ rd (RF24_EN_RXADDR b)
  ++ wr (RF24_SETUP_AW b) 0x03
  ++ wr (RF24_SETUP_RETR b) 0x03
  ++ wr (RF24_RF_CH h) 0x02
  ++ wr (RF24_RF_SETUP h) 0x0F
  ++ wr (RF24_STATUS h) 0x70
  ++ wr (RF24_CD b) 0x00
  ++ wrN 2%nat (RF24_RX_ADDR_P0 h) [0xE7; 0xE7; 0xE7; 0xE7; 0xE7]
  ++ wrN 3%nat (RF24_RX_ADDR_P1 b) [0xC2; 0xC2; 0xC2; 0xC2; 0xC2]
  ++ wr (RF24_RX_ADDR_P2 b) 0xC3
  ++ wr (RF24_RX_ADDR_P3 b) 0xC4
  ++ wr (RF24_RX_ADDR_P4 b) 0xC5
  ++ wr (RF24_RX_ADDR_P5 b) 0xC6
  ++ wrN 4%nat (RF24_TX_ADDR h) [0xE7; 0xE7; 0xE7; 0xE7; 0xE7]
  ++ wr (RF24_RX_PW_P0 h) 0x00
  ++ wr (RF24_RX_PW_P1 b) 0x00
  ++ wr (RF24_RX_PW_P2 b) 0x00
  ++ wr (RF24_RX_PW_P3 b) 0x00
  ++ wr (RF24_RX_PW_P4 b) 0x00
  ++ wr (RF24_RX_PW_P5 b) 0x00
  ++ wr (RF24_DYNPD b) 0x00
  ++ wr (RF24_FEATURE b) 0x00.

(** ** Proof automation *)

(** Split [header_ok] into the range of each macro. *)
Ltac header_fields H :=
  let F := fresh "F" in
  destruct H as [F [? ?]];
  repeat (apply Forall_cons_iff in F; destruct F as [? F]); clear F.

(** Run a driver function on a symbolic world. *)
Ltac run_driver :=
  cbv [bind ret modify exec eval
       ROM_GPIOPinWrite pdlibSPI_TransferByte pdlibSPI_SendData
       pdlibSPI_ReceiveDataBlocking
       Arm._NRF24L01_CSNLow Arm._NRF24L01_CSNHigh
       Example._NRF24L01_CSNLow Example._NRF24L01_CSNHigh
       record set_g_ucStatus take_miso take_alloc bracket CSN_low CSN_high
       fst snd log g_ucStatus rx_count alloc_count miso heap
       g_ulCEPin g_ulCEBase g_ulCSNPin g_ulCSNBase].

(** ** Bytes and bit operations *)

Lemma u8_range (x : Z) : is_u8 (u8 x).
Proof. unfold is_u8, u8. apply Z.mod_pos_bound. lia. Qed.

Lemma u8_id (x : Z) : is_u8 x -> u8 x = x.
Proof. unfold is_u8, u8. intros Hx. now apply Z.mod_small. Qed.

Lemma u8_land (x : Z) : u8 x = Z.land x 255.
Proof.
  unfold u8. change 255 with (Z.ones 8). change 256 with (2 ^ 8).
  symmetry. apply Z.land_ones. lia.
Qed.

Lemma u8_lor (a b : Z) : u8 (Z.lor a b) = Z.lor (u8 a) (u8 b).
Proof. rewrite !u8_land. apply Z.land_lor_distr_l. Qed.

Lemma lor_u8 (a b : Z) : is_u8 a -> is_u8 b -> u8 (Z.lor a b) = Z.lor a b.
Proof. intros Ha Hb. rewrite u8_lor. now rewrite !u8_id. Qed.

Lemma header_ok_datasheet : header_ok datasheet.
Proof.
  unfold header_ok. split; [|simpl; lia].
  repeat constructor; unfold is_u8; simpl; lia.
Qed.

(** ** Register reads *)

Lemma Arm_read8_run (h : nRF24L01_h) (r : Z) (w : world) :
  Arm.NRF24L01_RegisterRead_8 h r w =
  (u8 (miso w (S (rx_count w))),
   {| g_ulCEPin := g_ulCEPin w; g_ulCEBase := g_ulCEBase w;
      g_ulCSNPin := g_ulCSNPin w; g_ulCSNBase := g_ulCSNBase w;
      g_ucStatus := u8 (miso w (rx_count w));
      miso := miso w; rx_count := S (S (rx_count w));
      heap := heap w; alloc_count := alloc_count w;
      log := log w ++
             bracket w [u8 (Z.lor (RF24_R_REGISTER h) r); u8 (RF24_NOP h)] |}).
Proof.
  unfold Arm.NRF24L01_RegisterRead_8. run_driver.
  change (Z.to_nat 1) with 1%nat. cbn [firstn map].
  repeat rewrite <- app_assoc. reflexivity.
Qed.

Lemma Example_read8_run (h : nRF24L01_h) (r : Z) (w : world) :
  Example.NRF24L01_RegisterRead_8 h r w =
  (u8 (miso w (S (rx_count w))),
   {| g_ulCEPin := g_ulCEPin w; g_ulCEBase := g_ulCEBase w;
      g_ulCSNPin := g_ulCSNPin w; g_ulCSNBase := g_ulCSNBase w;
      g_ucStatus := u8 (miso w (rx_count w));
      miso := miso w; rx_count := S (S (rx_count w));
      heap := heap w; alloc_count := alloc_count w;
      log := log w ++
             bracket w [u8 (Z.lor (RF24_R_REGISTER h) r); u8 (RF24_NOP h)] |}).
Proof.
  unfold Example.NRF24L01_RegisterRead_8. run_driver.
  repeat rewrite <- app_assoc. reflexivity.
Qed.

(** C2: a single-register read is one chip-select bracket around two bytes,
    [READ_REGISTER_MASK | r] and then the no-op byte; it returns the second
    byte received from the transport and stores the first one as the status
    byte.  Both variants. *)
Theorem register_read_8_transaction (h : nRF24L01_h) (w : world) (r : Z) :
  header_ok h -> is_u8 r ->
  (log (exec (Arm.NRF24L01_RegisterRead_8 h r) w) = log w ++ read_txn h w r /\
   eval (Arm.NRF24L01_RegisterRead_8 h r) w = u8 (miso w (S (rx_count w))) /\
   g_ucStatus (exec (Arm.NRF24L01_RegisterRead_8 h r) w)
     = u8 (miso w (rx_count w))) /\
  (log (exec (Example.NRF24L01_RegisterRead_8 h r) w)
     = log w ++ read_txn h w r /\
   eval (Example.NRF24L01_RegisterRead_8 h r) w
     = u8 (miso w (S (rx_count w))) /\
   g_ucStatus (exec (Example.NRF24L01_RegisterRead_8 h r) w)
     = u8 (miso w (rx_count w))).
Proof.
  intros Hh Hr. header_fields Hh.
  unfold exec, eval. rewrite Arm_read8_run, Example_read8_run.
  cbn [fst snd log g_ucStatus]. unfold read_txn.
  rewrite lor_u8 by assumption. rewrite (u8_id (RF24_NOP h)) by assumption.
  repeat split; reflexivity.
Qed.

Lemma register_read_8_transaction_witness :
  header_ok datasheet /\ is_u8 0x06 /\
  eval (Example.NRF24L01_RegisterRead_8 datasheet 0x06)
       (boot (scripted [0x0E; 0x0F] 0) heap_ok) = 0x0F.
Proof.
  split; [exact header_ok_datasheet|].
  split; [unfold is_u8; lia|].
  destruct (register_read_8_transaction datasheet
              (boot (scripted [0x0E; 0x0F] 0) heap_ok) 0x06
              header_ok_datasheet ltac:(unfold is_u8; lia))
    as [_ [_ [Hval _]]].
  exact Hval.
Defined.

(** ** Register writes *)

Lemma Arm_write8_run (h : nRF24L01_h) (r v : Z) (w : world) :
  Arm._NRF24L01_RegisterWrite_8 h r v w =
  (tt,
   {| g_ulCEPin := g_ulCEPin w; g_ulCEBase := g_ulCEBase w;
      g_ulCSNPin := g_ulCSNPin w; g_ulCSNBase := g_ulCSNBase w;
      g_ucStatus := u8 (miso w (rx_count w));
      miso := miso w; rx_count := S (rx_count w);
      heap := heap w; alloc_count := alloc_count w;
      log := log w ++ bracket w [u8 (Z.lor (RF24_W_REGISTER h) r); v] |}).
Proof.
  unfold Arm._NRF24L01_RegisterWrite_8. run_driver.
  change (Z.to_nat 2) with 2%nat. cbn [firstn map].
  repeat rewrite <- app_assoc. reflexivity.
Qed.

Lemma Example_write8_run (h : nRF24L01_h) (r v : Z) (w : world) :
  Example.NRF24L01_RegisterWrite_8 h r v w =
  (tt,
   {| g_ulCEPin := g_ulCEPin w; g_ulCEBase := g_ulCEBase w;
      g_ulCSNPin := g_ulCSNPin w; g_ulCSNBase := g_ulCSNBase w;
      g_ucStatus := u8 (miso w (rx_count w));
      miso := miso w; rx_count := S (S (rx_count w));
      heap := heap w; alloc_count := alloc_count w;
      log := log w ++ bracket w [u8 (Z.lor (RF24_W_REGISTER h) r); v] |}).
Proof.
  unfold Example.NRF24L01_RegisterWrite_8. run_driver. cbn [nth].
  repeat rewrite <- app_assoc. reflexivity.
Qed.

(** The block handed out by a successful [malloc]. *)
Lemma malloc_block_length (junk : nat -> Z) (n : nat) :
  length (map (fun i => u8 (junk i)) (seq 0 n)) = n.
Proof. now rewrite length_map, length_seq. Qed.

(** Copying a whole buffer behind a header of [off] bytes fills the block. *)
Lemma memcpy_fill (dst src : list Z) (off : nat) :
  length dst = (off + length src)%nat ->
  memcpy dst off src (Z.of_nat (length src)) = firstn off dst ++ src.
Proof.
  intros Hlen. unfold memcpy. rewrite Nat2Z.id, firstn_all.
  rewrite skipn_all2 by lia. now rewrite app_nil_r.
Qed.

Lemma store0_cons (dst : list Z) (v : Z) :
  dst <> [] -> firstn 1 (store0 dst v) = [v] /\
               length (store0 dst v) = length dst.
Proof. destruct dst; [congruence|]. intros _. split; reflexivity. Qed.

(** The frame built by the arm variant: opcode, then the payload. *)
Lemma frame_built (junk : nat -> Z) (c : Z) (data : list Z) :
  Z.of_nat (length data) + 1 < 4294967296 ->
  let n := u32 (Z.of_nat (length data) + 1) in
  firstn (Z.to_nat n)
    (memcpy (store0 (map (fun i => u8 (junk i)) (seq 0 (Z.to_nat n))) c)
            1 data (Z.of_nat (length data)))
  = c :: data.
Proof.
  intros Hlen n. subst n. unfold u32. rewrite Z.mod_small by lia.
  replace (Z.to_nat (Z.of_nat (length data) + 1)) with (S (length data)) by lia.
  set (blk := map _ _).
  assert (Hb : blk <> []) by (subst blk; simpl; congruence).
  assert (Hl : length blk = S (length data))
    by (subst blk; apply malloc_block_length).
  destruct (store0_cons blk c Hb) as [Hhd Hsl].
  rewrite memcpy_fill by (rewrite Hsl, Hl; reflexivity).
  rewrite Hhd. cbn [app]. apply (firstn_all (c :: data)).
Qed.

(** The example variant copies the payload to the start of its block. *)
Lemma payload_copied (blk data : list Z) :
  firstn (Z.to_nat (Z.of_nat (length data)))
         (memcpy blk 0 data (Z.of_nat (length data))) = data.
Proof.
  unfold memcpy. rewrite Nat2Z.id, firstn_all. cbn [firstn app].
  rewrite firstn_app, firstn_all, Nat.sub_diag. cbn [firstn].
  apply app_nil_r.
Qed.

Lemma Example_write_multi_run
    (h : nRF24L01_h) (r : Z) (data : list Z) (junk : nat -> Z) (w : world) :
  heap w (alloc_count w) = Some junk ->
  Example.NRF24L01_RegisterWrite_Multi h r (Some data)
    (Z.of_nat (length data)) w =
  (tt,
   {| g_ulCEPin := g_ulCEPin w; g_ulCEBase := g_ulCEBase w;
      g_ulCSNPin := g_ulCSNPin w; g_ulCSNBase := g_ulCSNBase w;
      g_ucStatus := u8 (miso w (rx_count w));
      miso := miso w; rx_count := S (rx_count w);
      heap := heap w; alloc_count := S (alloc_count w);
      log := log w ++ bracket w (u8 (Z.lor (RF24_W_REGISTER h) r) :: data) |}).
Proof.
  intros Hheap. unfold Example.NRF24L01_RegisterWrite_Multi, bind, malloc.
  rewrite Hheap. run_driver. rewrite payload_copied.
  repeat rewrite <- app_assoc. reflexivity.
Qed.

Lemma Arm_write_multi_run
    (h : nRF24L01_h) (r : Z) (data : list Z) (junk : nat -> Z) (w : world) :
  heap w (alloc_count w) = Some junk ->
  Z.of_nat (length data) + 1 < 4294967296 ->
  Arm._NRF24L01_RegisterWrite_Multi h r (Some data)
    (Z.of_nat (length data)) w =
  (tt,
   {| g_ulCEPin := g_ulCEPin w; g_ulCEBase := g_ulCEBase w;
      g_ulCSNPin := g_ulCSNPin w; g_ulCSNBase := g_ulCSNBase w;
      g_ucStatus := u8 (miso w (rx_count w));
      miso := miso w; rx_count := S (rx_count w);
      heap := heap w; alloc_count := S (alloc_count w);
      log := log w ++ bracket w (u8 (Z.lor (RF24_W_REGISTER h) r) :: data) |}).
Proof.
  intros Hheap Hlen. unfold Arm._NRF24L01_RegisterWrite_Multi, bind, malloc.
  rewrite Hheap. run_driver. rewrite Z.mul_1_l.
  rewrite (frame_built junk _ data Hlen).
  repeat rewrite <- app_assoc. reflexivity.
Qed.

(** C1: an 8-bit register write is one chip-select bracket around the two
    bytes [WRITE_REGISTER_MASK | r] and [v]; a multi-byte register write of a
    buffer of [N] bytes, once its transient buffer is allocated, is one
    bracket around [1 + N] bytes: [WRITE_REGISTER_MASK | r], then the buffer
    in order.  Both variants. *)
Theorem register_write_transactions
    (h : nRF24L01_h) (w : world) (r v : Z) (data : list Z) (junk : nat -> Z) :
  header_ok h -> is_u8 r ->
  log (exec (Arm._NRF24L01_RegisterWrite_8 h r v) w)
    = log w ++ bracket w [Z.lor (RF24_W_REGISTER h) r; v] /\
  log (exec (Example.NRF24L01_RegisterWrite_8 h r v) w)
    = log w ++ bracket w [Z.lor (RF24_W_REGISTER h) r; v] /\
  (heap w (alloc_count w) = Some junk ->
   log (exec (Example.NRF24L01_RegisterWrite_Multi h r (Some data)
                (Z.of_nat (length data))) w)
     = log w ++ bracket w (Z.lor (RF24_W_REGISTER h) r :: data) /\
   length (bracket w (Z.lor (RF24_W_REGISTER h) r :: data))
     = (1 + (1 + length data) + 1)%nat) /\
  (heap w (alloc_count w) = Some junk ->
   Z.of_nat (length data) + 1 < 4294967296 ->
   log (exec (Arm._NRF24L01_RegisterWrite_Multi h r (Some data)
                (Z.of_nat (length data))) w)
     = log w ++ bracket w (Z.lor (RF24_W_REGISTER h) r :: data)).
Proof.
  intros Hh Hr. header_fields Hh.
  assert (Hop : u8 (Z.lor (RF24_W_REGISTER h) r) = Z.lor (RF24_W_REGISTER h) r)
    by now apply lor_u8.
  unfold exec. rewrite Arm_write8_run, Example_write8_run. cbn [snd log].
  rewrite Hop. repeat split.
  - rewrite (Example_write_multi_run h r data junk w) by assumption.
    cbn [snd log]. now rewrite Hop.
  - unfold bracket. cbn [length]. rewrite length_app, length_map.
    cbn [length]. lia.
  - intros Hheap Hlen.
    rewrite (Arm_write_multi_run h r data junk w) by assumption.
    cbn [snd log]. now rewrite Hop.
Qed.

Lemma register_write_transactions_witness :
  header_ok datasheet /\ is_u8 0x0A /\
  heap (boot (scripted [0x0E] 0) heap_ok) 0 = Some (fun _ => 0xA5) /\
  Z.of_nat (length [0xAA; 0xBB; 0xCC; 0xDD; 0xEE]) + 1 < 4294967296 /\
  log (exec (Example.NRF24L01_RegisterWrite_Multi datasheet 0x0A
               (Some [0xAA; 0xBB; 0xCC; 0xDD; 0xEE]) 5)
            (boot (scripted [0x0E] 0) heap_ok))
    = [GPIOPinWrite 0x40024000 0x04 0x00;
       SPIByte 0x2A; SPIByte 0xAA; SPIByte 0xBB; SPIByte 0xCC; SPIByte 0xDD;
       SPIByte 0xEE;
       GPIOPinWrite 0x40024000 0x04 0xFF] /\
  log (exec (Arm._NRF24L01_RegisterWrite_Multi datasheet 0x0A
               (Some [0xAA; 0xBB; 0xCC; 0xDD; 0xEE]) 5)
            (boot (scripted [0x0E] 0) heap_ok))
    = [GPIOPinWrite 0x40024000 0x04 0x00;
       SPIByte 0x2A; SPIByte 0xAA; SPIByte 0xBB; SPIByte 0xCC; SPIByte 0xDD;
       SPIByte 0xEE;
       GPIOPinWrite 0x40024000 0x04 0xFF].
Proof.
  destruct (register_write_transactions datasheet
              (boot (scripted [0x0E] 0) heap_ok) 0x0A 0x00
              [0xAA; 0xBB; 0xCC; 0xDD; 0xEE] (fun _ => 0xA5)
              header_ok_datasheet ltac:(unfold is_u8; lia))
    as [_ [_ [Hex Harm]]].
  split; [exact header_ok_datasheet|].
  split; [unfold is_u8; lia|].
  split; [reflexivity|].
  split; [simpl; lia|].
  split.
  - exact (proj1 (Hex eq_refl)).
  - exact (Harm eq_refl ltac:(simpl; lia)).
Defined.

(** ** Commands *)

Lemma firstn_1_store0 (junk : nat -> Z) (c : Z) :
  firstn 1 (store0 (map (fun i => u8 (junk i)) (seq 0 1)) c) = [c].
Proof. reflexivity. Qed.

(** When the allocator has no memory, a command is dropped: only the
    allocator saw the call. *)
Lemma Arm_send_command_no_memory (c : Z) (p : ptr) (n : Z) (w : world) :
  heap w (alloc_count w) = None ->
  Arm._NRF24L01_SendCommand c p n w = (tt, take_alloc w).
Proof.
  intros Hheap. unfold Arm._NRF24L01_SendCommand, bind, malloc.
  now rewrite Hheap.
Qed.

Lemma Arm_write_multi_no_memory
    (h : nRF24L01_h) (r : Z) (p : ptr) (n : Z) (w : world) :
  heap w (alloc_count w) = None ->
  skipped (Arm._NRF24L01_RegisterWrite_Multi h r p n) w.
Proof.
  intros Hheap. unfold skipped, exec, Arm._NRF24L01_RegisterWrite_Multi.
  destruct p as [data|]; [|split; reflexivity].
  unfold bind, malloc. rewrite Hheap. split; reflexivity.
Qed.

Lemma Arm_write_multi_null (h : nRF24L01_h) (r n : Z) (w : world) :
  Arm._NRF24L01_RegisterWrite_Multi h r None n w = (tt, w).
Proof. reflexivity. Qed.

(** With a payload, or with none and length zero, the arm variant sends the
    opcode and the payload in one bracket and stores the byte it receives. *)
Lemma Arm_send_command_run
    (c : Z) (data : list Z) (junk : nat -> Z) (w : world) :
  heap w (alloc_count w) = Some junk ->
  Z.of_nat (length data) + 1 < 4294967296 ->
  Arm._NRF24L01_SendCommand c (Some data) (Z.of_nat (length data)) w =
  (tt,
   {| g_ulCEPin := g_ulCEPin w; g_ulCEBase := g_ulCEBase w;
      g_ulCSNPin := g_ulCSNPin w; g_ulCSNBase := g_ulCSNBase w;
      g_ucStatus := u8 (miso w (rx_count w));
      miso := miso w; rx_count := S (rx_count w);
      heap := heap w; alloc_count := S (alloc_count w);
      log := log w ++ bracket w (c :: data) |}).
Proof.
  intros Hheap Hlen. unfold Arm._NRF24L01_SendCommand, bind, malloc.
  rewrite Hheap. run_driver. rewrite Z.mul_1_l.
  rewrite (frame_built junk c data Hlen).
  repeat rewrite <- app_assoc. reflexivity.
Qed.

Lemma Arm_send_command_bare (c : Z) (junk : nat -> Z) (w : world) :
  heap w (alloc_count w) = Some junk ->
  Arm._NRF24L01_SendCommand c None 0 w =
  (tt,
   {| g_ulCEPin := g_ulCEPin w; g_ulCEBase := g_ulCEBase w;
      g_ulCSNPin := g_ulCSNPin w; g_ulCSNBase := g_ulCSNBase w;
      g_ucStatus := u8 (miso w (rx_count w));
      miso := miso w; rx_count := S (rx_count w);
      heap := heap w; alloc_count := S (alloc_count w);
      log := log w ++ bracket w [c] |}).
Proof.
  intros Hheap. unfold Arm._NRF24L01_SendCommand, bind, malloc.
  rewrite Hheap. run_driver.
  change (Z.to_nat (u32 (0 + 1))) with 1%nat.
  change (Z.to_nat (u32 (1 * (0 + 1)))) with 1%nat.
  rewrite firstn_1_store0.
  repeat rewrite <- app_assoc. reflexivity.
Qed.

(** The example variant's command never touches the stored status byte. *)
Lemma Example_send_command_status (c : Z) (p : ptr) (n : Z) (w : world) :
  g_ucStatus (exec (Example._NRF24L01_SendCommand c p n) w) = g_ucStatus w.
Proof.
  unfold exec, Example._NRF24L01_SendCommand, bind, malloc.
  destruct (heap w (alloc_count w)); reflexivity.
Qed.

(** C3: in the example variant a command is a complete SPI transaction that
    leaves the stored status byte as it was: [NRF24L01_FlushTX] from a fresh
    driver whose transport would answer [0x0E] brackets the flush opcode and
    still holds status [0]; the arm variant, on the same input, stores
    [0x0E]. *)
Theorem example_send_command_keeps_stale_status :
  (forall (c : Z) (p : ptr) (n : Z) (w : world),
     g_ucStatus (exec (Example._NRF24L01_SendCommand c p n) w)
       = g_ucStatus w) /\
  log (exec (Example.NRF24L01_FlushTX datasheet)
            (boot (scripted [0x0E] 0) heap_ok))
    = [GPIOPinWrite 0x40024000 0x04 0x00; SPIByte 0xE1;
       GPIOPinWrite 0x40024000 0x04 0xFF] /\
  g_ucStatus (exec (Example.NRF24L01_FlushTX datasheet)
                   (boot (scripted [0x0E] 0) heap_ok)) = 0 /\
  g_ucStatus (exec (Arm.NRF24L01_FlushTX datasheet)
                   (boot (scripted [0x0E] 0) heap_ok)) = 0x0E.
Proof.
  split; [exact Example_send_command_status|].
  repeat split; reflexivity.
Qed.

(** C8: a null payload with a nonzero length does not make the arm variant
    skip a command.  [NRF24L01_SetTxPayload(NULL, 2)] allocates three bytes,
    sets the opcode, copies nothing, and sends all three bytes in a
    chip-select bracket: the opcode and two bytes of whatever the fresh block
    held (here [0xA5]); the stored status byte changes from [0] to [0x0E]. *)
Theorem arm_send_command_null_payload_not_skipped :
  log (exec (Arm.NRF24L01_SetTxPayload datasheet None 2)
            (boot (scripted [0x0E] 0) heap_ok))
    = [GPIOPinWrite 0x40024000 0x04 0x00;
       SPIByte 0xA0; SPIByte 0xA5; SPIByte 0xA5;
       GPIOPinWrite 0x40024000 0x04 0xFF] /\
  g_ucStatus (exec (Arm.NRF24L01_SetTxPayload datasheet None 2)
                   (boot (scripted [0x0E] 0) heap_ok)) = 0x0E /\
  ~ skipped (Arm._NRF24L01_SendCommand 0xA0 None 2)
            (boot (scripted [0x0E] 0) heap_ok).
Proof.
  repeat split; try reflexivity.
  intros [Hlog _]. discriminate Hlog.
Qed.

(** ** The TX FIFO check *)

Lemma Example_is_tx_fifo_full_run (h : nRF24L01_h) (w : world) :
  Example.NRF24L01_IsTxFifoFull h w =
  (if Z.land (u8 (miso w (S (rx_count w)))) (RF24_TX_FULL h) =? 0
   then 1 else 0,
   exec (Example.NRF24L01_RegisterRead_8 h (u8 (RF24_FIFO_STATUS h))) w).
Proof.
  unfold Example.NRF24L01_IsTxFifoFull, bind, ret, exec.
  rewrite Example_read8_run. reflexivity.
Qed.

(** C4: [NRF24L01_SetTxPayload] of the example variant takes the branch
    opposite to the one the claim describes.  With [fifo] the FIFO-status byte
    it reads, it returns [-1] and sends nothing when [fifo & RF24_TX_FULL] is
    zero (the TX FIFO is not full), and sends the payload and returns [0]
    when the bit is set (the TX FIFO is full).  On the chip's reset value
    [0x11] (both FIFOs empty) the payload [1,2,3] is refused; on [0x21]
    (TX FIFO full) it is sent. *)
Theorem set_tx_payload_full_check_is_inverted :
  (forall (h : nRF24L01_h) (w : world) (p : ptr) (n : Z),
     let fifo := u8 (miso w (S (rx_count w))) in
     let w1 := exec (Example.NRF24L01_RegisterRead_8 h
                       (u8 (RF24_FIFO_STATUS h))) w in
     Example.NRF24L01_SetTxPayload h p n w =
     if Z.land fifo (RF24_TX_FULL h) =? 0
     then (-1, w1)
     else (0, exec (Example._NRF24L01_SendCommand
                      (u8 (RF24_W_TX_PAYLOAD h)) p n) w1)) /\
  Example.NRF24L01_IsTxFifoFull datasheet
    (boot (scripted [0x0E; 0x11] 0) heap_ok)
    = (1, exec (Example.NRF24L01_RegisterRead_8 datasheet 0x17)
               (boot (scripted [0x0E; 0x11] 0) heap_ok)) /\
  eval (Example.NRF24L01_SetTxPayload datasheet (Some [1; 2; 3]) 3)
       (boot (scripted [0x0E; 0x11] 0) heap_ok) = -1 /\
  log (exec (Example.NRF24L01_SetTxPayload datasheet (Some [1; 2; 3]) 3)
            (boot (scripted [0x0E; 0x11] 0) heap_ok))
    = [GPIOPinWrite 0x40024000 0x04 0x00; SPIByte 0x17; SPIByte 0xFF;
       GPIOPinWrite 0x40024000 0x04 0xFF] /\
  eval (Example.NRF24L01_SetTxPayload datasheet (Some [1; 2; 3]) 3)
       (boot (scripted [0x0E; 0x21] 0) heap_ok) = 0 /\
  log (exec (Example.NRF24L01_SetTxPayload datasheet (Some [1; 2; 3]) 3)
            (boot (scripted [0x0E; 0x21] 0) heap_ok))
    = [GPIOPinWrite 0x40024000 0x04 0x00; SPIByte 0x17; SPIByte 0xFF;
       GPIOPinWrite 0x40024000 0x04 0xFF;
       GPIOPinWrite 0x40024000 0x04 0x00;
       SPIByte 0xA0; SPIByte 1; SPIByte 2; SPIByte 3;
       GPIOPinWrite 0x40024000 0x04 0xFF].
Proof.
  split.
  - intros h w p n fifo w1. subst fifo w1.
    unfold Example.NRF24L01_SetTxPayload, bind.
    rewrite Example_is_tx_fifo_full_run.
    destruct (Z.land _ _ =? 0); cbn [Z.eqb negb]; unfold ret, exec.
    + reflexivity.
    + destruct (Example._NRF24L01_SendCommand _ p n _) as [[] w2].
      reflexivity.
  - repeat split; reflexivity.
Qed.

(** ** Waiting for the end of a transmission *)

Lemma Example_get_status_run (h : nRF24L01_h) (w : world) :
  Example.NRF24L01_GetStatus h w =
  (u8 (miso w (rx_count w)),
   {| g_ulCEPin := g_ulCEPin w; g_ulCEBase := g_ulCEBase w;
      g_ulCSNPin := g_ulCSNPin w; g_ulCSNBase := g_ulCSNBase w;
      g_ucStatus := u8 (miso w (rx_count w));
      miso := miso w; rx_count := S (S (rx_count w));
      heap := heap w; alloc_count := alloc_count w;
      log := log w ++ poll_txn h w |}).
Proof.
  unfold Example.NRF24L01_GetStatus, bind. rewrite Example_read8_run.
  reflexivity.
Qed.

(** One poll moves the script on by one status byte. *)
Lemma status_at_poll (h : nRF24L01_h) (w : world) (j : nat) :
  status_at (exec (Example.NRF24L01_GetStatus h) w) j = status_at w (S j).
Proof.
  unfold exec. rewrite Example_get_status_run. unfold status_at.
  cbn [snd miso rx_count]. f_equal. f_equal. lia.
Qed.

Lemma status_after_poll (h : nRF24L01_h) (w : world) :
  g_ucStatus (exec (Example.NRF24L01_GetStatus h) w) = status_at w 0.
Proof.
  unfold exec. rewrite Example_get_status_run. unfold status_at.
  cbn [snd g_ucStatus]. f_equal. f_equal. lia.
Qed.

Lemma poll_txn_poll (h : nRF24L01_h) (w : world) :
  poll_txn h (exec (Example.NRF24L01_GetStatus h) w) = poll_txn h w.
Proof. unfold exec. rewrite Example_get_status_run. reflexivity. Qed.

Lemma polled_S (h : nRF24L01_h) (n : nat) (w : world) :
  polled h (S n) w = polled h n (exec (Example.NRF24L01_GetStatus h) w).
Proof. unfold polled. apply Nat.iter_succ_r. Qed.

(** [n] polls record [n] brackets and take [2 * n] scripted bytes. *)
Lemma polled_log (h : nRF24L01_h) (n : nat) :
  forall w : world,
    log (polled h n w) = log w ++ concat (repeat (poll_txn h w) n) /\
    rx_count (polled h n w) = (rx_count w + 2 * n)%nat.
Proof.
  induction n as [|n IH]; intros w.
  - cbn. rewrite app_nil_r. split; [reflexivity | lia].
  - rewrite polled_S. destruct (IH (exec (Example.NRF24L01_GetStatus h) w))
      as [Hlog Hrx].
    rewrite Hlog, Hrx, poll_txn_poll. unfold exec.
    rewrite Example_get_status_run. cbn [snd log rx_count repeat concat].
    rewrite <- app_assoc. split; [reflexivity | lia].
Qed.

(** The loop condition and the returned expression of the code, in terms of
    the two bits. *)
Lemma tx_done_loop_condition (h : nRF24L01_h) (st : Z) :
  tx_done h st = negb (Z.land st (Example.tx_done_mask h) =? 0).
Proof.
  unfold tx_done, Example.tx_done_mask. rewrite Z.land_lor_distr_r.
  destruct (Z.eqb_spec (Z.land st (RF24_TX_DS h)) 0) as [Hds | Hds];
    destruct (Z.eqb_spec (Z.land st (RF24_MAX_RT h)) 0) as [Hrt | Hrt];
    destruct (Z.eqb_spec
                (Z.lor (Z.land st (RF24_MAX_RT h)) (Z.land st (RF24_TX_DS h)))
                0) as [Hor | Hor];
    try reflexivity; exfalso.
  - apply Hor. now rewrite Hds, Hrt.
  - apply Z.lor_eq_0_iff in Hor. tauto.
  - apply Z.lor_eq_0_iff in Hor. tauto.
  - apply Z.lor_eq_0_iff in Hor. tauto.
Qed.

Lemma tx_result_returned (h : nRF24L01_h) (st : Z) :
  Z.shiftl (Z.land st (Example.tx_done_mask h)) 4 = tx_result h st.
Proof.
  unfold tx_result, Example.tx_done_mask.
  now rewrite Z.land_lor_distr_r, Z.lor_comm.
Qed.

Lemma tx_done_true (h : nRF24L01_h) (st : Z) :
  tx_done h st = true <->
  Z.land st (RF24_TX_DS h) <> 0 \/ Z.land st (RF24_MAX_RT h) <> 0.
Proof.
  unfold tx_done.
  destruct (Z.eqb_spec (Z.land st (RF24_TX_DS h)) 0) as [Hds | Hds];
    destruct (Z.eqb_spec (Z.land st (RF24_MAX_RT h)) 0) as [Hrt | Hrt];
    cbn [negb orb]; split; intros H; try reflexivity; try discriminate;
    tauto.
Qed.

Lemma tx_done_false (h : nRF24L01_h) (st : Z) :
  tx_done h st = false <->
  Z.land st (RF24_TX_DS h) = 0 /\ Z.land st (RF24_MAX_RT h) = 0.
Proof.
  unfold tx_done.
  destruct (Z.eqb_spec (Z.land st (RF24_TX_DS h)) 0) as [Hds | Hds];
    destruct (Z.eqb_spec (Z.land st (RF24_MAX_RT h)) 0) as [Hrt | Hrt];
    cbn [negb orb]; split; intros H; try reflexivity; try discriminate;
    tauto.
Qed.

(** The loop, entered after a first poll, stops at the first status byte that
    has a completion bit, given fuel for every test of its condition. *)
Lemma wait_loop_polls (h : nRF24L01_h) (n : nat) :
  forall (w : world) (fuel : nat),
    (forall j, (j < n)%nat -> tx_done h (status_at w j) = false) ->
    tx_done h (status_at w n) = true ->
    (n < fuel)%nat ->
    Example.wait_loop h fuel (polled h 1 w) = Some (polled h (S n) w).
Proof.
  induction n as [|n IH]; intros w fuel Hbefore Hat Hfuel;
    destruct fuel as [|fuel]; try lia; cbn [Example.wait_loop].
  - change (polled h 1 w) with (exec (Example.NRF24L01_GetStatus h) w).
    rewrite status_after_poll. rewrite tx_done_loop_condition in Hat.
    destruct (Z.land _ _ =? 0); [discriminate | reflexivity].
  - change (polled h 1 w) with (exec (Example.NRF24L01_GetStatus h) w).
    rewrite status_after_poll.
    assert (H0 : tx_done h (status_at w 0) = false) by (apply Hbefore; lia).
    rewrite tx_done_loop_condition in H0.
    destruct (Z.land _ _ =? 0); [|discriminate].
    rewrite (polled_S h (S n) w).
    apply (IH (exec (Example.NRF24L01_GetStatus h) w) fuel).
    + intros j Hj. rewrite status_at_poll. apply Hbefore. lia.
    + now rewrite status_at_poll.
    + lia.
Qed.

(** A status with a completion bit has a first occurrence. *)
Lemma first_tx_done (h : nRF24L01_h) (w : world) (k : nat) :
  tx_done h (status_at w k) = true ->
  exists n, (n <= k)%nat /\ tx_done h (status_at w n) = true /\
            forall j, (j < n)%nat -> tx_done h (status_at w j) = false.
Proof.
  induction k as [k IH] using lt_wf_ind. intros Hk.
  destruct (existsb (fun j => tx_done h (status_at w j)) (seq 0 k)) eqn:E.
  - apply existsb_exists in E. destruct E as [j [Hin Hj]].
    apply in_seq in Hin. destruct (IH j ltac:(lia) Hj) as [n [Hn Hrest]].
    exists n. split; [lia | exact Hrest].
  - exists k. split; [lia|]. split; [exact Hk|].
    intros j Hj. apply not_true_is_false. intros Hd.
    assert (Hex : existsb (fun j => tx_done h (status_at w j)) (seq 0 k)
                  = true).
    { apply existsb_exists. exists j. split; [apply in_seq; lia | exact Hd]. }
    congruence.
Qed.

Lemma result_code_nonzero (x : Z) : x <> 0 -> Z.shiftl x 4 <> 0.
Proof. intros Hx. rewrite Z.shiftl_mul_pow2 by lia. lia. Qed.

Lemma polled_status (h : nRF24L01_h) (n : nat) :
  forall w : world, g_ucStatus (polled h (S n) w) = status_at w n.
Proof.
  induction n as [|n IH]; intros w.
  - apply status_after_poll.
  - rewrite polled_S, IH. apply status_at_poll.
Qed.

(** C5: called non-blocking, [NRF24L01_WaitForTxComplete] makes one status
    poll and returns the [TX_DS] and [MAX_RT] bits of that status, every
    other bit masked out, shifted left by four; the code is zero when
    neither bit is set, and no loop is entered (no fuel is needed).  Called
    blocking on a script in which some status byte has [TX_DS] or [MAX_RT]
    set, it terminates: it polls up to and including the first such byte
    [n], makes exactly [n + 1] polls, and returns that byte's two bits
    shifted left by four, a nonzero code. *)
Theorem wait_for_tx_complete
    (h : nRF24L01_h) (w : world) (ucWaitMode : Z) (k : nat) :
  (forall fuel : nat,
     Example.NRF24L01_WaitForTxComplete h fuel 0 w =
     Some (Z.shiftl
             (Z.lor (Z.land (status_at w 0) (RF24_TX_DS h))
                    (Z.land (status_at w 0) (RF24_MAX_RT h))) 4,
           polled h 1 w)) /\
  log (polled h 1 w) = log w ++ poll_txn h w /\
  (Z.land (status_at w 0) (RF24_TX_DS h) = 0 ->
   Z.land (status_at w 0) (RF24_MAX_RT h) = 0 ->
   tx_result h (status_at w 0) = 0) /\
  (ucWaitMode <> 0 ->
   Z.land (status_at w k) (RF24_TX_DS h) <> 0 \/
   Z.land (status_at w k) (RF24_MAX_RT h) <> 0 ->
   exists n : nat,
     (n <= k)%nat /\
     (Z.land (status_at w n) (RF24_TX_DS h) <> 0 \/
      Z.land (status_at w n) (RF24_MAX_RT h) <> 0) /\
     (forall j, (j < n)%nat ->
        Z.land (status_at w j) (RF24_TX_DS h) = 0 /\
        Z.land (status_at w j) (RF24_MAX_RT h) = 0) /\
     tx_result h (status_at w n) <> 0 /\
     log (polled h (S n) w)
       = log w ++ concat (repeat (poll_txn h w) (S n)) /\
     forall fuel : nat,
       (n < fuel)%nat ->
       Example.NRF24L01_WaitForTxComplete h fuel ucWaitMode w =
       Some (tx_result h (status_at w n), polled h (S n) w)).
Proof.
  split; [|split; [|split]].
  - intros fuel. unfold Example.NRF24L01_WaitForTxComplete. cbn [Z.eqb].
    change (snd (Example.NRF24L01_GetStatus h w)) with (polled h 1 w).
    rewrite polled_status, tx_result_returned. reflexivity.
  - destruct (polled_log h 1 w) as [Hlog _]. rewrite Hlog.
    cbn [repeat concat]. now rewrite app_nil_r.
  - intros Hds Hrt. unfold tx_result. now rewrite Hds, Hrt.
  - intros Hmode Hk.
    assert (Hk' : tx_done h (status_at w k) = true)
      by (apply tx_done_true; exact Hk).
    destruct (first_tx_done h w k Hk') as [n [Hle [Hn Hbefore]]].
    exists n. split; [exact Hle|]. split; [now apply tx_done_true|].
    split; [intros j Hj; apply tx_done_false; now apply Hbefore|].
    split; [|split].
    + rewrite <- tx_result_returned. apply result_code_nonzero.
      rewrite tx_done_loop_condition in Hn.
      destruct (Z.land _ _ =? 0) eqn:E; [discriminate|].
      now apply Z.eqb_neq in E.
    + apply polled_log.
    + intros fuel Hfuel. unfold Example.NRF24L01_WaitForTxComplete.
      apply Z.eqb_neq in Hmode. rewrite Hmode.
      change (snd (Example.NRF24L01_GetStatus h w)) with (polled h 1 w).
      rewrite (wait_loop_polls h n w fuel Hbefore Hn Hfuel).
      rewrite polled_status, tx_result_returned. reflexivity.
Qed.

Lemma wait_for_tx_complete_witness :
  1 <> 0 /\
  (Z.land (status_at (boot (scripted [0x0E; 0; 0x0E; 0; 0x1E; 0] 0) heap_ok) 2)
          (RF24_TX_DS datasheet) <> 0 \/
   Z.land (status_at (boot (scripted [0x0E; 0; 0x0E; 0; 0x1E; 0] 0) heap_ok) 2)
          (RF24_MAX_RT datasheet) <> 0) /\
  exists w' : world,
    Example.NRF24L01_WaitForTxComplete datasheet 3 1
      (boot (scripted [0x0E; 0; 0x0E; 0; 0x1E; 0] 0) heap_ok)
    = Some (0x100, w') /\
    rx_count w' = 6%nat.
Proof.
  assert (Hk : Z.land (status_at (boot (scripted [0x0E; 0; 0x0E; 0; 0x1E; 0] 0)
                                       heap_ok) 2)
                      (RF24_TX_DS datasheet) <> 0 \/
               Z.land (status_at (boot (scripted [0x0E; 0; 0x0E; 0; 0x1E; 0] 0)
                                       heap_ok) 2)
                      (RF24_MAX_RT datasheet) <> 0)
    by (right; vm_compute; discriminate).
  split; [lia|]. split; [exact Hk|].
  destruct (wait_for_tx_complete datasheet
              (boot (scripted [0x0E; 0; 0x0E; 0; 0x1E; 0] 0) heap_ok) 1 2%nat)
    as [_ [_ [_ Hblocking]]].
  destruct (Hblocking ltac:(lia) Hk)
    as [n [Hle [Hn [_ [_ [_ Hrun]]]]]].
  assert (Hn2 : n = 2%nat).
  { destruct n as [|[|[|n]]]; [| |reflexivity|lia];
      exfalso; destruct Hn as [Hn | Hn]; apply Hn; reflexivity. }
  subst n. eexists. split; [apply (Hrun 3%nat); lia | reflexivity].
Defined.

(** ** Pipes *)

(** The register of pipe [p], counted from the first pipe's register
    [base]. *)
Lemma pipe_register (base p : Z) :
  is_u8 base -> base + 5 < 256 -> 0 <= p < 6 -> u8 (base + p) = base + p.
Proof. unfold is_u8. intros Hb Hlast Hp. apply u8_id. unfold is_u8. lia. Qed.

(** C6: for a pipe index below six, [NRF24L01_GetRxDataAmount] reads register
    [RX_PW_P0 + pipeIndex] in one transaction and returns the low six bits of
    the value read; for every index from six up it returns zero and leaves
    the world untouched.  Both variants. *)
Theorem get_rx_data_amount (h : nRF24L01_h) (w : world) (ucDataPipe : Z) :
  header_ok h -> is_u8 ucDataPipe ->
  (ucDataPipe < 6 ->
   eval (Arm.NRF24L01_GetRxDataAmount h ucDataPipe) w
     = Z.land (u8 (miso w (S (rx_count w)))) 0x3F /\
   log (exec (Arm.NRF24L01_GetRxDataAmount h ucDataPipe) w)
     = log w ++ read_txn h w (RF24_RX_PW_P0 h + ucDataPipe) /\
   eval (Example.NRF24L01_GetRxDataAmount h ucDataPipe) w
     = Z.land (u8 (miso w (S (rx_count w)))) 0x3F /\
   log (exec (Example.NRF24L01_GetRxDataAmount h ucDataPipe) w)
     = log w ++ read_txn h w (RF24_RX_PW_P0 h + ucDataPipe)) /\
  (6 <= ucDataPipe ->
   Arm.NRF24L01_GetRxDataAmount h ucDataPipe w = (0, w) /\
   Example.NRF24L01_GetRxDataAmount h ucDataPipe w = (0, w)).
Proof.
  intros Hh Hp. header_fields Hh. split.
  - intros Hlt.
    assert (Hreg : u8 (RF24_RX_PW_P0 h + ucDataPipe)
                   = RF24_RX_PW_P0 h + ucDataPipe)
      by (apply pipe_register; unfold is_u8 in *; try assumption; lia).
    assert (Hcmd : is_u8 (RF24_RX_PW_P0 h + ucDataPipe))
      by (rewrite <- Hreg; apply u8_range).
    unfold Arm.NRF24L01_GetRxDataAmount, Example.NRF24L01_GetRxDataAmount.
    apply Z.ltb_lt in Hlt. rewrite Hlt.
    unfold exec, eval, bind, ret.
    rewrite Arm_read8_run, Example_read8_run. cbn [fst snd log].
    unfold read_txn. rewrite Hreg, lor_u8 by assumption.
    rewrite (u8_id (RF24_NOP h)) by assumption.
    repeat split; reflexivity.
  - intros Hge.
    unfold Arm.NRF24L01_GetRxDataAmount, Example.NRF24L01_GetRxDataAmount.
    apply Z.ltb_ge in Hge. rewrite Hge. split; reflexivity.
Qed.

Lemma get_rx_data_amount_witness :
  header_ok datasheet /\ is_u8 255 /\ 6 <= 255 /\ is_u8 2 /\ 2 < 6 /\
  Arm.NRF24L01_GetRxDataAmount datasheet 255
    (boot (scripted [0x0E; 0xE0] 0) heap_ok)
    = (0, boot (scripted [0x0E; 0xE0] 0) heap_ok) /\
  eval (Example.NRF24L01_GetRxDataAmount datasheet 2)
       (boot (scripted [0x0E; 0xE0] 0) heap_ok) = 0x20.
Proof.
  split; [exact header_ok_datasheet|].
  split; [unfold is_u8; lia|]. split; [lia|].
  split; [unfold is_u8; lia|]. split; [lia|].
  split.
  - apply (get_rx_data_amount datasheet
             (boot (scripted [0x0E; 0xE0] 0) heap_ok) 255
             header_ok_datasheet ltac:(unfold is_u8; lia)).
    lia.
  - destruct (get_rx_data_amount datasheet
                (boot (scripted [0x0E; 0xE0] 0) heap_ok) 2
                header_ok_datasheet ltac:(unfold is_u8; lia))
      as [Hin _].
    destruct (Hin ltac:(lia)) as [_ [_ [Hval _]]]. exact Hval.
Defined.

(** Which arm of the pipe switch is taken. *)
Lemma Arm_set_rx_address_cases
    (h : nRF24L01_h) (p : Z) (addr : list Z) :
  Arm.NRF24L01_SetRxAddress h p (Some addr) =
  if (0 <=? p) && (p <=? 1) then
    Arm._NRF24L01_RegisterWrite_Multi h (u8 (RF24_RX_ADDR_P0 h + p))
      (Some addr) 5
  else if (2 <=? p) && (p <=? 5) then
    Arm._NRF24L01_RegisterWrite_8 h (u8 (RF24_RX_ADDR_P0 h + p)) (nth 0 addr 0)
  else ret tt.
Proof.
  unfold Arm.NRF24L01_SetRxAddress.
  destruct p as [|q|q]; try reflexivity.
  destruct q as [[q|q|]|[q|q|]|]; try reflexivity;
    destruct q; reflexivity.
Qed.

Lemma Example_set_rx_address_cases
    (h : nRF24L01_h) (p : Z) (addr : list Z) :
  Example.NRF24L01_SetRxAddress h p (Some addr) =
  if (0 <=? p) && (p <=? 1) then
    Example.NRF24L01_RegisterWrite_Multi h (u8 (RF24_RX_ADDR_P0 h + p))
      (Some addr) 5
  else if (2 <=? p) && (p <=? 5) then
    Example.NRF24L01_RegisterWrite_8 h (u8 (RF24_RX_ADDR_P0 h + p))
      (nth 0 addr 0)
  else ret tt.
Proof.
  unfold Example.NRF24L01_SetRxAddress.
  destruct p as [|q|q]; try reflexivity.
  destruct q as [[q|q|]|[q|q|]|]; try reflexivity;
    destruct q; reflexivity.
Qed.

(** C7: with a non-null five-byte address, [NRF24L01_SetRxAddress] issues,
    for pipes 0 and 1, exactly one multi-byte register write of length five
    to register [RX_ADDR_P0 + pipeIndex], which (its buffer allocated) is
    one bracket around the write opcode and the five address bytes; for pipes
    2 to 5, exactly one single-byte register write of [address[0]] to
    [RX_ADDR_P0 + pipeIndex]; and for every index from six up, nothing.
    Both variants. *)
Theorem set_rx_address
    (h : nRF24L01_h) (w : world) (ucDataPipe : Z) (address : list Z)
    (junk : nat -> Z) :
  header_ok h -> is_u8 ucDataPipe -> length address = 5%nat ->
  (ucDataPipe = 0 \/ ucDataPipe = 1 ->
   Arm.NRF24L01_SetRxAddress h ucDataPipe (Some address)
     = Arm._NRF24L01_RegisterWrite_Multi h
         (RF24_RX_ADDR_P0 h + ucDataPipe) (Some address) 5 /\
   Example.NRF24L01_SetRxAddress h ucDataPipe (Some address)
     = Example.NRF24L01_RegisterWrite_Multi h
         (RF24_RX_ADDR_P0 h + ucDataPipe) (Some address) 5 /\
   (heap w (alloc_count w) = Some junk ->
    log (exec (Arm.NRF24L01_SetRxAddress h ucDataPipe (Some address)) w)
      = log w ++ bracket w
          (Z.lor (RF24_W_REGISTER h) (RF24_RX_ADDR_P0 h + ucDataPipe)
             :: address) /\
    log (exec (Example.NRF24L01_SetRxAddress h ucDataPipe (Some address)) w)
      = log w ++ bracket w
          (Z.lor (RF24_W_REGISTER h) (RF24_RX_ADDR_P0 h + ucDataPipe)
             :: address))) /\
  (2 <= ucDataPipe <= 5 ->
   log (exec (Arm.NRF24L01_SetRxAddress h ucDataPipe (Some address)) w)
     = log w ++ write_txn h w (RF24_RX_ADDR_P0 h + ucDataPipe)
                  (nth 0 address 0) /\
   log (exec (Example.NRF24L01_SetRxAddress h ucDataPipe (Some address)) w)
     = log w ++ write_txn h w (RF24_RX_ADDR_P0 h + ucDataPipe)
                  (nth 0 address 0)) /\
  (6 <= ucDataPipe ->
   Arm.NRF24L01_SetRxAddress h ucDataPipe (Some address) w = (tt, w) /\
   Example.NRF24L01_SetRxAddress h ucDataPipe (Some address) w = (tt, w)).
Proof.
  intros Hh Hp Hlen. header_fields Hh.
  rewrite Arm_set_rx_address_cases, Example_set_rx_address_cases.
  assert (Hreg : 0 <= ucDataPipe < 6 ->
                 u8 (RF24_RX_ADDR_P0 h + ucDataPipe)
                 = RF24_RX_ADDR_P0 h + ucDataPipe)
    by (intros; apply pipe_register; assumption).
  assert (Hcmd : 0 <= ucDataPipe < 6 ->
                 u8 (Z.lor (RF24_W_REGISTER h)
                           (RF24_RX_ADDR_P0 h + ucDataPipe))
                 = Z.lor (RF24_W_REGISTER h) (RF24_RX_ADDR_P0 h + ucDataPipe)).
  { intros Hin. apply lor_u8; [assumption|].
    rewrite <- (Hreg Hin). apply u8_range. }
  split; [|split].
  - intros Hpipe.
    replace ((0 <=? ucDataPipe) && (ucDataPipe <=? 1)) with true by lia.
    rewrite Hreg by lia. split; [reflexivity|]. split; [reflexivity|].
    intros Hheap. change 5 with (Z.of_nat 5). rewrite <- Hlen. unfold exec.
    rewrite (Arm_write_multi_run h _ address junk w Hheap)
      by (rewrite Hlen; simpl; lia).
    rewrite (Example_write_multi_run h _ address junk w Hheap).
    cbn [snd log]. rewrite Hcmd by lia. split; reflexivity.
  - intros Hpipe.
    replace ((0 <=? ucDataPipe) && (ucDataPipe <=? 1)) with false by lia.
    replace ((2 <=? ucDataPipe) && (ucDataPipe <=? 5)) with true by lia.
    unfold exec. rewrite Arm_write8_run, Example_write8_run.
    cbn [snd log]. unfold write_txn.
    rewrite Hreg, Hcmd by lia. split; reflexivity.
  - intros Hpipe.
    replace ((0 <=? ucDataPipe) && (ucDataPipe <=? 1)) with false by lia.
    replace ((2 <=? ucDataPipe) && (ucDataPipe <=? 5)) with false by lia.
    split; reflexivity.
Qed.

Lemma set_rx_address_witness :
  header_ok datasheet /\ is_u8 0 /\ is_u8 3 /\ is_u8 6 /\
  length [0xAA; 0xBB; 0xCC; 0xDD; 0xEE] = 5%nat /\
  log (exec (Example.NRF24L01_SetRxAddress datasheet 0
               (Some [0xAA; 0xBB; 0xCC; 0xDD; 0xEE]))
            (boot (scripted [0x0E] 0) heap_ok))
    = [GPIOPinWrite 0x40024000 0x04 0x00;
       SPIByte 0x2A; SPIByte 0xAA; SPIByte 0xBB; SPIByte 0xCC; SPIByte 0xDD;
       SPIByte 0xEE;
       GPIOPinWrite 0x40024000 0x04 0xFF] /\
  log (exec (Arm.NRF24L01_SetRxAddress datasheet 3
               (Some [0xAA; 0xBB; 0xCC; 0xDD; 0xEE]))
            (boot (scripted [0x0E] 0) heap_ok))
    = [GPIOPinWrite 0x40024000 0x04 0x00; SPIByte 0x2D; SPIByte 0xAA;
       GPIOPinWrite 0x40024000 0x04 0xFF] /\
  Arm.NRF24L01_SetRxAddress datasheet 6
    (Some [0xAA; 0xBB; 0xCC; 0xDD; 0xEE]) (boot (scripted [0x0E] 0) heap_ok)
    = (tt, boot (scripted [0x0E] 0) heap_ok).
Proof.
  split; [exact header_ok_datasheet|].
  split; [unfold is_u8; lia|]. split; [unfold is_u8; lia|].
  split; [unfold is_u8; lia|]. split; [reflexivity|].
  split; [|split].
  - destruct (set_rx_address datasheet (boot (scripted [0x0E] 0) heap_ok) 0
                [0xAA; 0xBB; 0xCC; 0xDD; 0xEE] (fun _ => 0xA5)
                header_ok_datasheet ltac:(unfold is_u8; lia) eq_refl)
      as [Hfull _].
    destruct (Hfull (or_introl eq_refl)) as [_ [_ Hlog]].
    exact (proj2 (Hlog eq_refl)).
  - destruct (set_rx_address datasheet (boot (scripted [0x0E] 0) heap_ok) 3
                [0xAA; 0xBB; 0xCC; 0xDD; 0xEE] (fun _ => 0xA5)
                header_ok_datasheet ltac:(unfold is_u8; lia) eq_refl)
      as [_ [Hlow _]].
    exact (proj1 (Hlow ltac:(lia))).
  - destruct (set_rx_address datasheet (boot (scripted [0x0E] 0) heap_ok) 6
                [0xAA; 0xBB; 0xCC; 0xDD; 0xEE] (fun _ => 0xA5)
                header_ok_datasheet ltac:(unfold is_u8; lia) eq_refl)
      as [_ [_ Hnone]].
    exact (proj1 (Hnone ltac:(lia))).
Defined.

(** ** Configuration setters *)

(** A register read followed by a write of a function of the value read:
    the shape shared by the setters of [RF_SETUP]. *)
Lemma Arm_read_then_write_log
    (h : nRF24L01_h) (reg : Z) (f : Z -> Z) (w : world) :
  header_ok h -> is_u8 reg ->
  log (exec (bind (Arm.NRF24L01_RegisterRead_8 h reg)
               (fun v => Arm._NRF24L01_RegisterWrite_8 h reg (f v))) w)
  = log w ++ read_txn h w reg
      ++ write_txn h w reg (f (u8 (miso w (S (rx_count w))))).
Proof.
  intros Hh Hreg. header_fields Hh. unfold exec, bind.
  rewrite Arm_read8_run, Arm_write8_run. cbn [snd log].
  unfold read_txn, write_txn, bracket, CSN_low, CSN_high.
  cbn [g_ulCSNBase g_ulCSNPin].
  rewrite !lor_u8 by assumption. rewrite (u8_id (RF24_NOP h)) by assumption.
  now rewrite <- app_assoc.
Qed.

Lemma Example_read_then_write_log
    (h : nRF24L01_h) (reg : Z) (f : Z -> Z) (w : world) :
  header_ok h -> is_u8 reg ->
  log (exec (bind (Example.NRF24L01_RegisterRead_8 h reg)
               (fun v => Example.NRF24L01_RegisterWrite_8 h reg (f v))) w)
  = log w ++ read_txn h w reg
      ++ write_txn h w reg (f (u8 (miso w (S (rx_count w))))).
Proof.
  intros Hh Hreg. header_fields Hh. unfold exec, bind.
  rewrite Example_read8_run, Example_write8_run. cbn [snd log].
  unfold read_txn, write_txn, bracket, CSN_low, CSN_high.
  cbn [g_ulCSNBase g_ulCSNPin].
  rewrite !lor_u8 by assumption. rewrite (u8_id (RF24_NOP h)) by assumption.
  now rewrite <- app_assoc.
Qed.

(** OR-ing into a byte keeps every bit the byte had. *)
Lemma or_keeps_bits (v x i : Z) :
  is_u8 v -> Z.testbit v i = true -> Z.testbit (u8 (Z.lor v x)) i = true.
Proof.
  intros Hv Hbit. rewrite u8_lor, Z.lor_spec, (u8_id v Hv), Hbit.
  reflexivity.
Qed.


(** C10: the three setters of [RF_SETUP] in the arm variant read the
    register and write back the value read with bits OR-ed in:
    [v | (a << 3)] for the air data rate, [v | a] for the LNA gain and
    [v | (a << 1)] for the PA gain, each kept to the eight bits of the
    register.  Every bit set in the value read is set in the value written;
    so after [NRF24L01_SetAirDataRate(1)], a call with argument 0 that reads
    back what was written writes a value whose data-rate bit is still set. *)
Theorem rf_setup_setters_only_or (h : nRF24L01_h) (w : world) (a : Z) :
  header_ok h -> is_u8 a ->
  let v := u8 (miso w (S (rx_count w))) in
  let reg := RF24_RF_SETUP h in
  (log (exec (Arm.NRF24L01_SetAirDataRate h a) w)
     = log w ++ read_txn h w reg
         ++ write_txn h w reg (u8 (Z.lor v (Z.shiftl a 3))) /\
   log (exec (Arm.NRF24L01_SetLNAGain h a) w)
     = log w ++ read_txn h w reg ++ write_txn h w reg (Z.lor v a) /\
   log (exec (Arm.NRF24L01_SetPAGain h a) w)
     = log w ++ read_txn h w reg
         ++ write_txn h w reg (u8 (Z.lor v (Z.shiftl a 1)))) /\
  (a < 32 -> u8 (Z.lor v (Z.shiftl a 3)) = Z.lor v (Z.shiftl a 3)) /\
  (a < 128 -> u8 (Z.lor v (Z.shiftl a 1)) = Z.lor v (Z.shiftl a 1)) /\
  (forall i : Z,
     Z.testbit v i = true ->
     Z.testbit (u8 (Z.lor v (Z.shiftl a 3))) i = true /\
     Z.testbit (Z.lor v a) i = true /\
     Z.testbit (u8 (Z.lor v (Z.shiftl a 1))) i = true) /\
  (let w1 := exec (Arm.NRF24L01_SetAirDataRate h 1) w in
   u8 (miso w1 (S (rx_count w1))) = u8 (Z.lor v (Z.shiftl 1 3)) ->
   exists v2 : Z,
     log (exec (Arm.NRF24L01_SetAirDataRate h 0) w1)
       = log w1 ++ read_txn h w1 reg ++ write_txn h w1 reg v2 /\
     Z.testbit v2 3 = true).
Proof.
  intros Hh Ha v reg.
  assert (Hreg : is_u8 reg) by (header_fields Hh; assumption).
  assert (Hureg : u8 reg = reg) by now apply u8_id.
  assert (Hv : is_u8 v) by apply u8_range.
  assert (Hshl : forall n, 0 <= n -> Z.shiftl a n = a * 2 ^ n)
    by (intros; now apply Z.shiftl_mul_pow2).
  split; [|split; [|split; [|split]]].
  - unfold Arm.NRF24L01_SetAirDataRate, Arm.NRF24L01_SetLNAGain,
      Arm.NRF24L01_SetPAGain. fold reg. rewrite Hureg.
    split; [|split].
    + apply (Arm_read_then_write_log h reg
               (fun c => u8 (Z.lor c (Z.shiftl a 3))) w Hh Hreg).
    + rewrite <- (lor_u8 v a Hv Ha).
      apply (Arm_read_then_write_log h reg
               (fun c => u8 (Z.lor c (Z.shiftl a 0))) w Hh Hreg).
    + apply (Arm_read_then_write_log h reg
               (fun c => u8 (Z.lor c (Z.shiftl a 1))) w Hh Hreg).
  - intros Hsmall. apply lor_u8; [assumption|].
    rewrite Hshl by lia. unfold is_u8 in *. lia.
  - intros Hsmall. apply lor_u8; [assumption|].
    rewrite Hshl by lia. unfold is_u8 in *. lia.
  - intros i Hbit. split; [|split].
    + now apply or_keeps_bits.
    + rewrite Z.lor_spec, Hbit. reflexivity.
    + now apply or_keeps_bits.
  - intros w1 Hback.
    exists (u8 (Z.lor (u8 (miso w1 (S (rx_count w1)))) (Z.shiftl 0 3))).
    split.
    + unfold Arm.NRF24L01_SetAirDataRate at 1. fold reg. rewrite Hureg.
      apply (Arm_read_then_write_log h reg
               (fun c => u8 (Z.lor c (Z.shiftl 0 3))) w1 Hh Hreg).
    + apply or_keeps_bits; [apply u8_range|]. rewrite Hback.
      rewrite u8_lor, Z.lor_spec. change (u8 (Z.shiftl 1 3)) with 8.
      change (Z.testbit 8 3) with true. apply orb_true_r.
Qed.

Lemma rf_setup_setters_only_or_witness :
  header_ok datasheet /\ is_u8 1 /\
  log (exec (Arm.NRF24L01_SetAirDataRate datasheet 1)
            (boot (scripted [0x0E; 0x01; 0x0E; 0x0E; 0x09] 0) heap_ok))
    = [GPIOPinWrite 0x40024000 0x04 0x00; SPIByte 0x06; SPIByte 0xFF;
       GPIOPinWrite 0x40024000 0x04 0xFF;
       GPIOPinWrite 0x40024000 0x04 0x00; SPIByte 0x26; SPIByte 0x09;
       GPIOPinWrite 0x40024000 0x04 0xFF] /\
  exists v2 : Z,
    log (exec (Arm.NRF24L01_SetAirDataRate datasheet 0)
           (exec (Arm.NRF24L01_SetAirDataRate datasheet 1)
              (boot (scripted [0x0E; 0x01; 0x0E; 0x0E; 0x09] 0) heap_ok)))
      = log (exec (Arm.NRF24L01_SetAirDataRate datasheet 1)
               (boot (scripted [0x0E; 0x01; 0x0E; 0x0E; 0x09] 0) heap_ok))
        ++ [GPIOPinWrite 0x40024000 0x04 0x00; SPIByte 0x06; SPIByte 0xFF;
            GPIOPinWrite 0x40024000 0x04 0xFF;
            GPIOPinWrite 0x40024000 0x04 0x00; SPIByte 0x26; SPIByte v2;
            GPIOPinWrite 0x40024000 0x04 0xFF] /\
    Z.testbit v2 3 = true.
Proof.
  destruct (rf_setup_setters_only_or datasheet
              (boot (scripted [0x0E; 0x01; 0x0E; 0x0E; 0x09] 0) heap_ok) 1
              header_ok_datasheet ltac:(unfold is_u8; lia))
    as [[Hrate _] [_ [_ [_ Htwice]]]].
  split; [exact header_ok_datasheet|]. split; [unfold is_u8; lia|].
  split; [exact Hrate|].
  destruct (Htwice eq_refl) as [v2 [Hlog Hbit]].
  exists v2. split; [exact Hlog | exact Hbit].
Defined.












(** * Beyond the transaction layer: the rest of the two files *)

(** ** Worlds reached by driver activity *)

Lemma advance_nothing (w : world) : advance [] 0 0 (g_ucStatus w) w = w.
Proof. destruct w. unfold advance. cbn. now rewrite app_nil_r. Qed.

Lemma advance_advance
    (e1 e2 : list event) (r1 r2 a1 a2 : nat) (s1 s2 : Z) (w : world) :
  advance e2 r2 a2 s2 (advance e1 r1 a1 s1 w)
  = advance (e1 ++ e2) (r2 + r1) (a2 + a1) s2 w.
Proof.
  unfold advance. cbn [g_ulCEPin g_ulCEBase g_ulCSNPin g_ulCSNBase g_ucStatus
                       miso rx_count heap alloc_count log].
  now rewrite app_assoc, !Nat.add_assoc.
Qed.

Lemma bracket_advance
    (evs : list event) (rx al : nat) (st : Z) (w : world) (bs : list Z) :
  bracket (advance evs rx al st w) bs = bracket w bs.
Proof. reflexivity. Qed.

(** The discipline only looks at the pins of the world. *)
Lemma transactions_advance
    (evs0 : list event) (rx al : nat) (st : Z) (w : world) (evs : list event) :
  transactions (advance evs0 rx al st w) evs -> transactions w evs.
Proof.
  induction 1 as [|bs rest _ IH|v rest _ IH].
  - constructor.
  - rewrite bracket_advance. now constructor.
  - change (CE_write (advance evs0 rx al st w) v) with (CE_write w v).
    now constructor.
Qed.

Lemma transactions_app (w : world) (e1 e2 : list event) :
  transactions w e1 -> transactions w e2 -> transactions w (e1 ++ e2).
Proof.
  induction 1 as [|bs rest _ IH|v rest _ IH]; intros H2.
  - exact H2.
  - rewrite <- app_assoc. constructor. now apply IH.
  - cbn [app]. constructor. now apply IH.
Qed.

Lemma transactions_one_bracket (w : world) (bs : list Z) :
  transactions w (bracket w bs).
Proof.
  rewrite <- (app_nil_r (bracket w bs)). constructor. constructor.
Qed.

Lemma driven_refl (w : world) : driven w w.
Proof.
  exists [], 0%nat, 0%nat, (g_ucStatus w).
  split; [symmetry; apply advance_nothing|]. split; [constructor | now left].
Qed.

(** The first byte of the bytes taken is one of them. *)
Lemma first_received (w : world) (rx : nat) :
  kept_or_received w (S rx) (u8 (miso w (rx_count w))).
Proof. right. exists 0%nat. split; [lia | reflexivity]. Qed.

Lemma status_kept (w : world) (rx : nat) :
  kept_or_received w rx (g_ucStatus w).
Proof. now left. Qed.

Lemma driven_trans (w1 w2 w3 : world) :
  driven w1 w2 -> driven w2 w3 -> driven w1 w3.
Proof.
  intros (e1 & r1 & a1 & s1 & -> & T1 & S1) (e2 & r2 & a2 & s2 & -> & T2 & S2).
  exists (e1 ++ e2), (r2 + r1)%nat, (a2 + a1)%nat, s2.
  split; [apply advance_advance|]. split.
  - apply transactions_app; [assumption|].
    now apply transactions_advance in T2.
  - destruct S2 as [-> | [k [Hk ->]]].
    + destruct S1 as [-> | [k [Hk ->]]]; [now left | right].
      exists k. split; [lia | reflexivity].
    + right. exists (k + r1)%nat. split; [lia|].
      cbn [advance miso rx_count]. now rewrite Nat.add_assoc.
Qed.

(** One complete bracket, with the status replaced by a byte, is driver
    activity; so is a bracket that leaves the status alone. *)
Lemma driven_bracket
    (w : world) (bs : list Z) (rx al : nat) (st : Z) :
  kept_or_received w rx st ->
  driven w (advance (bracket w bs) rx al st w).
Proof.
  intros Hst. exists (bracket w bs), rx, al, st.
  split; [reflexivity|]. split; [apply transactions_one_bracket | exact Hst].
Qed.

Lemma driven_alloc_only (w : world) : driven w (take_alloc w).
Proof.
  exists [], 0%nat, 1%nat, (g_ucStatus w).
  split; [|split; [constructor | now left]].
  destruct w. unfold advance, take_alloc. cbn. now rewrite app_nil_r.
Qed.

Lemma safe_ret {A : Type} (a : A) : safe (ret a).
Proof. intros w. apply driven_refl. Qed.

Lemma safe_bind {A B : Type} (c : M A) (k : A -> M B) :
  safe c -> (forall a, safe (k a)) -> safe (bind c k).
Proof.
  intros Hc Hk w. unfold exec, bind.
  specialize (Hc w). unfold exec in Hc.
  destruct (c w) as [a w1]. cbn [snd] in Hc.
  apply (driven_trans w w1); [exact Hc | apply Hk].
Qed.

Lemma safe_ignore {A : Type} (c : M A) : safe c -> safe (ignore c).
Proof. intros Hc w. apply Hc. Qed.

Lemma safe_peek {A : Type} (f : world -> A) : safe (fun w => (f w, w)).
Proof. intros w. apply driven_refl. Qed.

(** ** The primitives are safe, whatever their arguments *)

Lemma safe_CE (base pin v : Z) (w : world) :
  base = g_ulCEBase w -> pin = g_ulCEPin w ->
  driven w (exec (ROM_GPIOPinWrite base pin v) w).
Proof.
  intros -> ->. exists [CE_write w v], 0%nat, 0%nat, (g_ucStatus w).
  split; [reflexivity|]. split; [repeat constructor | now left].
Qed.

Lemma Arm_safe_CELow : safe Arm._NRF24L01_CELow.
Proof. intros w. now apply safe_CE. Qed.

Lemma Arm_safe_CEHigh : safe Arm._NRF24L01_CEHigh.
Proof. intros w. now apply safe_CE. Qed.

Lemma Example_safe_CELow : safe Example._NRF24L01_CELow.
Proof. intros w. now apply safe_CE. Qed.

Lemma Example_safe_CEHigh : safe Example._NRF24L01_CEHigh.
Proof. intros w. now apply safe_CE. Qed.

Lemma Arm_safe_read8 (h : nRF24L01_h) (r : Z) :
  safe (Arm.NRF24L01_RegisterRead_8 h r).
Proof.
  intros w. unfold exec. rewrite Arm_read8_run.
  exact (driven_bracket w _ 2 0 _ (first_received w _)).
Qed.

Lemma Example_safe_read8 (h : nRF24L01_h) (r : Z) :
  safe (Example.NRF24L01_RegisterRead_8 h r).
Proof.
  intros w. unfold exec. rewrite Example_read8_run.
  exact (driven_bracket w _ 2 0 _ (first_received w _)).
Qed.

Lemma Arm_safe_write8 (h : nRF24L01_h) (r v : Z) :
  safe (Arm._NRF24L01_RegisterWrite_8 h r v).
Proof.
  intros w. unfold exec. rewrite Arm_write8_run.
  exact (driven_bracket w _ 1 0 _ (first_received w _)).
Qed.

Lemma Example_safe_write8 (h : nRF24L01_h) (r v : Z) :
  safe (Example.NRF24L01_RegisterWrite_8 h r v).
Proof.
  intros w. unfold exec. rewrite Example_write8_run.
  exact (driven_bracket w _ 2 0 _ (first_received w _)).
Qed.

Lemma Arm_safe_write_multi (h : nRF24L01_h) (r : Z) (p : ptr) (n : Z) :
  safe (Arm._NRF24L01_RegisterWrite_Multi h r p n).
Proof.
  intros w. unfold Arm._NRF24L01_RegisterWrite_Multi.
  destruct p as [data|]; [|apply driven_refl].
  unfold exec, bind, malloc.
  destruct (heap w (alloc_count w)) as [junk|]; [|apply driven_alloc_only].
  run_driver. repeat rewrite <- app_assoc.
  exact (driven_bracket w _ 1 1 _ (first_received w _)).
Qed.

Lemma Example_safe_write_multi (h : nRF24L01_h) (r : Z) (p : ptr) (n : Z) :
  safe (Example.NRF24L01_RegisterWrite_Multi h r p n).
Proof.
  intros w. unfold Example.NRF24L01_RegisterWrite_Multi.
  destruct p as [data|]; [|apply driven_refl].
  unfold exec, bind, malloc.
  destruct (heap w (alloc_count w)) as [junk|]; [|apply driven_alloc_only].
  run_driver. repeat rewrite <- app_assoc.
  exact (driven_bracket w
           (u8 (Z.lor (RF24_W_REGISTER h) r)
              :: firstn (Z.to_nat n)
                   (memcpy (map (fun i => u8 (junk i))
                              (seq 0 (Z.to_nat (u32 (1 * n))))) 0 data n))
           1 1 _ (first_received w _)).
Qed.

Lemma Arm_safe_send_command (c : Z) (p : ptr) (n : Z) :
  safe (Arm._NRF24L01_SendCommand c p n).
Proof.
  intros w. unfold exec, Arm._NRF24L01_SendCommand, bind, malloc.
  destruct (heap w (alloc_count w)) as [junk|]; [|apply driven_alloc_only].
  run_driver. repeat rewrite <- app_assoc.
  exact (driven_bracket w _ 1 1 _ (first_received w _)).
Qed.

Lemma Example_safe_send_command (c : Z) (p : ptr) (n : Z) :
  safe (Example._NRF24L01_SendCommand c p n).
Proof.
  intros w. unfold exec, Example._NRF24L01_SendCommand, bind, malloc.
  destruct (heap w (alloc_count w)) as [junk|]; [|apply driven_alloc_only].
  run_driver. repeat rewrite <- app_assoc.
  exact (driven_bracket w _ 0 1 _ (status_kept w _)).
Qed.

(** ** Multi-byte register read *)

Lemma received_S (w : world) (n : nat) :
  received w (S n)
  = u8 (miso w (rx_count w))
      :: received (advance [] 1 0 (g_ucStatus w) w) n.
Proof.
  unfold received. cbn [seq map rx_count advance miso].
  rewrite Nat.add_0_r. f_equal.
  rewrite <- seq_shift, map_map. apply map_ext. intros j.
  now rewrite Nat.add_succ_r.
Qed.

Lemma received_length (w : world) (n : nat) : length (received w n) = n.
Proof. unfold received. now rewrite length_map, length_seq. Qed.

Lemma read_bytes_run (h : nRF24L01_h) (n : nat) :
  forall (i : nat) (buf : list Z) (w : world),
    Example.read_bytes h n i buf w
    = (store_from buf i (received w n),
       advance (map SPIByte (repeat (u8 (RF24_NOP h)) n)) n 0
               (g_ucStatus w) w).
Proof.
  induction n as [|n IH]; intros i buf w.
  - cbn. unfold ret. now rewrite advance_nothing.
  - cbn [Example.read_bytes]. unfold bind, pdlibSPI_TransferByte.
    rewrite IH, received_S. cbn [store_from].
    change (take_miso (record [SPIByte (u8 (RF24_NOP h))] w))
      with (advance [SPIByte (u8 (RF24_NOP h))] 1 0 (g_ucStatus w) w).
    rewrite advance_advance. cbn [g_ucStatus advance repeat map app].
    rewrite Nat.add_1_r. reflexivity.
Qed.

Lemma Example_read_multi_run
    (h : nRF24L01_h) (r : Z) (buf : list Z) (n : Z) (w : world) :
  Example.NRF24L01_RegisterRead_Multi h r buf n w
  = (u8 (miso w (rx_count w)),
     store_from buf 0 (skipn 1 (received w (S (Z.to_nat n)))),
     advance
       (bracket w (u8 (Z.lor (RF24_R_REGISTER h) r)
                     :: repeat (u8 (RF24_NOP h)) (Z.to_nat n)))
       (S (Z.to_nat n)) 0 (u8 (miso w (rx_count w))) w).
Proof.
  destruct w as [cep ceb csp csb st0 ms rx hp al lg].
  unfold Example.NRF24L01_RegisterRead_Multi.
  unfold bind at 1 2 3 4. run_driver.
  rewrite read_bytes_run, received_S. cbn [skipn].
  unfold advance, received.
  cbn [g_ulCEPin g_ulCEBase g_ulCSNPin g_ulCSNBase g_ucStatus
       miso rx_count heap alloc_count log map Nat.add].
  rewrite Nat.add_succ_r. repeat rewrite <- app_assoc.
  reflexivity.
Qed.

Lemma store_at_spec (v : Z) :
  forall (dst : list Z) (i : nat),
    (i < length dst)%nat ->
    store_at dst i v = firstn i dst ++ v :: skipn (S i) dst.
Proof.
  induction dst as [|x dst IH]; intros i Hi; cbn [length] in Hi; [lia|].
  destruct i as [|i]; [reflexivity|].
  cbn [store_at firstn skipn app]. f_equal. apply IH. lia.
Qed.

Lemma store_from_spec (vs : list Z) :
  forall (dst : list Z) (i : nat),
    (i + length vs <= length dst)%nat ->
    store_from dst i vs = firstn i dst ++ vs ++ skipn (i + length vs) dst.
Proof.
  induction vs as [|v vs IH]; intros dst i Hlen; cbn [store_from length] in *.
  - rewrite Nat.add_0_r. symmetry. apply firstn_skipn.
  - rewrite store_at_spec by lia.
    assert (Hi : length (firstn i dst) = i) by (rewrite length_firstn; lia).
    rewrite IH.
    2:{ rewrite length_app. cbn [length]. rewrite Hi, length_skipn. lia. }
    rewrite firstn_app, Hi, firstn_all2 by lia.
    replace (S i - i)%nat with 1%nat by lia. cbn [firstn].
    rewrite skipn_app, Hi.
    rewrite (skipn_all2 (firstn i dst)) by lia.
    replace (S i + length vs - i)%nat with (S (length vs)) by lia.
    change (skipn (S (length vs)) (v :: skipn (S i) dst))
      with (skipn (length vs) (skipn (S i) dst)).
    rewrite skipn_skipn, <- app_assoc. cbn [app].
    replace (length vs + S i)%nat with (i + S (length vs))%nat by lia.
    reflexivity.
Qed.

(** X1: [NRF24L01_RegisterRead_Multi] on a buffer with room for [uiLength]
    bytes is one chip-select bracket around [READ_REGISTER_MASK | r] and
    [uiLength] no-op bytes.  Of the [1 + uiLength] bytes received the first
    is stored as status and returned, and the others fill the start of the
    buffer in order; the rest of the buffer is untouched. *)
Theorem register_read_multi
    (h : nRF24L01_h) (w : world) (r : Z) (pucBuffer : list Z) (uiLength : Z) :
  header_ok h -> is_u8 r ->
  (Z.to_nat uiLength <= length pucBuffer)%nat ->
  let n := Z.to_nat uiLength in
  eval (Example.NRF24L01_RegisterRead_Multi h r pucBuffer uiLength) w
    = (u8 (miso w (rx_count w)),
       skipn 1 (received w (S n)) ++ skipn n pucBuffer) /\
  log (exec (Example.NRF24L01_RegisterRead_Multi h r pucBuffer uiLength) w)
    = log w ++ bracket w (Z.lor (RF24_R_REGISTER h) r
                            :: repeat (RF24_NOP h) n) /\
  g_ucStatus
    (exec (Example.NRF24L01_RegisterRead_Multi h r pucBuffer uiLength) w)
    = u8 (miso w (rx_count w)) /\
  rx_count
    (exec (Example.NRF24L01_RegisterRead_Multi h r pucBuffer uiLength) w)
    = (S n + rx_count w)%nat.
Proof.
  intros Hh Hr Hroom n. header_fields Hh.
  unfold eval, exec. rewrite Example_read_multi_run. fold n.
  cbn [fst snd log g_ucStatus rx_count advance].
  rewrite lor_u8, (u8_id (RF24_NOP h)) by assumption.
  assert (Hlen : length (skipn 1 (received w (S n))) = n)
    by (rewrite length_skipn, received_length; lia).
  rewrite store_from_spec by (rewrite Hlen; cbn; lia).
  rewrite Hlen. cbn [firstn app Nat.add]. repeat split; reflexivity.
Qed.

Lemma register_read_multi_witness :
  header_ok datasheet /\ is_u8 0x0A /\
  (Z.to_nat 5 <= length [0; 0; 0; 0; 0; 0x77])%nat /\
  eval (Example.NRF24L01_RegisterRead_Multi datasheet 0x0A
          [0; 0; 0; 0; 0; 0x77] 5)
       (boot (scripted [0x0E; 0xE7; 0xE6; 0xE5; 0xE4; 0xE3] 0) heap_ok)
    = (0x0E, [0xE7; 0xE6; 0xE5; 0xE4; 0xE3; 0x77]).
Proof.
  split; [exact header_ok_datasheet|]. split; [unfold is_u8; lia|].
  split; [simpl; lia|].
  destruct (register_read_multi datasheet
              (boot (scripted [0x0E; 0xE7; 0xE6; 0xE5; 0xE4; 0xE3] 0) heap_ok)
              0x0A [0; 0; 0; 0; 0; 0x77] 5
              header_ok_datasheet ltac:(unfold is_u8; lia)
              ltac:(simpl; lia))
    as [Hval _].
  exact Hval.
Defined.

(** X2: a multi-byte read of length one is the single-register read: the
    same world results (same bracket, same status, same bytes taken), and
    the byte put at the start of the buffer is the one
    [NRF24L01_RegisterRead_8] returns. *)
Theorem register_read_multi_one_is_read_8
    (h : nRF24L01_h) (w : world) (r : Z) (pucBuffer : list Z) :
  pucBuffer <> [] ->
  exec (Example.NRF24L01_RegisterRead_Multi h r pucBuffer 1) w
    = exec (Example.NRF24L01_RegisterRead_8 h r) w /\
  eval (Example.NRF24L01_RegisterRead_Multi h r pucBuffer 1) w
    = (g_ucStatus (exec (Example.NRF24L01_RegisterRead_8 h r) w),
       eval (Example.NRF24L01_RegisterRead_8 h r) w :: skipn 1 pucBuffer).
Proof.
  intros Hbuf. destruct pucBuffer as [|x rest]; [congruence|].
  unfold exec, eval. rewrite Example_read_multi_run, Example_read8_run.
  change (Z.to_nat 1) with 1%nat. split; [reflexivity|].
  cbn [fst snd g_ucStatus]. unfold received. cbn. f_equal. f_equal.
  f_equal. f_equal. f_equal. lia.
Qed.

Lemma register_read_multi_one_is_read_8_witness :
  [0x55] <> [] /\
  eval (Example.NRF24L01_RegisterRead_Multi datasheet 0x06 [0x55] 1)
       (boot (scripted [0x0E; 0x0F] 0) heap_ok)
    = (0x0E, [0x0F]).
Proof.
  split; [discriminate|].
  destruct (register_read_multi_one_is_read_8 datasheet
              (boot (scripted [0x0E; 0x0F] 0) heap_ok) 0x06 [0x55]
              ltac:(discriminate)) as [_ Hval].
  exact Hval.
Defined.

(** ** Every call is safe *)

Create HintDb safe.

#[local] Hint Resolve safe_ret safe_bind safe_ignore safe_peek
  Arm_safe_CELow Arm_safe_CEHigh Example_safe_CELow Example_safe_CEHigh
  Arm_safe_read8 Example_safe_read8 Arm_safe_write8 Example_safe_write8
  Arm_safe_write_multi Example_safe_write_multi
  Arm_safe_send_command Example_safe_send_command : safe.

Lemma Example_safe_read_multi
    (h : nRF24L01_h) (r : Z) (buf : list Z) (n : Z) :
  safe (Example.NRF24L01_RegisterRead_Multi h r buf n).
Proof.
  intros w. unfold exec. rewrite Example_read_multi_run.
  exact (driven_bracket w _ _ 0 _ (first_received w _)).
Qed.

Lemma Arm_safe_set_rx_address (h : nRF24L01_h) (p : Z) (a : ptr) :
  safe (Arm.NRF24L01_SetRxAddress h p a).
Proof.
  destruct a as [addr|]; [|apply safe_ret].
  rewrite Arm_set_rx_address_cases.
  destruct ((0 <=? p) && (p <=? 1)); [auto with safe|].
  destruct ((2 <=? p) && (p <=? 5)); auto with safe.
Qed.

Lemma Example_safe_set_rx_address (h : nRF24L01_h) (p : Z) (a : ptr) :
  safe (Example.NRF24L01_SetRxAddress h p a).
Proof.
  destruct a as [addr|]; [|apply safe_ret].
  rewrite Example_set_rx_address_cases.
  destruct ((0 <=? p) && (p <=? 1)); [auto with safe|].
  destruct ((2 <=? p) && (p <=? 5)); auto with safe.
Qed.

Lemma Example_safe_register_init (h : nRF24L01_h) (b : nRF24L01_rest) :
  safe (Example.NRF24L01_RegisterInit h b).
Proof.
  unfold Example.NRF24L01_RegisterInit, Example.NRF24L01_FlushTX,
    Example.NRF24L01_FlushRX. cbv zeta.
  repeat (simple apply safe_bind; [auto with safe | intros _]).
  auto with safe.
Qed.

#[local] Hint Resolve Example_safe_read_multi Arm_safe_set_rx_address
  Example_safe_set_rx_address Example_safe_register_init : safe.

Lemma Arm_safe_perform
    (h : nRF24L01_h) (b : nRF24L01_rest) (c : Arm.call) :
  safe (Arm.perform h b c).
Proof.
  destruct c; cbn [Arm.perform];
    unfold Arm.NRF24L01_GetStatus, Arm.NRF24L01_SetAirDataRate,
      Arm.NRF24L01_SetRFChannel, Arm.NRF24L01_SetPAGain,
      Arm.NRF24L01_SetLNAGain, Arm.NRF24L01_PowerDown, Arm.NRF24L01_PowerUp,
      Arm.NRF24L01_FlushTX, Arm.NRF24L01_FlushRX, Arm.NRF24L01_EnableRxMode,
      Arm.NRF24L01_EnableTxMode, Arm.NRF24L01_IsDataReadyRx,
      Arm.NRF24L01_GetRxDataAmount, Arm.NRF24L01_SetTXAddress,
      Arm.NRF24L01_SetTxPayload;
    try (destruct (_ <? 6)); auto 10 with safe.
Qed.

Lemma Example_safe_perform
    (h : nRF24L01_h) (b : nRF24L01_rest) (c : Example.call) :
  safe (Example.perform h b c).
Proof.
  destruct c; cbn [Example.perform];
    unfold Example.NRF24L01_GetStatus, Example.NRF24L01_SetAirDataRate,
      Example.NRF24L01_SetRFChannel, Example.NRF24L01_SetPAGain,
      Example.NRF24L01_SetLNAGain, Example.NRF24L01_PowerDown,
      Example.NRF24L01_PowerUp, Example.NRF24L01_FlushTX,
      Example.NRF24L01_FlushRX, Example.NRF24L01_EnableRxMode,
      Example.NRF24L01_EnableTxMode, Example.NRF24L01_IsDataReadyRx,
      Example.NRF24L01_IsTxFifoFull, Example.NRF24L01_GetRxDataAmount,
      Example.NRF24L01_SetTXAddress, Example.NRF24L01_SetTxPayload,
      Example.NRF24L01_IsTxFifoFull, Example.NRF24L01_GetStatus;
    try (destruct (_ <? 6)); auto 12 with safe.
  apply safe_ignore, safe_bind; [auto with safe|].
  intros full. destruct (negb (full =? 0)); auto with safe.
Qed.

Lemma Arm_safe_perform_all
    (h : nRF24L01_h) (b : nRF24L01_rest) (cs : list Arm.call) :
  safe (Arm.perform_all h b cs).
Proof.
  induction cs as [|c cs IH]; cbn [Arm.perform_all].
  - apply safe_ret.
  - apply safe_bind; [apply Arm_safe_perform | intros _; exact IH].
Qed.

Lemma Example_safe_perform_all
    (h : nRF24L01_h) (b : nRF24L01_rest) (cs : list Example.call) :
  safe (Example.perform_all h b cs).
Proof.
  induction cs as [|c cs IH]; cbn [Example.perform_all].
  - apply safe_ret.
  - apply safe_bind; [apply Example_safe_perform | intros _; exact IH].
Qed.

(** ** Runs with waits *)

Lemma Example_safe_get_status (h : nRF24L01_h) :
  safe (Example.NRF24L01_GetStatus h).
Proof. unfold Example.NRF24L01_GetStatus. auto with safe. Qed.

Lemma wait_loop_driven (h : nRF24L01_h) (fuel : nat) :
  forall w w2 : world,
    Example.wait_loop h fuel w = Some w2 -> driven w w2.
Proof.
  induction fuel as [|fuel IH]; intros w w2 Hrun;
    cbn [Example.wait_loop] in Hrun; [discriminate|].
  destruct (Z.land _ _ =? 0).
  - apply (driven_trans w (exec (Example.NRF24L01_GetStatus h) w));
      [apply Example_safe_get_status | now apply IH].
  - injection Hrun as <-. apply driven_refl.
Qed.

Lemma wait_driven
    (h : nRF24L01_h) (fuel : nat) (ucWaitMode r : Z) (w w' : world) :
  Example.NRF24L01_WaitForTxComplete h fuel ucWaitMode w = Some (r, w') ->
  driven w w'.
Proof.
  unfold Example.NRF24L01_WaitForTxComplete. cbv zeta. intros Hrun.
  apply (driven_trans w (exec (Example.NRF24L01_GetStatus h) w));
    [apply Example_safe_get_status|].
  unfold exec. destruct (ucWaitMode =? 0).
  - injection Hrun as _ <-. apply driven_refl.
  - destruct (Example.wait_loop h fuel _) as [w2|] eqn:Hloop;
      [|discriminate].
    injection Hrun as _ <-. exact (wait_loop_driven h fuel _ _ Hloop).
Qed.

Lemma run_steps_driven (h : nRF24L01_h) (b : nRF24L01_rest) (ss : list step) :
  forall w w' : world, run_steps h b ss w = Some w' -> driven w w'.
Proof.
  induction ss as [|[c | ucWaitMode fuel] ss IH]; intros w w' Hrun;
    cbn [run_steps] in Hrun.
  - injection Hrun as <-. apply driven_refl.
  - apply (driven_trans w (exec (Example.perform h b c) w));
      [apply Example_safe_perform | now apply IH].
  - destruct (Example.NRF24L01_WaitForTxComplete h fuel ucWaitMode w)
      as [[r w1]|] eqn:Hwait; [|discriminate].
    apply (driven_trans w w1); [exact (wait_driven _ _ _ _ _ _ Hwait)|].
    now apply IH.
Qed.

(** ** The chip-select line, read off the log *)

Lemma write_on_CSN (w : world) :
  0 < g_ulCSNPin w < 256 -> on_CSN w (g_ulCSNBase w) (g_ulCSNPin w) = true.
Proof.
  intros Hpin. unfold on_CSN. rewrite Z.eqb_refl, Z.land_diag.
  replace (g_ulCSNPin w =? 0) with false by lia. reflexivity.
Qed.

Lemma CSN_high_is_high (w : world) :
  0 < g_ulCSNPin w < 256 -> (Z.land 0xFF (g_ulCSNPin w) =? 0) = false.
Proof.
  intros Hpin.
  rewrite Z.land_comm, <- u8_land, u8_id by (unfold is_u8; lia). lia.
Qed.

(** A bracket takes the line from high to low and back. *)
Lemma bracket_well_bracketed (w : world) (bs : list Z) (rest : list event) :
  0 < g_ulCSNPin w < 256 ->
  well_bracketed w false (bracket w bs ++ rest) = well_bracketed w false rest.
Proof.
  intros Hpin. unfold bracket, CSN_low, CSN_high.
  cbn [app well_bracketed]. rewrite (write_on_CSN w Hpin). cbn [negb andb].
  change (Z.land 0 (g_ulCSNPin w) =? 0) with true. cbv iota.
  induction bs as [|x bs IH]; cbn [map app well_bracketed andb].
  - rewrite (write_on_CSN w Hpin), (CSN_high_is_high w Hpin). reflexivity.
  - exact IH.
Qed.

Lemma transactions_well_bracketed (w : world) (evs : list event) :
  0 < g_ulCSNPin w < 256 ->
  on_CSN w (g_ulCEBase w) (g_ulCEPin w) = false ->
  transactions w evs -> well_bracketed w false evs = true.
Proof.
  intros Hpin Hce. induction 1 as [|bs rest _ IH|v rest _ IH].
  - reflexivity.
  - now rewrite bracket_well_bracketed.
  - unfold CE_write. cbn [well_bracketed]. rewrite Hce. exact IH.
Qed.

Lemma driven_discipline (w w' : world) :
  0 < g_ulCSNPin w < 256 ->
  on_CSN w (g_ulCEBase w) (g_ulCEPin w) = false ->
  driven w w' ->
  pins w' = pins w /\
  exists evs : list event,
    log w' = log w ++ evs /\ well_bracketed w false evs = true.
Proof.
  intros Hpin Hce (evs & rx & al & st & -> & Htx & _).
  split; [reflexivity|]. exists evs. split; [reflexivity|].
  now apply transactions_well_bracketed.
Qed.

Lemma driven_status (w w' : world) :
  driven w w' ->
  g_ucStatus w' = g_ucStatus w \/
  exists k : nat,
    (rx_count w <= k < rx_count w')%nat /\ g_ucStatus w' = u8 (miso w k).
Proof.
  intros (evs & rx & al & st & -> & _ & [-> | [k [Hk ->]]]); [now left|].
  right. exists (k + rx_count w)%nat. cbn [advance rx_count g_ucStatus].
  split; [lia | reflexivity].
Qed.

(** X3: with chip enable and chip select on different lines, every run of
    calls to the functions of the device control API and the register reads
    keeps the chip-select discipline, whatever the allocator and the chip
    answer: the pins are not re-targeted, and what is recorded pulls chip
    select low only when it is high, transfers bytes only while it is low,
    writes chip enable only while it is high, and leaves chip select high at
    the end.  The arguments are values of the parameter types and the
    buffers are as long as the call reads or writes.  In the example variant
    the runs include [NRF24L01_RegisterInit] and every wait for the end of a
    transmission that returns.  [NRF24L01_Init] and
    [NRF24L01_ExecuteCommand] are not among the calls: the latter drives no
    chip select at all.  Both variants. *)
Theorem calls_keep_chip_select_discipline
    (h : nRF24L01_h) (b : nRF24L01_rest) (w : world) :
  0 < g_ulCSNPin w < 256 ->
  on_CSN w (g_ulCEBase w) (g_ulCEPin w) = false ->
  (forall cs : list Arm.call,
     forallb Arm_call_ok cs = true ->
     let w' := exec (Arm.perform_all h b cs) w in
     pins w' = pins w /\
     exists evs : list event,
       log w' = log w ++ evs /\ well_bracketed w false evs = true) /\
  (forall (ss : list step) (w' : world),
     forallb step_ok ss = true ->
     run_steps h b ss w = Some w' ->
     pins w' = pins w /\
     exists evs : list event,
       log w' = log w ++ evs /\ well_bracketed w false evs = true).
Proof.
  intros Hpin Hce. split.
  - intros cs _ w'. subst w'.
    exact (driven_discipline w _ Hpin Hce (Arm_safe_perform_all h b cs w)).
  - intros ss w' _ Hrun.
    exact (driven_discipline w w' Hpin Hce (run_steps_driven h b ss w w' Hrun)).
Qed.

Lemma calls_keep_chip_select_discipline_witness :
  0 < g_ulCSNPin (boot (fun _ => 0x2E) heap_ok) < 256 /\
  on_CSN (boot (fun _ => 0x2E) heap_ok) 0x40024000 0x02 = false /\
  forallb step_ok
    [Step_call Example.Call_RegisterInit;
     Step_call (Example.Call_SetTxPayload (Some [1; 2; 3]) 3);
     Step_call Example.Call_EnableTxMode;
     Step_wait 1 4;
     Step_call Example.Call_PowerDown] = true /\
  exists w' : world,
    run_steps datasheet datasheet_rest
      [Step_call Example.Call_RegisterInit;
       Step_call (Example.Call_SetTxPayload (Some [1; 2; 3]) 3);
       Step_call Example.Call_EnableTxMode;
       Step_wait 1 4;
       Step_call Example.Call_PowerDown]
      (boot (fun _ => 0x2E) heap_ok) = Some w' /\
    length (log w') = 167%nat /\
    well_bracketed (boot (fun _ => 0x2E) heap_ok) false (log w') = true.
Proof.
  split; [cbn; lia|]. split; [reflexivity|]. split; [reflexivity|].
  assert (Hrun : exists w' : world,
            run_steps datasheet datasheet_rest
              [Step_call Example.Call_RegisterInit;
               Step_call (Example.Call_SetTxPayload (Some [1; 2; 3]) 3);
               Step_call Example.Call_EnableTxMode;
               Step_wait 1 4;
               Step_call Example.Call_PowerDown]
              (boot (fun _ => 0x2E) heap_ok) = Some w' /\
            length (log w') = 167%nat)
    by (eexists; split; vm_compute; reflexivity).
  destruct Hrun as [w' [Hrun Hlen]].
  exists w'. split; [exact Hrun|]. split; [exact Hlen|].
  destruct (calls_keep_chip_select_discipline datasheet datasheet_rest
              (boot (fun _ => 0x2E) heap_ok)
              ltac:(cbn; lia) eq_refl) as [_ Hsteps].
  destruct (Hsteps [Step_call Example.Call_RegisterInit;
                    Step_call (Example.Call_SetTxPayload (Some [1; 2; 3]) 3);
                    Step_call Example.Call_EnableTxMode;
                    Step_wait 1 4;
                    Step_call Example.Call_PowerDown] w' eq_refl Hrun)
    as [_ [evs [Hlog Hok]]].
  cbn [boot log app] in Hlog. rewrite Hlog. exact Hok.
Defined.

(** X4: the stored status is never made up: after any run of the calls
    above it is the status stored before the run, or one of the bytes the
    transport handed back during the run.  Both variants. *)
Theorem status_is_kept_or_received
    (h : nRF24L01_h) (b : nRF24L01_rest) (w : world) :
  (forall cs : list Arm.call,
     forallb Arm_call_ok cs = true ->
     let w' := exec (Arm.perform_all h b cs) w in
     g_ucStatus w' = g_ucStatus w \/
     exists k : nat,
       (rx_count w <= k < rx_count w')%nat /\
       g_ucStatus w' = u8 (miso w k)) /\
  (forall (ss : list step) (w' : world),
     forallb step_ok ss = true ->
     run_steps h b ss w = Some w' ->
     g_ucStatus w' = g_ucStatus w \/
     exists k : nat,
       (rx_count w <= k < rx_count w')%nat /\
       g_ucStatus w' = u8 (miso w k)).
Proof.
  split.
  - intros cs _ w'. subst w'.
    exact (driven_status w _ (Arm_safe_perform_all h b cs w)).
  - intros ss w' _ Hrun.
    exact (driven_status w w' (run_steps_driven h b ss w w' Hrun)).
Qed.

Lemma status_is_kept_or_received_witness :
  forallb Arm_call_ok
    [Arm.Call_PowerUp; Arm.Call_SetTxPayload (Some [1; 2; 3]) 3] = true /\
  g_ucStatus
    (exec (Arm.perform_all datasheet datasheet_rest
             [Arm.Call_PowerUp; Arm.Call_SetTxPayload (Some [1; 2; 3]) 3])
          (boot (scripted [0x0E; 0x08; 0x0E; 0x2E] 0) heap_ok))
  <> g_ucStatus (boot (scripted [0x0E; 0x08; 0x0E; 0x2E] 0) heap_ok) /\
  exists k : nat,
    (k < 4)%nat /\
    g_ucStatus
      (exec (Arm.perform_all datasheet datasheet_rest
               [Arm.Call_PowerUp; Arm.Call_SetTxPayload (Some [1; 2; 3]) 3])
            (boot (scripted [0x0E; 0x08; 0x0E; 0x2E] 0) heap_ok))
    = nth k [0x0E; 0x08; 0x0E; 0x2E] 0.
Proof.
  split; [reflexivity|].
  assert (Hnew : g_ucStatus
            (exec (Arm.perform_all datasheet datasheet_rest
                     [Arm.Call_PowerUp;
                      Arm.Call_SetTxPayload (Some [1; 2; 3]) 3])
                  (boot (scripted [0x0E; 0x08; 0x0E; 0x2E] 0) heap_ok))
          <> g_ucStatus (boot (scripted [0x0E; 0x08; 0x0E; 0x2E] 0) heap_ok))
    by (vm_compute; discriminate).
  split; [exact Hnew|].
  destruct (status_is_kept_or_received datasheet datasheet_rest
              (boot (scripted [0x0E; 0x08; 0x0E; 0x2E] 0) heap_ok))
    as [Harm _].
  destruct (Harm [Arm.Call_PowerUp; Arm.Call_SetTxPayload (Some [1; 2; 3]) 3]
              eq_refl) as [Hkept | [k [Hk Hst]]]; [contradiction|].
  exists k. split.
  - assert (Hrx : rx_count
              (exec (Arm.perform_all datasheet datasheet_rest
                       [Arm.Call_PowerUp;
                        Arm.Call_SetTxPayload (Some [1; 2; 3]) 3])
                    (boot (scripted [0x0E; 0x08; 0x0E; 0x2E] 0) heap_ok))
              = 4%nat) by (vm_compute; reflexivity).
    rewrite Hrx in Hk. lia.
  - rewrite Hst. cbn [boot miso scripted].
    assert (Hrx : rx_count
              (exec (Arm.perform_all datasheet datasheet_rest
                       [Arm.Call_PowerUp;
                        Arm.Call_SetTxPayload (Some [1; 2; 3]) 3])
                    (boot (scripted [0x0E; 0x08; 0x0E; 0x2E] 0) heap_ok))
              = 4%nat) by (vm_compute; reflexivity).
    rewrite Hrx in Hk.
    destruct k as [|[|[|[|k]]]]; [reflexivity..|lia].
Defined.

(** ** The bits of [CONFIG] *)

Lemma land_byte (a m : Z) : is_u8 a -> u8 (Z.land a m) = Z.land a m.
Proof.
  intros Ha. rewrite u8_land, <- Z.land_assoc, (Z.land_comm m 255).
  rewrite Z.land_assoc, <- u8_land. now rewrite (u8_id a Ha).
Qed.

(** Setting the bits of a mask and clearing them again, seen bit by bit. *)
Lemma set_bits_spec (v m : Z) :
  Z.land (Z.lor v m) m = m /\
  Z.land (Z.lor v m) (Z.lnot m) = Z.land v (Z.lnot m).
Proof.
  split.
  - apply Z.bits_inj'. intros i _. rewrite Z.land_spec, Z.lor_spec.
    destruct (Z.testbit v i), (Z.testbit m i); reflexivity.
  - rewrite Z.land_lor_distr_l, Z.land_lnot_diag. apply Z.lor_0_r.
Qed.

Lemma clear_bits_spec (v m : Z) :
  Z.land (Z.land v (Z.lnot m)) m = 0 /\
  Z.land (Z.land (Z.lor v m) (Z.lnot m)) (Z.lnot m) = Z.land v (Z.lnot m).
Proof.
  split.
  - rewrite <- Z.land_assoc, (Z.land_comm (Z.lnot m) m), Z.land_lnot_diag.
    apply Z.land_0_r.
  - rewrite <- Z.land_assoc, Z.land_diag. apply set_bits_spec.
Qed.

(** X5: [NRF24L01_PowerUp] reads [CONFIG] and writes it back with the
    power-up bits set and every other bit as read; it records nothing else
    (the chip-enable line is not touched).  Both variants. *)
Theorem power_up_sets_only_pwr_up
    (h : nRF24L01_h) (b : nRF24L01_rest) (w : world) :
  header_ok h -> bits_ok b ->
  let v := u8 (miso w (S (rx_count w))) in
  let v' := Z.lor v (RF24_PWR_UP b) in
  log (exec (Arm.NRF24L01_PowerUp h b) w)
    = log w ++ read_txn h w (RF24_CONFIG h)
        ++ write_txn h w (RF24_CONFIG h) v' /\
  log (exec (Example.NRF24L01_PowerUp h b) w)
    = log w ++ read_txn h w (RF24_CONFIG h)
        ++ write_txn h w (RF24_CONFIG h) v' /\
  Z.land v' (RF24_PWR_UP b) = RF24_PWR_UP b /\
  Z.land v' (Z.lnot (RF24_PWR_UP b)) = Z.land v (Z.lnot (RF24_PWR_UP b)).
Proof.
  intros Hh [Hpwr _] v v'.
  assert (Hcfg : is_u8 (RF24_CONFIG h)) by (header_fields Hh; assumption).
  assert (Hv : u8 (Z.lor v (RF24_PWR_UP b)) = v')
    by (apply lor_u8; [apply u8_range | assumption]).
  unfold Arm.NRF24L01_PowerUp, Example.NRF24L01_PowerUp.
  rewrite (u8_id _ Hcfg). split; [|split].
  - rewrite <- Hv.
    apply (Arm_read_then_write_log h (RF24_CONFIG h)
             (fun c => u8 (Z.lor c (RF24_PWR_UP b))) w Hh Hcfg).
  - rewrite <- Hv.
    apply (Example_read_then_write_log h (RF24_CONFIG h)
             (fun c => u8 (Z.lor c (RF24_PWR_UP b))) w Hh Hcfg).
  - apply set_bits_spec.
Qed.

Lemma bits_ok_datasheet : bits_ok datasheet_rest.
Proof. repeat split; simpl; lia. Qed.

Lemma power_up_sets_only_pwr_up_witness :
  header_ok datasheet /\ bits_ok datasheet_rest /\
  log (exec (Arm.NRF24L01_PowerUp datasheet datasheet_rest)
            (boot (scripted [0x0E; 0x09] 0) heap_ok))
    = [GPIOPinWrite 0x40024000 0x04 0x00; SPIByte 0x00; SPIByte 0xFF;
       GPIOPinWrite 0x40024000 0x04 0xFF;
       GPIOPinWrite 0x40024000 0x04 0x00; SPIByte 0x20; SPIByte 0x0B;
       GPIOPinWrite 0x40024000 0x04 0xFF].
Proof.
  split; [exact header_ok_datasheet|]. split; [exact bits_ok_datasheet|].
  exact (proj1 (power_up_sets_only_pwr_up datasheet datasheet_rest
                  (boot (scripted [0x0E; 0x09] 0) heap_ok)
                  header_ok_datasheet bits_ok_datasheet)).
Defined.

(** A read of a register, a write of a function of the value read, and then
    one write to the chip-enable line: the shape of the power-down and mode
    functions. *)
Lemma Arm_read_write_ce_log
    (h : nRF24L01_h) (reg e : Z) (f : Z -> Z) (t : M unit) (w : world) :
  header_ok h -> is_u8 reg ->
  (forall w0, t w0 = (tt, advance [CE_write w0 e] 0 0 (g_ucStatus w0) w0)) ->
  log (exec (bind (Arm.NRF24L01_RegisterRead_8 h reg)
               (fun v => bind (Arm._NRF24L01_RegisterWrite_8 h reg (f v))
                           (fun _ => t))) w)
  = log w ++ read_txn h w reg
      ++ write_txn h w reg (f (u8 (miso w (S (rx_count w)))))
      ++ [CE_write w e].
Proof.
  intros Hh Hreg Ht. header_fields Hh. unfold exec, bind.
  rewrite Arm_read8_run, Arm_write8_run, Ht. cbn [snd log advance].
  unfold read_txn, write_txn, bracket, CSN_low, CSN_high, CE_write.
  cbn [g_ulCSNBase g_ulCSNPin g_ulCEBase g_ulCEPin].
  rewrite !lor_u8 by assumption. rewrite (u8_id (RF24_NOP h)) by assumption.
  now repeat rewrite <- app_assoc.
Qed.

Lemma Example_read_write_ce_log
    (h : nRF24L01_h) (reg e : Z) (f : Z -> Z) (t : M unit) (w : world) :
  header_ok h -> is_u8 reg ->
  (forall w0, t w0 = (tt, advance [CE_write w0 e] 0 0 (g_ucStatus w0) w0)) ->
  log (exec (bind (Example.NRF24L01_RegisterRead_8 h reg)
               (fun v => bind (Example.NRF24L01_RegisterWrite_8 h reg (f v))
                           (fun _ => t))) w)
  = log w ++ read_txn h w reg
      ++ write_txn h w reg (f (u8 (miso w (S (rx_count w)))))
      ++ [CE_write w e].
Proof.
  intros Hh Hreg Ht. header_fields Hh. unfold exec, bind.
  rewrite Example_read8_run, Example_write8_run, Ht. cbn [snd log advance].
  unfold read_txn, write_txn, bracket, CSN_low, CSN_high, CE_write.
  cbn [g_ulCSNBase g_ulCSNPin g_ulCEBase g_ulCEPin].
  rewrite !lor_u8 by assumption. rewrite (u8_id (RF24_NOP h)) by assumption.
  now repeat rewrite <- app_assoc.
Qed.

Lemma Arm_power_down_log
    (h : nRF24L01_h) (b : nRF24L01_rest) (w : world) :
  header_ok h ->
  log (exec (Arm.NRF24L01_PowerDown h b) w)
  = log w ++ read_txn h w (RF24_CONFIG h)
      ++ write_txn h w (RF24_CONFIG h)
           (Z.land (u8 (miso w (S (rx_count w)))) (Z.lnot (RF24_PWR_UP b)))
      ++ [CE_write w 0x00].
Proof.
  intros Hh.
  assert (Hcfg : is_u8 (RF24_CONFIG h)) by (header_fields Hh; assumption).
  unfold Arm.NRF24L01_PowerDown. rewrite (u8_id _ Hcfg).
  rewrite <- (land_byte (u8 (miso w (S (rx_count w))))
                (Z.lnot (RF24_PWR_UP b)) (u8_range _)).
  apply (Arm_read_write_ce_log h (RF24_CONFIG h) 0x00
           (fun c => u8 (Z.land c (Z.lnot (RF24_PWR_UP b))))
           Arm._NRF24L01_CELow w Hh Hcfg).
  reflexivity.
Qed.

Lemma Example_power_down_log
    (h : nRF24L01_h) (b : nRF24L01_rest) (w : world) :
  header_ok h ->
  log (exec (Example.NRF24L01_PowerDown h b) w)
  = log w ++ read_txn h w (RF24_CONFIG h)
      ++ write_txn h w (RF24_CONFIG h)
           (Z.land (u8 (miso w (S (rx_count w)))) (Z.lnot (RF24_PWR_UP b)))
      ++ [CE_write w 0x00].
Proof.
  intros Hh.
  assert (Hcfg : is_u8 (RF24_CONFIG h)) by (header_fields Hh; assumption).
  unfold Example.NRF24L01_PowerDown. rewrite (u8_id _ Hcfg).
  rewrite <- (land_byte (u8 (miso w (S (rx_count w))))
                (Z.lnot (RF24_PWR_UP b)) (u8_range _)).
  apply (Example_read_write_ce_log h (RF24_CONFIG h) 0x00
           (fun c => u8 (Z.land c (Z.lnot (RF24_PWR_UP b))))
           Example._NRF24L01_CELow w Hh Hcfg).
  reflexivity.
Qed.

(** X6: [NRF24L01_PowerDown] reads [CONFIG], writes it back with the
    power-up bits cleared and every other bit as read, and only then drives
    chip enable low, as its last action.  Both variants. *)
Theorem power_down_clears_pwr_up_then_drops_ce
    (h : nRF24L01_h) (b : nRF24L01_rest) (w : world) :
  header_ok h ->
  let v := u8 (miso w (S (rx_count w))) in
  let v' := Z.land v (Z.lnot (RF24_PWR_UP b)) in
  log (exec (Arm.NRF24L01_PowerDown h b) w)
    = log w ++ read_txn h w (RF24_CONFIG h)
        ++ write_txn h w (RF24_CONFIG h) v' ++ [CE_write w 0x00] /\
  log (exec (Example.NRF24L01_PowerDown h b) w)
    = log w ++ read_txn h w (RF24_CONFIG h)
        ++ write_txn h w (RF24_CONFIG h) v' ++ [CE_write w 0x00] /\
  Z.land v' (RF24_PWR_UP b) = 0 /\
  Z.land v' (Z.lnot (RF24_PWR_UP b)) = Z.land v (Z.lnot (RF24_PWR_UP b)).
Proof.
  intros Hh v v'. split; [|split; [|split]].
  - now apply Arm_power_down_log.
  - now apply Example_power_down_log.
  - apply clear_bits_spec.
  - subst v'. now rewrite <- Z.land_assoc, Z.land_diag.
Qed.

Lemma power_down_clears_pwr_up_then_drops_ce_witness :
  header_ok datasheet /\
  log (exec (Example.NRF24L01_PowerDown datasheet datasheet_rest)
            (boot (scripted [0x0E; 0x0B] 0) heap_ok))
    = [GPIOPinWrite 0x40024000 0x04 0x00; SPIByte 0x00; SPIByte 0xFF;
       GPIOPinWrite 0x40024000 0x04 0xFF;
       GPIOPinWrite 0x40024000 0x04 0x00; SPIByte 0x20; SPIByte 0x09;
       GPIOPinWrite 0x40024000 0x04 0xFF;
       GPIOPinWrite 0x40024000 0x02 0x00].
Proof.
  split; [exact header_ok_datasheet|].
  destruct (power_down_clears_pwr_up_then_drops_ce datasheet datasheet_rest
              (boot (scripted [0x0E; 0x0B] 0) heap_ok) header_ok_datasheet)
    as [_ [Hex _]].
  exact Hex.
Defined.

(** X7: a power-down after a power-up undoes it and nothing else: if the
    register reads back what [NRF24L01_PowerUp] wrote, [NRF24L01_PowerDown]
    writes the value [CONFIG] had before the power-up with only the power-up
    bits cleared.  Both variants. *)
Theorem power_down_after_power_up
    (h : nRF24L01_h) (b : nRF24L01_rest) (w : world) :
  header_ok h ->
  let v := u8 (miso w (S (rx_count w))) in
  (let w1 := exec (Arm.NRF24L01_PowerUp h b) w in
   u8 (miso w1 (S (rx_count w1))) = Z.lor v (RF24_PWR_UP b) ->
   log (exec (Arm.NRF24L01_PowerDown h b) w1)
     = log w1 ++ read_txn h w1 (RF24_CONFIG h)
         ++ write_txn h w1 (RF24_CONFIG h)
              (Z.land v (Z.lnot (RF24_PWR_UP b)))
         ++ [CE_write w1 0x00]) /\
  (let w1 := exec (Example.NRF24L01_PowerUp h b) w in
   u8 (miso w1 (S (rx_count w1))) = Z.lor v (RF24_PWR_UP b) ->
   log (exec (Example.NRF24L01_PowerDown h b) w1)
     = log w1 ++ read_txn h w1 (RF24_CONFIG h)
         ++ write_txn h w1 (RF24_CONFIG h)
              (Z.land v (Z.lnot (RF24_PWR_UP b)))
         ++ [CE_write w1 0x00]).
Proof.
  intros Hh v. split; intros w1 Hback.
  - rewrite (Arm_power_down_log h b w1 Hh), Hback.
    now rewrite (proj2 (set_bits_spec v (RF24_PWR_UP b))).
  - rewrite (Example_power_down_log h b w1 Hh), Hback.
    now rewrite (proj2 (set_bits_spec v (RF24_PWR_UP b))).
Qed.

Lemma power_down_after_power_up_witness :
  header_ok datasheet /\
  u8 (miso (exec (Arm.NRF24L01_PowerUp datasheet datasheet_rest)
              (boot (scripted [0x0E; 0x09; 0x0E; 0x0E; 0x0B] 0) heap_ok))
           (S (rx_count
                 (exec (Arm.NRF24L01_PowerUp datasheet datasheet_rest)
                    (boot (scripted [0x0E; 0x09; 0x0E; 0x0E; 0x0B] 0)
                       heap_ok)))))
    = Z.lor 0x09 0x02 /\
  log (exec (Arm.NRF24L01_PowerDown datasheet datasheet_rest)
         (exec (Arm.NRF24L01_PowerUp datasheet datasheet_rest)
            (boot (scripted [0x0E; 0x09; 0x0E; 0x0E; 0x0B] 0) heap_ok)))
    = [GPIOPinWrite 0x40024000 0x04 0x00; SPIByte 0x00; SPIByte 0xFF;
       GPIOPinWrite 0x40024000 0x04 0xFF;
       GPIOPinWrite 0x40024000 0x04 0x00; SPIByte 0x20; SPIByte 0x0B;
       GPIOPinWrite 0x40024000 0x04 0xFF;
       GPIOPinWrite 0x40024000 0x04 0x00; SPIByte 0x00; SPIByte 0xFF;
       GPIOPinWrite 0x40024000 0x04 0xFF;
       GPIOPinWrite 0x40024000 0x04 0x00; SPIByte 0x20; SPIByte 0x09;
       GPIOPinWrite 0x40024000 0x04 0xFF;
       GPIOPinWrite 0x40024000 0x02 0x00].
Proof.
  split; [exact header_ok_datasheet|]. split; [reflexivity|].
  destruct (power_down_after_power_up datasheet datasheet_rest
              (boot (scripted [0x0E; 0x09; 0x0E; 0x0E; 0x0B] 0) heap_ok)
              header_ok_datasheet) as [Harm _].
  exact (Harm eq_refl).
Defined.

(** ** Receive and transmit mode *)

(** X8: [NRF24L01_EnableRxMode] (both variants) writes [CONFIG] back with
    the primary-RX bits set, and the arm variant's [NRF24L01_EnableTxMode]
    writes it back with them cleared; each leaves the other bits as read and
    drives chip enable high only after the write, as its last action. *)
Theorem mode_switch_then_raises_ce
    (h : nRF24L01_h) (b : nRF24L01_rest) (w : world) :
  header_ok h -> bits_ok b ->
  let v := u8 (miso w (S (rx_count w))) in
  let rx := RF24_PRIM_RX b in
  log (exec (Arm.NRF24L01_EnableRxMode h b) w)
    = log w ++ read_txn h w (RF24_CONFIG h)
        ++ write_txn h w (RF24_CONFIG h) (Z.lor v rx) ++ [CE_write w 0xFF] /\
  log (exec (Example.NRF24L01_EnableRxMode h b) w)
    = log w ++ read_txn h w (RF24_CONFIG h)
        ++ write_txn h w (RF24_CONFIG h) (Z.lor v rx) ++ [CE_write w 0xFF] /\
  log (exec (Arm.NRF24L01_EnableTxMode h b) w)
    = log w ++ read_txn h w (RF24_CONFIG h)
        ++ write_txn h w (RF24_CONFIG h) (Z.land v (Z.lnot rx))
        ++ [CE_write w 0xFF] /\
  Z.land (Z.lor v rx) (Z.lnot rx) = Z.land v (Z.lnot rx) /\
  Z.land (Z.lor v rx) rx = rx /\
  Z.land (Z.land v (Z.lnot rx)) rx = 0.
Proof.
  intros Hh (_ & Hrx & _) v rx.
  assert (Hcfg : is_u8 (RF24_CONFIG h)) by (header_fields Hh; assumption).
  assert (Hv : is_u8 v) by apply u8_range.
  unfold Arm.NRF24L01_EnableRxMode, Example.NRF24L01_EnableRxMode,
    Arm.NRF24L01_EnableTxMode. rewrite (u8_id _ Hcfg).
  split; [|split; [|split; [|split; [|split]]]].
  - rewrite <- (lor_u8 v rx Hv Hrx).
    apply (Arm_read_write_ce_log h (RF24_CONFIG h) 0xFF
             (fun c => u8 (Z.lor c rx)) Arm._NRF24L01_CEHigh w Hh Hcfg).
    reflexivity.
  - rewrite <- (lor_u8 v rx Hv Hrx).
    apply (Example_read_write_ce_log h (RF24_CONFIG h) 0xFF
             (fun c => u8 (Z.lor c rx)) Example._NRF24L01_CEHigh w Hh Hcfg).
    reflexivity.
  - rewrite <- (land_byte v (Z.lnot rx) Hv).
    apply (Arm_read_write_ce_log h (RF24_CONFIG h) 0xFF
             (fun c => u8 (Z.land c (Z.lnot rx))) Arm._NRF24L01_CEHigh w
             Hh Hcfg).
    reflexivity.
  - apply set_bits_spec.
  - apply set_bits_spec.
  - apply clear_bits_spec.
Qed.

Lemma mode_switch_then_raises_ce_witness :
  header_ok datasheet /\ bits_ok datasheet_rest /\
  log (exec (Arm.NRF24L01_EnableTxMode datasheet datasheet_rest)
            (boot (scripted [0x0E; 0x0B] 0) heap_ok))
    = [GPIOPinWrite 0x40024000 0x04 0x00; SPIByte 0x00; SPIByte 0xFF;
       GPIOPinWrite 0x40024000 0x04 0xFF;
       GPIOPinWrite 0x40024000 0x04 0x00; SPIByte 0x20; SPIByte 0x0A;
       GPIOPinWrite 0x40024000 0x04 0xFF;
       GPIOPinWrite 0x40024000 0x02 0xFF].
Proof.
  split; [exact header_ok_datasheet|]. split; [exact bits_ok_datasheet|].
  destruct (mode_switch_then_raises_ce datasheet datasheet_rest
              (boot (scripted [0x0E; 0x0B] 0) heap_ok)
              header_ok_datasheet bits_ok_datasheet)
    as [_ [_ [Htx _]]].
  exact Htx.
Defined.

(** X9: the example variant's [NRF24L01_EnableTxMode] makes four
    transactions before raising chip enable: a status poll; a write to
    [STATUS] of the polled status with the transmit-complete and
    max-retransmit bits at zero and its other bits kept; a read of [CONFIG];
    and a write of [CONFIG] with the primary-RX bits cleared. *)
Theorem example_enable_tx_mode
    (h : nRF24L01_h) (b : nRF24L01_rest) (w : world) :
  header_ok h ->
  let st := u8 (miso w (rx_count w)) in
  let flags := Z.lor (RF24_TX_DS h) (RF24_MAX_RT h) in
  let v := u8 (miso w (5 + rx_count w)) in
  log (exec (Example.NRF24L01_EnableTxMode h b) w)
    = log w ++ read_txn h w (RF24_NOP h)
        ++ write_txn h w (RF24_STATUS h) (Z.land st (Z.lnot flags))
        ++ read_txn h w (RF24_CONFIG h)
        ++ write_txn h w (RF24_CONFIG h)
             (Z.land v (Z.lnot (RF24_PRIM_RX b)))
        ++ [CE_write w 0xFF] /\
  Z.land (Z.land st (Z.lnot flags)) flags = 0 /\
  Z.land (Z.land st (Z.lnot flags)) (Z.lnot flags)
    = Z.land st (Z.lnot flags).
Proof.
  intros Hh st flags v. split; [|split].
  - header_fields Hh.
    unfold Example.NRF24L01_EnableTxMode, exec, bind.
    rewrite Example_get_status_run, Example_write8_run, Example_read8_run,
      Example_write8_run.
    cbn [snd log miso rx_count g_ulCSNBase g_ulCSNPin g_ulCEBase g_ulCEPin
         Example._NRF24L01_CEHigh ROM_GPIOPinWrite modify record].
    unfold Example._NRF24L01_CEHigh, ROM_GPIOPinWrite, modify, record.
    cbn [snd log miso rx_count g_ulCSNBase g_ulCSNPin g_ulCEBase g_ulCEPin].
    unfold poll_txn, read_txn, write_txn, bracket, CSN_low, CSN_high,
      CE_write.
    cbn [g_ulCSNBase g_ulCSNPin g_ulCEBase g_ulCEPin].
    rewrite !land_byte by apply u8_range.
    rewrite !(u8_id (RF24_NOP h)), !(u8_id (RF24_STATUS h)),
      !(u8_id (RF24_CONFIG h)) by assumption.
    rewrite !lor_u8 by assumption.
    now repeat rewrite <- app_assoc.
  - apply clear_bits_spec.
  - now rewrite <- Z.land_assoc, Z.land_diag.
Qed.

Lemma example_enable_tx_mode_witness :
  header_ok datasheet /\
  log (exec (Example.NRF24L01_EnableTxMode datasheet datasheet_rest)
            (boot (scripted [0x2E; 0; 0x2E; 0; 0x0E; 0x0B] 0) heap_ok))
    = [GPIOPinWrite 0x40024000 0x04 0x00; SPIByte 0xFF; SPIByte 0xFF;
       GPIOPinWrite 0x40024000 0x04 0xFF;
       GPIOPinWrite 0x40024000 0x04 0x00; SPIByte 0x27; SPIByte 0x0E;
       GPIOPinWrite 0x40024000 0x04 0xFF;
       GPIOPinWrite 0x40024000 0x04 0x00; SPIByte 0x00; SPIByte 0xFF;
       GPIOPinWrite 0x40024000 0x04 0xFF;
       GPIOPinWrite 0x40024000 0x04 0x00; SPIByte 0x20; SPIByte 0x0A;
       GPIOPinWrite 0x40024000 0x04 0xFF;
       GPIOPinWrite 0x40024000 0x02 0xFF].
Proof.
  split; [exact header_ok_datasheet|].
  exact (proj1 (example_enable_tx_mode datasheet datasheet_rest
                  (boot (scripted [0x2E; 0; 0x2E; 0; 0x0E; 0x0B] 0) heap_ok)
                  header_ok_datasheet)).
Defined.

(** ** FIFO state and payload width *)

(** X10: [NRF24L01_IsDataReadyRx] makes one read of [FIFO_STATUS] and
    answers 1 exactly when none of the RX-empty bits is set in the value
    read, and 0 otherwise.  Both variants. *)
Theorem is_data_ready_rx
    (h : nRF24L01_h) (b : nRF24L01_rest) (w : world) :
  header_ok h ->
  let fifo := u8 (miso w (S (rx_count w))) in
  let ready := if Z.land fifo (RF24_RX_EMPTY b) =? 0 then 1 else 0 in
  eval (Arm.NRF24L01_IsDataReadyRx h b) w = ready /\
  eval (Example.NRF24L01_IsDataReadyRx h b) w = ready /\
  log (exec (Arm.NRF24L01_IsDataReadyRx h b) w)
    = log w ++ read_txn h w (RF24_FIFO_STATUS h) /\
  log (exec (Example.NRF24L01_IsDataReadyRx h b) w)
    = log w ++ read_txn h w (RF24_FIFO_STATUS h) /\
  (ready = 1 <-> Z.land fifo (RF24_RX_EMPTY b) = 0) /\
  (ready = 0 <-> Z.land fifo (RF24_RX_EMPTY b) <> 0).
Proof.
  intros Hh fifo ready. header_fields Hh.
  unfold Arm.NRF24L01_IsDataReadyRx, Example.NRF24L01_IsDataReadyRx,
    eval, exec, bind, ret.
  rewrite Arm_read8_run, Example_read8_run. cbn [fst snd log].
  unfold read_txn. rewrite (u8_id (RF24_FIFO_STATUS h)) by assumption.
  rewrite lor_u8, (u8_id (RF24_NOP h)) by assumption.
  repeat (split; [reflexivity|]).
  subst ready. destruct (Z.land fifo (RF24_RX_EMPTY b) =? 0) eqn:E.
  - apply Z.eqb_eq in E. split; split; intros; congruence.
  - apply Z.eqb_neq in E. split; split; intros; congruence.
Qed.

Lemma is_data_ready_rx_witness :
  header_ok datasheet /\
  eval (Example.NRF24L01_IsDataReadyRx datasheet datasheet_rest)
       (boot (scripted [0x0E; 0x10] 0) heap_ok) = 1 /\
  eval (Arm.NRF24L01_IsDataReadyRx datasheet datasheet_rest)
       (boot (scripted [0x0E; 0x11] 0) heap_ok) = 0.
Proof.
  split; [exact header_ok_datasheet|]. split.
  - destruct (is_data_ready_rx datasheet datasheet_rest
                (boot (scripted [0x0E; 0x10] 0) heap_ok)
                header_ok_datasheet) as [_ [Hex _]].
    exact Hex.
  - exact (proj1 (is_data_ready_rx datasheet datasheet_rest
                    (boot (scripted [0x0E; 0x11] 0) heap_ok)
                    header_ok_datasheet)).
Defined.

Lemma low_six_bits (x : Z) : 0 <= Z.land x 0x3F < 64.
Proof.
  change 0x3F with (Z.ones 6). rewrite Z.land_ones by lia.
  apply Z.mod_pos_bound. lia.
Qed.

(** X11: the payload width [NRF24L01_GetRxDataAmount] reports is below 64
    for every pipe index and whatever the chip answers.  Both variants. *)
Theorem get_rx_data_amount_below_64
    (h : nRF24L01_h) (w : world) (ucDataPipe : Z) :
  0 <= eval (Arm.NRF24L01_GetRxDataAmount h ucDataPipe) w < 64 /\
  0 <= eval (Example.NRF24L01_GetRxDataAmount h ucDataPipe) w < 64.
Proof.
  unfold Arm.NRF24L01_GetRxDataAmount, Example.NRF24L01_GetRxDataAmount, eval.
  destruct (ucDataPipe <? 6).
  - unfold bind, ret. rewrite Arm_read8_run, Example_read8_run. cbn [fst].
    split; apply low_six_bits.
  - cbn. lia.
Qed.

(** ** What the wait returns, and when it does not return *)

Lemma wait_loop_status (h : nRF24L01_h) (fuel : nat) :
  forall w w2 : world,
    is_u8 (g_ucStatus w) ->
    Example.wait_loop h fuel w = Some w2 -> is_u8 (g_ucStatus w2).
Proof.
  induction fuel as [|fuel IH]; intros w w2 Hw Hrun;
    cbn [Example.wait_loop] in Hrun; [discriminate|].
  destruct (Z.land _ _ =? 0).
  - apply (IH (snd (Example.NRF24L01_GetStatus h w))); [|exact Hrun].
    rewrite Example_get_status_run. apply u8_range.
  - now injection Hrun as <-.
Qed.

(** X12: whenever [NRF24L01_WaitForTxComplete] returns, in either mode, its
    result is sixteen times the completion bits of a status byte: a multiple
    of 16 between 0 and 4080.  It is therefore never 1 or 2, the two
    "complete" values its header comment documents. *)
Theorem wait_result_is_a_multiple_of_16
    (h : nRF24L01_h) (w w' : world) (fuel : nat) (ucWaitMode r : Z) :
  Example.NRF24L01_WaitForTxComplete h fuel ucWaitMode w = Some (r, w') ->
  r = 16 * Z.land (g_ucStatus w') (Example.tx_done_mask h) /\
  is_u8 (g_ucStatus w') /\
  0 <= r <= 4080 /\ r mod 16 = 0 /\ r <> 1 /\ r <> 2.
Proof.
  unfold Example.NRF24L01_WaitForTxComplete. intros Hrun.
  assert (Hfirst : is_u8 (g_ucStatus (snd (Example.NRF24L01_GetStatus h w))))
    by (rewrite Example_get_status_run; apply u8_range).
  set (w1 := snd (Example.NRF24L01_GetStatus h w)) in *. clearbody w1.
  assert (Hshape : r = Z.shiftl (Z.land (g_ucStatus w')
                                   (Example.tx_done_mask h)) 4
                   /\ is_u8 (g_ucStatus w')).
  { destruct (ucWaitMode =? 0).
    - injection Hrun as <- <-. split; [reflexivity | exact Hfirst].
    - destruct (Example.wait_loop h fuel _) as [w2|] eqn:Hloop;
        [|discriminate].
      injection Hrun as <- <-. split; [reflexivity|].
      exact (wait_loop_status h fuel _ _ Hfirst Hloop). }
  destruct Hshape as [-> Hst].
  rewrite Z.shiftl_mul_pow2 by lia. change (2 ^ 4) with 16.
  pose proof (land_byte _ (Example.tx_done_mask h) Hst) as Hland.
  pose proof (u8_range (Z.land (g_ucStatus w') (Example.tx_done_mask h)))
    as Hrange.
  rewrite Hland in Hrange. unfold is_u8 in Hrange.
  set (bits := Z.land (g_ucStatus w') (Example.tx_done_mask h)) in *.
  split; [lia|]. split; [exact Hst|]. split; [lia|].
  split; [apply Z.mod_mul; lia | lia].
Qed.

Lemma wait_result_is_a_multiple_of_16_witness :
  Example.NRF24L01_WaitForTxComplete datasheet 3 1
    (boot (scripted [0x0E; 0; 0x0E; 0; 0x2E; 0] 0) heap_ok)
  = Some (0x200,
          polled datasheet 3
            (boot (scripted [0x0E; 0; 0x0E; 0; 0x2E; 0] 0) heap_ok)) /\
  0x200 <> 2.
Proof.
  assert (Hrun :
    Example.NRF24L01_WaitForTxComplete datasheet 3 1
      (boot (scripted [0x0E; 0; 0x0E; 0; 0x2E; 0] 0) heap_ok)
    = Some (0x200,
            polled datasheet 3
              (boot (scripted [0x0E; 0; 0x0E; 0; 0x2E; 0] 0) heap_ok)))
    by (vm_compute; reflexivity).
  split; [exact Hrun|].
  destruct (wait_result_is_a_multiple_of_16 datasheet _ _ 3 1 0x200 Hrun)
    as (_ & _ & _ & _ & _ & Hnot2).
  exact Hnot2.
Defined.

Lemma wait_loop_spins (h : nRF24L01_h) (fuel : nat) :
  forall w : world,
    (forall k, tx_done h (status_at w k) = false) ->
    Example.wait_loop h fuel (polled h 1 w) = None.
Proof.
  induction fuel as [|fuel IH]; intros w Hnever; [reflexivity|].
  cbn [Example.wait_loop].
  change (polled h 1 w) with (exec (Example.NRF24L01_GetStatus h) w).
  rewrite status_after_poll.
  pose proof (Hnever 0%nat) as H0. rewrite tx_done_loop_condition in H0.
  destruct (Z.land _ _ =? 0); [|discriminate].
  apply (IH (exec (Example.NRF24L01_GetStatus h) w)).
  intros k. rewrite status_at_poll. apply Hnever.
Qed.

(** X13: the blocking wait has no bound of its own: on a script in which no
    status byte ever has a completion bit, it has not returned after any
    number of polls. *)
Theorem blocking_wait_never_gives_up
    (h : nRF24L01_h) (w : world) (ucWaitMode : Z) :
  ucWaitMode <> 0 ->
  (forall k, tx_done h (status_at w k) = false) ->
  forall fuel : nat,
    Example.NRF24L01_WaitForTxComplete h fuel ucWaitMode w = None.
Proof.
  intros Hmode Hnever fuel. unfold Example.NRF24L01_WaitForTxComplete.
  apply Z.eqb_neq in Hmode. rewrite Hmode.
  change (snd (Example.NRF24L01_GetStatus h w)) with (polled h 1 w).
  now rewrite wait_loop_spins.
Qed.

Lemma blocking_wait_never_gives_up_witness :
  1 <> 0 /\
  (forall k, tx_done datasheet
               (status_at (boot (fun _ => 0x0E) heap_ok) k) = false) /\
  Example.NRF24L01_WaitForTxComplete datasheet 1000 1
    (boot (fun _ => 0x0E) heap_ok) = None.
Proof.
  split; [lia|]. split; [intros k; reflexivity|].
  apply (blocking_wait_never_gives_up datasheet
           (boot (fun _ => 0x0E) heap_ok) 1); [lia | intros k; reflexivity].
Defined.

(** ** Writes of addresses and commands *)

(** X14: a multi-byte register write of a one-byte buffer puts on the wire
    what the 8-bit register write does, and stores the same status byte.
    Both variants. *)
Theorem write_multi_one_is_write_8
    (h : nRF24L01_h) (w : world) (r v : Z) (junk : nat -> Z) :
  heap w (alloc_count w) = Some junk ->
  (log (exec (Arm._NRF24L01_RegisterWrite_Multi h r (Some [v]) 1) w)
     = log (exec (Arm._NRF24L01_RegisterWrite_8 h r v) w) /\
   g_ucStatus (exec (Arm._NRF24L01_RegisterWrite_Multi h r (Some [v]) 1) w)
     = g_ucStatus (exec (Arm._NRF24L01_RegisterWrite_8 h r v) w)) /\
  (log (exec (Example.NRF24L01_RegisterWrite_Multi h r (Some [v]) 1) w)
     = log (exec (Example.NRF24L01_RegisterWrite_8 h r v) w) /\
   g_ucStatus (exec (Example.NRF24L01_RegisterWrite_Multi h r (Some [v]) 1) w)
     = g_ucStatus (exec (Example.NRF24L01_RegisterWrite_8 h r v) w)).
Proof.
  intros Hheap. unfold exec.
  pose proof (Arm_write_multi_run h r [v] junk w Hheap ltac:(cbn; lia))
    as Harm.
  pose proof (Example_write_multi_run h r [v] junk w Hheap) as Hex.
  change (Z.of_nat (length [v])) with 1 in Harm, Hex.
  rewrite Harm, Hex, Arm_write8_run, Example_write8_run.
  repeat split; reflexivity.
Qed.

Lemma write_multi_one_is_write_8_witness :
  heap (boot (scripted [0x0E] 0) heap_ok) 0 = Some (fun _ => 0xA5) /\
  log (exec (Example.NRF24L01_RegisterWrite_Multi datasheet 0x05
               (Some [0x02]) 1)
            (boot (scripted [0x0E] 0) heap_ok))
    = log (exec (Example.NRF24L01_RegisterWrite_8 datasheet 0x05 0x02)
             (boot (scripted [0x0E] 0) heap_ok)).
Proof.
  split; [reflexivity|].
  destruct (write_multi_one_is_write_8 datasheet
              (boot (scripted [0x0E] 0) heap_ok) 0x05 0x02 (fun _ => 0xA5)
              eq_refl) as [_ [Hlog _]].
  exact Hlog.
Defined.

(** Only the first [n] bytes of the source take part in a copy of [n]. *)
Lemma memcpy_prefix (dst src : list Z) (off : nat) (n : Z) :
  memcpy dst off src n = memcpy dst off (firstn (Z.to_nat n) src) n.
Proof. unfold memcpy. now rewrite firstn_firstn, Nat.min_id. Qed.

Lemma Arm_write_multi_prefix
    (h : nRF24L01_h) (r : Z) (data : list Z) (n : Z) (w : world) :
  Arm._NRF24L01_RegisterWrite_Multi h r (Some data) n w
  = Arm._NRF24L01_RegisterWrite_Multi h r
      (Some (firstn (Z.to_nat n) data)) n w.
Proof.
  unfold Arm._NRF24L01_RegisterWrite_Multi, bind, malloc.
  destruct (heap w (alloc_count w)); [|reflexivity].
  now rewrite (memcpy_prefix _ data).
Qed.

Lemma Example_write_multi_prefix
    (h : nRF24L01_h) (r : Z) (data : list Z) (n : Z) (w : world) :
  Example.NRF24L01_RegisterWrite_Multi h r (Some data) n w
  = Example.NRF24L01_RegisterWrite_Multi h r
      (Some (firstn (Z.to_nat n) data)) n w.
Proof.
  unfold Example.NRF24L01_RegisterWrite_Multi, bind, malloc.
  destruct (heap w (alloc_count w)); [|reflexivity].
  now rewrite (memcpy_prefix _ data).
Qed.

(** X15: [NRF24L01_SetTXAddress] with a null address does nothing at all;
    with a buffer of five bytes or more (and its transient buffer allocated)
    it is one bracket around [WRITE_REGISTER_MASK | TX_ADDR] and the first
    five bytes of the buffer, whatever follows them.  Both variants. *)
Theorem set_tx_address
    (h : nRF24L01_h) (w : world) (address : list Z) (junk : nat -> Z) :
  header_ok h -> (5 <= length address)%nat ->
  heap w (alloc_count w) = Some junk ->
  log (exec (Arm.NRF24L01_SetTXAddress h (Some address)) w)
    = log w ++ bracket w (Z.lor (RF24_W_REGISTER h) (RF24_TX_ADDR h)
                            :: firstn 5 address) /\
  log (exec (Example.NRF24L01_SetTXAddress h (Some address)) w)
    = log w ++ bracket w (Z.lor (RF24_W_REGISTER h) (RF24_TX_ADDR h)
                            :: firstn 5 address) /\
  Arm.NRF24L01_SetTXAddress h None w = (tt, w) /\
  Example.NRF24L01_SetTXAddress h None w = (tt, w).
Proof.
  intros Hh Hlen Hheap. header_fields Hh.
  assert (Hfive : Z.of_nat (length (firstn 5 address)) = 5)
    by (rewrite length_firstn; lia).
  unfold Arm.NRF24L01_SetTXAddress, Example.NRF24L01_SetTXAddress, exec.
  rewrite Arm_write_multi_prefix, Example_write_multi_prefix.
  change (Z.to_nat 5) with 5%nat.
  pose proof (Arm_write_multi_run h (u8 (RF24_TX_ADDR h)) (firstn 5 address)
                junk w Hheap ltac:(rewrite Hfive; lia)) as Harm.
  pose proof (Example_write_multi_run h (u8 (RF24_TX_ADDR h))
                (firstn 5 address) junk w Hheap) as Hex.
  rewrite Hfive in Harm, Hex. rewrite Harm, Hex.
  cbn [snd log]. rewrite (u8_id (RF24_TX_ADDR h)), lor_u8 by assumption.
  repeat split; reflexivity.
Qed.

Lemma set_tx_address_witness :
  header_ok datasheet /\
  (5 <= length [0xE7; 0xE6; 0xE5; 0xE4; 0xE3; 0x99; 0x98])%nat /\
  heap (boot (scripted [0x0E] 0) heap_ok) 0 = Some (fun _ => 0xA5) /\
  log (exec (Arm.NRF24L01_SetTXAddress datasheet
               (Some [0xE7; 0xE6; 0xE5; 0xE4; 0xE3; 0x99; 0x98]))
            (boot (scripted [0x0E] 0) heap_ok))
    = [GPIOPinWrite 0x40024000 0x04 0x00;
       SPIByte 0x30; SPIByte 0xE7; SPIByte 0xE6; SPIByte 0xE5; SPIByte 0xE4;
       SPIByte 0xE3;
       GPIOPinWrite 0x40024000 0x04 0xFF].
Proof.
  split; [exact header_ok_datasheet|]. split; [simpl; lia|].
  split; [reflexivity|].
  destruct (set_tx_address datasheet (boot (scripted [0x0E] 0) heap_ok)
              [0xE7; 0xE6; 0xE5; 0xE4; 0xE3; 0x99; 0x98] (fun _ => 0xA5)
              header_ok_datasheet ltac:(simpl; lia) eq_refl)
    as [Harm _].
  exact Harm.
Defined.

Lemma Example_send_command_bare (c : Z) (junk : nat -> Z) (w : world) :
  heap w (alloc_count w) = Some junk ->
  Example._NRF24L01_SendCommand c None 0 w
  = (tt, advance (bracket w [c]) 0 1 (g_ucStatus w) w).
Proof.
  intros Hheap. unfold Example._NRF24L01_SendCommand, bind, malloc.
  rewrite Hheap. run_driver.
  change (Z.to_nat (u32 (0 + 1))) with 1%nat.
  change (Z.to_nat (u32 (1 * (0 + 1)))) with 1%nat.
  rewrite firstn_1_store0.
  repeat rewrite <- app_assoc. reflexivity.
Qed.

Lemma Example_send_command_no_memory
    (c : Z) (p : ptr) (n : Z) (w : world) :
  heap w (alloc_count w) = None ->
  Example._NRF24L01_SendCommand c p n w = (tt, take_alloc w).
Proof.
  intros Hheap. unfold Example._NRF24L01_SendCommand, bind, malloc.
  now rewrite Hheap.
Qed.

(** X16: a FIFO flush is one bracket around the single flush opcode when its
    one-byte transient buffer can be allocated, and is dropped otherwise,
    with nothing recorded, the status byte as before and no error reported.
    Both variants. *)
Theorem flush_is_sent_or_dropped (h : nRF24L01_h) (w : world) :
  header_ok h ->
  match heap w (alloc_count w) with
  | Some _ =>
      log (exec (Arm.NRF24L01_FlushTX h) w)
        = log w ++ bracket w [RF24_FLUSH_TX h] /\
      log (exec (Arm.NRF24L01_FlushRX h) w)
        = log w ++ bracket w [RF24_FLUSH_RX h] /\
      log (exec (Example.NRF24L01_FlushTX h) w)
        = log w ++ bracket w [RF24_FLUSH_TX h] /\
      log (exec (Example.NRF24L01_FlushRX h) w)
        = log w ++ bracket w [RF24_FLUSH_RX h]
  | None =>
      skipped (Arm.NRF24L01_FlushTX h) w /\
      skipped (Arm.NRF24L01_FlushRX h) w /\
      skipped (Example.NRF24L01_FlushTX h) w /\
      skipped (Example.NRF24L01_FlushRX h) w
  end.
Proof.
  intros Hh. header_fields Hh.
  unfold Arm.NRF24L01_FlushTX, Arm.NRF24L01_FlushRX,
    Example.NRF24L01_FlushTX, Example.NRF24L01_FlushRX, skipped, exec.
  destruct (heap w (alloc_count w)) as [junk|] eqn:Hheap.
  - rewrite !(Arm_send_command_bare _ junk w Hheap).
    rewrite !(Example_send_command_bare _ junk w Hheap).
    cbn [snd log advance].
    rewrite (u8_id (RF24_FLUSH_TX h)), (u8_id (RF24_FLUSH_RX h))
      by assumption.
    repeat split; reflexivity.
  - rewrite !(Arm_send_command_no_memory _ _ _ w Hheap).
    rewrite !(Example_send_command_no_memory _ _ _ w Hheap).
    repeat split; reflexivity.
Qed.

Lemma flush_is_sent_or_dropped_witness :
  header_ok datasheet /\
  log (exec (Arm.NRF24L01_FlushRX datasheet)
            (boot (scripted [0x0E] 0) heap_ok))
    = [GPIOPinWrite 0x40024000 0x04 0x00; SPIByte 0xE2;
       GPIOPinWrite 0x40024000 0x04 0xFF] /\
  skipped (Example.NRF24L01_FlushTX datasheet)
          (boot (scripted [0x0E] 0) heap_exhausted).
Proof.
  split; [exact header_ok_datasheet|]. split.
  - pose proof (flush_is_sent_or_dropped datasheet
                  (boot (scripted [0x0E] 0) heap_ok) header_ok_datasheet)
      as Hsent.
    cbn [heap boot heap_ok alloc_count] in Hsent.
    exact (proj1 (proj2 Hsent)).
  - pose proof (flush_is_sent_or_dropped datasheet
                  (boot (scripted [0x0E] 0) heap_exhausted)
                  header_ok_datasheet) as Hdropped.
    cbn [heap boot heap_exhausted alloc_count] in Hdropped.
    exact (proj1 (proj2 (proj2 Hdropped))).
Defined.

(** X17: the arm variant's [NRF24L01_SetTxPayload] writes unconditionally:
    it never reads [FIFO_STATUS].  With its transient buffer allocated it is
    a single bracket around [W_TX_PAYLOAD] and the payload, takes one byte
    from the transport and stores it as status; without memory the payload
    is dropped silently. *)
Theorem arm_set_tx_payload_is_unconditional
    (h : nRF24L01_h) (w : world) (data : list Z) :
  header_ok h -> Z.of_nat (length data) + 1 < 4294967296 ->
  let op := Arm.NRF24L01_SetTxPayload h (Some data)
              (Z.of_nat (length data)) in
  match heap w (alloc_count w) with
  | Some _ =>
      log (exec op w)
        = log w ++ bracket w (RF24_W_TX_PAYLOAD h :: data) /\
      g_ucStatus (exec op w) = u8 (miso w (rx_count w)) /\
      rx_count (exec op w) = S (rx_count w)
  | None => skipped op w
  end.
Proof.
  intros Hh Hlen op. subst op. header_fields Hh.
  unfold Arm.NRF24L01_SetTxPayload, skipped, exec.
  destruct (heap w (alloc_count w)) as [junk|] eqn:Hheap.
  - rewrite (Arm_send_command_run _ data junk w Hheap Hlen).
    cbn [snd log g_ucStatus rx_count].
    rewrite (u8_id (RF24_W_TX_PAYLOAD h)) by assumption.
    repeat split; reflexivity.
  - rewrite (Arm_send_command_no_memory _ _ _ w Hheap).
    split; reflexivity.
Qed.

Lemma arm_set_tx_payload_is_unconditional_witness :
  header_ok datasheet /\ Z.of_nat (length [1; 2; 3]) + 1 < 4294967296 /\
  log (exec (Arm.NRF24L01_SetTxPayload datasheet (Some [1; 2; 3]) 3)
            (boot (scripted [0x0F] 0) heap_ok))
    = [GPIOPinWrite 0x40024000 0x04 0x00;
       SPIByte 0xA0; SPIByte 1; SPIByte 2; SPIByte 3;
       GPIOPinWrite 0x40024000 0x04 0xFF].
Proof.
  split; [exact header_ok_datasheet|]. split; [simpl; lia|].
  pose proof (arm_set_tx_payload_is_unconditional datasheet
                (boot (scripted [0x0F] 0) heap_ok) [1; 2; 3]
                header_ok_datasheet ltac:(simpl; lia)) as Hsent.
  cbn [heap boot heap_ok alloc_count] in Hsent.
  exact (proj1 Hsent).
Defined.

(** ** The command dispatcher *)

(** X18: [NRF24L01_ExecuteCommand] does something only in a build with
    [PDLIB_SPI], for type TX, and with either a non-null payload of positive
    length or the no-op command with length zero.  In every other case (no
    [PDLIB_SPI], type RX or unknown, null payload with positive length,
    length zero with a command other than no-op) it returns -1 and touches
    neither the world nor the caller's status byte.  Both files. *)
Theorem execute_command_rejects
    (h : nRF24L01_h) (PDLIB_SPI : bool) (w : world)
    (ucType ucCommand : Z) (pucData : ptr) (uiLength : Z)
    (pucStatus : option Z) :
  PDLIB_SPI = false \/ ucType <> TYPE_TX \/
  (0 < uiLength /\ pucData = None) \/
  (uiLength <= 0 /\ ucCommand <> RF24_NOP h) ->
  Arm.NRF24L01_ExecuteCommand h PDLIB_SPI ucType ucCommand pucData uiLength
    pucStatus w = Some (-1, pucStatus, w) /\
  Example.NRF24L01_ExecuteCommand h PDLIB_SPI ucType ucCommand pucData
    uiLength pucStatus w = Some (-1, pucStatus, w).
Proof.
  intros Hcase.
  unfold Arm.NRF24L01_ExecuteCommand, Example.NRF24L01_ExecuteCommand.
  cbv zeta.
  destruct (uiLength >? 0) eqn:Hpos;
    [apply Z.gtb_lt in Hpos | rewrite Z.gtb_ltb in Hpos;
                              apply Z.ltb_ge in Hpos].
  - destruct pucData as [data|]; [|split; reflexivity].
    destruct (TYPE_RX =? ucType); [split; reflexivity|].
    destruct (TYPE_TX =? ucType) eqn:Htx; [|split; reflexivity].
    apply Z.eqb_eq in Htx.
    destruct Hcase as [-> | [Hty | [[_ Hnull] | [Hlen _]]]];
      [split; reflexivity | congruence | discriminate | lia].
  - destruct (TYPE_TX =? ucType) eqn:Htx; cbn [andb].
    + apply Z.eqb_eq in Htx.
      destruct (RF24_NOP h =? ucCommand) eqn:Hnop; cbn [negb];
        [|split; reflexivity].
      apply Z.eqb_eq in Hnop.
      destruct (TYPE_RX =? ucType); [split; reflexivity|].
      destruct Hcase as [-> | [Hty | [[Hlen _] | [_ Hcmd]]]];
        [split; reflexivity | congruence | lia | congruence].
    + destruct (TYPE_RX =? ucType); split; reflexivity.
Qed.

Lemma execute_command_rejects_witness :
  (true = false \/ TYPE_TX <> TYPE_TX \/
   (0 < 0 /\ @None (list Z) = None) \/ (0 <= 0 /\ 0xE1 <> RF24_NOP datasheet))
  /\
  Example.NRF24L01_ExecuteCommand datasheet true TYPE_TX 0xE1 None 0
    (Some 0) (boot (scripted [0x0E] 0) heap_ok)
  = Some (-1, Some 0, boot (scripted [0x0E] 0) heap_ok).
Proof.
  assert (Hcase : true = false \/ TYPE_TX <> TYPE_TX \/
                  (0 < 0 /\ @None (list Z) = None) \/
                  (0 <= 0 /\ 0xE1 <> RF24_NOP datasheet))
    by (right; right; right; split; [lia | discriminate]).
  split; [exact Hcase|].
  exact (proj2 (execute_command_rejects datasheet true
                  (boot (scripted [0x0E] 0) heap_ok) TYPE_TX 0xE1 None 0
                  (Some 0) Hcase)).
Defined.

Lemma bytes_outside_a_bracket (w : world) (c : Z) (evs : list event) :
  ~ transactions w (SPIByte c :: evs).
Proof.
  intros Htx. inversion Htx as [|bs rest _ Heq|v rest _ Heq];
    discriminate Heq.
Qed.

(** X19: where [NRF24L01_ExecuteCommand] does send (a build with
    [PDLIB_SPI], type TX, a payload of positive length, memory available, a
    non-null status pointer), it transfers the command and the payload
    without driving chip select: the bytes are recorded bare, outside any
    bracket, which breaks the chip-select discipline.  It then takes one
    byte from the transport and drops it: the stored status is what it was
    before the call, and that stored status is what the caller gets through
    the status pointer.  Both files. *)
Theorem execute_command_sends_without_chip_select
    (h : nRF24L01_h) (w : world) (ucCommand : Z) (data : list Z)
    (junk : nat -> Z) (old : Z) :
  data <> [] -> Z.of_nat (length data) + 1 < 4294967296 ->
  heap w (alloc_count w) = Some junk ->
  exists (iReturn : Z) (w' : world),
    Arm.NRF24L01_ExecuteCommand h true TYPE_TX ucCommand (Some data)
      (Z.of_nat (length data)) (Some old) w
      = Some (iReturn, Some (g_ucStatus w), w') /\
    Example.NRF24L01_ExecuteCommand h true TYPE_TX ucCommand (Some data)
      (Z.of_nat (length data)) (Some old) w
      = Some (iReturn, Some (g_ucStatus w), w') /\
    log w' = log w ++ map SPIByte (ucCommand :: data) /\
    ~ transactions w (map SPIByte (ucCommand :: data)) /\
    well_bracketed w false (map SPIByte (ucCommand :: data)) = false /\
    g_ucStatus w' = g_ucStatus w /\
    rx_count w' = S (rx_count w).
Proof.
  intros Hdata Hlen Hheap.
  assert (Hpos : (Z.of_nat (length data) >? 0) = true).
  { destruct data; [congruence|]. cbn [length].
    rewrite Z.gtb_ltb. apply Z.ltb_lt. lia. }
  unfold Arm.NRF24L01_ExecuteCommand, Example.NRF24L01_ExecuteCommand.
  cbv zeta. rewrite Hpos. change (TYPE_RX =? TYPE_TX) with false.
  change (TYPE_TX =? TYPE_TX) with true. cbv iota.
  unfold malloc. rewrite Hheap. cbv beta iota.
  unfold pdlibSPI_SendData, pdlibSPI_ReceiveDataBlocking. cbv beta iota.
  rewrite Z.mul_1_l, (frame_built junk ucCommand data Hlen).
  eexists. eexists. split; [reflexivity|]. split; [reflexivity|].
  split; [reflexivity|]. split; [apply bytes_outside_a_bracket|].
  split; [reflexivity|]. split; reflexivity.
Qed.

Lemma execute_command_sends_without_chip_select_witness :
  [0x01; 0x02] <> [] /\ Z.of_nat (length [0x01; 0x02]) + 1 < 4294967296 /\
  heap (boot (scripted [0x0E] 0) heap_ok) 0 = Some (fun _ => 0xA5) /\
  exists (iReturn : Z) (w' : world),
    Example.NRF24L01_ExecuteCommand datasheet true TYPE_TX 0xA0
      (Some [0x01; 0x02]) 2 (Some 0x55) (boot (scripted [0x0E] 0) heap_ok)
      = Some (iReturn, Some 0, w') /\
    log w' = [SPIByte 0xA0; SPIByte 0x01; SPIByte 0x02] /\
    g_ucStatus w' = 0.
Proof.
  split; [discriminate|]. split; [simpl; lia|]. split; [reflexivity|].
  destruct (execute_command_sends_without_chip_select datasheet
              (boot (scripted [0x0E] 0) heap_ok) 0xA0 [0x01; 0x02]
              (fun _ => 0xA5) 0x55 ltac:(discriminate) ltac:(simpl; lia)
              eq_refl)
    as (iReturn & w' & _ & Hex & Hlog & _ & _ & Hst & _).
  exists iReturn, w'. split; [exact Hex|]. split; [exact Hlog | exact Hst].
Defined.

(** ** Start-up register initialisation *)

Lemma emits_bind {A B : Type}
    (c : M A) (k : A -> M B)
    (e1 e2 : world -> nat -> list event) (a1 a2 : nat) :
  emits c e1 a1 -> stable e2 -> (forall x, emits (k x) e2 a2) ->
  emits (bind c k) (fun w k0 => e1 w k0 ++ e2 w (a1 + k0)%nat) (a2 + a1).
Proof.
  intros Hc Hstable Hk w. destruct (Hc w) as (rx1 & st1 & Hrun1).
  unfold exec, bind in *. destruct (c w) as [x w1]. cbn [snd] in Hrun1.
  subst w1. destruct (Hk x (advance (e1 w (alloc_count w)) rx1 a1 st1 w))
    as (rx2 & st2 & Hrun2).
  unfold exec in Hrun2. rewrite Hrun2, Hstable, advance_advance.
  exists (rx2 + rx1)%nat, st2. reflexivity.
Qed.

Lemma Example_emits_write8 (h : nRF24L01_h) (r v : Z) :
  emits (Example.NRF24L01_RegisterWrite_8 h r v)
    (fun w _ => bracket w [u8 (Z.lor (RF24_W_REGISTER h) r); v]) 0.
Proof.
  intros w. unfold exec. rewrite Example_write8_run.
  exists 2%nat, (u8 (miso w (rx_count w))). reflexivity.
Qed.

Lemma Example_emits_read8 (h : nRF24L01_h) (r : Z) :
  emits (Example.NRF24L01_RegisterRead_8 h r)
    (fun w _ => bracket w [u8 (Z.lor (RF24_R_REGISTER h) r); u8 (RF24_NOP h)])
    0.
Proof.
  intros w. unfold exec. rewrite Example_read8_run.
  exists 2%nat, (u8 (miso w (rx_count w))). reflexivity.
Qed.

Lemma Example_emits_CELow :
  emits Example._NRF24L01_CELow (fun w _ => [CE_write w 0x00]) 0.
Proof. intros w. exists 0%nat, (g_ucStatus w). reflexivity. Qed.

Lemma Example_emits_command (c : Z) :
  emits (Example._NRF24L01_SendCommand c None 0)
    (fun w k => if_allocated w k (bracket w [c])) 1.
Proof.
  intros w. unfold exec, if_allocated.
  destruct (heap w (alloc_count w)) as [junk|] eqn:Hheap.
  - rewrite (Example_send_command_bare c junk w Hheap).
    exists 0%nat, (g_ucStatus w). reflexivity.
  - rewrite (Example_send_command_no_memory c None 0 w Hheap).
    exists 0%nat, (g_ucStatus w). destruct w. unfold advance, take_alloc.
    cbn. now rewrite app_nil_r.
Qed.

Lemma Example_emits_write_multi (h : nRF24L01_h) (r : Z) (data : list Z) :
  emits (Example.NRF24L01_RegisterWrite_Multi h r (Some data)
           (Z.of_nat (length data)))
    (fun w k =>
       if_allocated w k
         (bracket w (u8 (Z.lor (RF24_W_REGISTER h) r) :: data))) 1.
Proof.
  intros w. unfold exec, if_allocated.
  destruct (heap w (alloc_count w)) as [junk|] eqn:Hheap.
  - rewrite (Example_write_multi_run h r data junk w Hheap).
    exists 1%nat, (u8 (miso w (rx_count w))). reflexivity.
  - unfold Example.NRF24L01_RegisterWrite_Multi, bind, malloc.
    rewrite Hheap. exists 0%nat, (g_ucStatus w).
    destruct w. unfold advance, take_alloc. cbn. now rewrite app_nil_r.
Qed.

Lemma Example_emits_register_init (h : nRF24L01_h) (b : nRF24L01_rest) :
  exists (ev : world -> nat -> list event) (da : nat),
    emits (Example.NRF24L01_RegisterInit h b) ev da /\
    da = 5%nat /\
    forall w, ev w (alloc_count w) = register_init_events h b w.
Proof.
  eexists. eexists. split; [|split].
  - unfold Example.NRF24L01_RegisterInit, Example.NRF24L01_FlushTX,
      Example.NRF24L01_FlushRX. cbv zeta.
    change 5 with (Z.of_nat (length [0xE7; 0xE7; 0xE7; 0xE7; 0xE7])) at 1.
    change 5 with (Z.of_nat (length [0xC2; 0xC2; 0xC2; 0xC2; 0xC2])) at 1.
    change 5 with (Z.of_nat (length [0xE7; 0xE7; 0xE7; 0xE7; 0xE7])) at 1.
    repeat (simple eapply emits_bind;
            [ first [ simple apply Example_emits_write8
                    | simple apply Example_emits_read8
                    | simple apply Example_emits_CELow
                    | simple apply Example_emits_command
                    | simple apply Example_emits_write_multi ]
            | | intros _ ]).
    all: try lazymatch goal with
             | |- emits _ _ _ => simple apply Example_emits_write8
             end.
    all: intros e rx al st w k; cbv beta; reflexivity.
  - reflexivity.
  - intros w. reflexivity.
Qed.

Lemma Example_register_init_run
    (h : nRF24L01_h) (b : nRF24L01_rest) (w : world) :
  exists (rx : nat) (st : Z),
    exec (Example.NRF24L01_RegisterInit h b) w
    = advance (register_init_events h b w) rx 5 st w.
Proof.
  destruct (Example_emits_register_init h b) as (ev & da & Hev & -> & Hshape).
  destruct (Hev w) as (rx & st & Hrun). exists rx, st.
  now rewrite Hrun, Hshape.
Qed.

(** X20: what [NRF24L01_RegisterInit] does, for every outcome of its five
    allocations: it records exactly [register_init_events]: the two flushes
    (each only if its buffer is allocated), chip enable low, the fixed
    register values in source order with three read-backs, and the three
    five-byte addresses (each only if its buffer is allocated).  It always
    runs to the end and makes five allocations; a failed allocation only
    leaves the corresponding bracket out. *)
Theorem register_init_trace
    (h : nRF24L01_h) (b : nRF24L01_rest) (w : world) :
  log (exec (Example.NRF24L01_RegisterInit h b) w)
    = log w ++ register_init_events h b w /\
  alloc_count (exec (Example.NRF24L01_RegisterInit h b) w)
    = (5 + alloc_count w)%nat.
Proof.
  destruct (Example_register_init_run h b w) as (rx & st & ->).
  split; reflexivity.
Qed.

(** X21: [NRF24L01_RegisterInit] never looks at what the chip answers: with
    any other script of transport bytes it records the same events.  The
    three registers it reads back are not compared with what was written. *)
Theorem register_init_ignores_replies
    (h : nRF24L01_h) (b : nRF24L01_rest) (w : world) (m : nat -> Z) :
  log (exec (Example.NRF24L01_RegisterInit h b) (with_miso m w))
    = log (exec (Example.NRF24L01_RegisterInit h b) w).
Proof.
  destruct (Example_register_init_run h b w) as (rx & st & ->).
  destruct (Example_register_init_run h b (with_miso m w))
    as (rx' & st' & ->).
  reflexivity.
Qed.

Lemma CE_not_in_bracket (w : world) (v : Z) (bs : list Z) :
  (g_ulCEBase w, g_ulCEPin w) <> (g_ulCSNBase w, g_ulCSNPin w) ->
  ~ In (CE_write w v) (bracket w bs).
Proof.
  intros Hpins Hin. unfold bracket in Hin. cbn [In] in Hin.
  destruct Hin as [Heq | Hin].
  - unfold CSN_low, CE_write in Heq. injection Heq as Hb Hp _. congruence.
  - apply in_app_or in Hin. destruct Hin as [Hin | [Heq | []]].
    + apply in_map_iff in Hin. destruct Hin as (x & Hx & _). discriminate Hx.
    + unfold CSN_high, CE_write in Heq. injection Heq as Hb Hp _. congruence.
Qed.

Lemma CE_not_in_optional_bracket
    (w : world) (v : Z) (k : nat) (bs : list Z) :
  (g_ulCEBase w, g_ulCEPin w) <> (g_ulCSNBase w, g_ulCSNPin w) ->
  ~ In (CE_write w v) (if_allocated w k (bracket w bs)).
Proof.
  intros Hpins. unfold if_allocated. destruct (heap w k).
  - now apply CE_not_in_bracket.
  - intros [].
Qed.

Lemma register_init_events_ce
    (h : nRF24L01_h) (b : nRF24L01_rest) (w : world) (v : Z) :
  (g_ulCEBase w, g_ulCEPin w) <> (g_ulCSNBase w, g_ulCSNPin w) ->
  In (CE_write w v) (register_init_events h b w) -> v = 0x00.
Proof.
  intros Hpins Hin. unfold register_init_events in Hin. cbv zeta in Hin.
  repeat (apply in_app_or in Hin; destruct Hin as [Hin | Hin];
          [ first [ now apply CE_not_in_bracket in Hin
                  | now apply CE_not_in_optional_bracket in Hin
                  | idtac ] | ]).
  - destruct Hin as [Heq | []]. unfold CE_write in Heq. congruence.
  - now apply CE_not_in_bracket in Hin.
Qed.

(** X22: when chip enable and chip select are different pins, the only
    write [NRF24L01_RegisterInit] makes to chip enable drives it low: the
    radio is never enabled during initialisation. *)
Theorem register_init_keeps_ce_low
    (h : nRF24L01_h) (b : nRF24L01_rest) (w : world) (evs : list event)
    (v : Z) :
  (g_ulCEBase w, g_ulCEPin w) <> (g_ulCSNBase w, g_ulCSNPin w) ->
  log (exec (Example.NRF24L01_RegisterInit h b) w) = log w ++ evs ->
  In (CE_write w v) evs -> v = 0x00.
Proof.
  intros Hpins Hlog Hin.
  destruct (Example_register_init_run h b w) as (rx & st & Hrun).
  rewrite Hrun in Hlog. cbn [log advance] in Hlog.
  apply app_inv_head in Hlog. subst evs.
  now apply (register_init_events_ce h b w v Hpins).
Qed.

Lemma register_init_keeps_ce_low_witness :
  (g_ulCEBase (boot (scripted [] 0) heap_ok),
   g_ulCEPin (boot (scripted [] 0) heap_ok))
    <> (g_ulCSNBase (boot (scripted [] 0) heap_ok),
        g_ulCSNPin (boot (scripted [] 0) heap_ok)) /\
  log (exec (Example.NRF24L01_RegisterInit datasheet datasheet_rest)
            (boot (scripted [] 0) heap_ok))
    = log (boot (scripted [] 0) heap_ok)
      ++ register_init_events datasheet datasheet_rest
           (boot (scripted [] 0) heap_ok) /\
  In (CE_write (boot (scripted [] 0) heap_ok) 0x00)
     (register_init_events datasheet datasheet_rest
        (boot (scripted [] 0) heap_ok)) /\
  0x00 = 0x00.
Proof.
  assert (Hpins : (g_ulCEBase (boot (scripted [] 0) heap_ok),
                   g_ulCEPin (boot (scripted [] 0) heap_ok))
                  <> (g_ulCSNBase (boot (scripted [] 0) heap_ok),
                      g_ulCSNPin (boot (scripted [] 0) heap_ok)))
    by (cbn; discriminate).
  assert (Hlog :
    log (exec (Example.NRF24L01_RegisterInit datasheet datasheet_rest)
              (boot (scripted [] 0) heap_ok))
    = log (boot (scripted [] 0) heap_ok)
      ++ register_init_events datasheet datasheet_rest
           (boot (scripted [] 0) heap_ok))
    by (vm_compute; reflexivity).
  assert (Hin : In (CE_write (boot (scripted [] 0) heap_ok) 0x00)
                   (register_init_events datasheet datasheet_rest
                      (boot (scripted [] 0) heap_ok)))
    by (vm_compute; tauto).
  split; [exact Hpins|]. split; [exact Hlog|]. split; [exact Hin|].
  exact (register_init_keeps_ce_low datasheet datasheet_rest
           (boot (scripted [] 0) heap_ok) _ 0x00 Hpins Hlog Hin).
Defined.

(** ** The two files on the same bus *)

Lemma write8_agree (h : nRF24L01_h) (r v : Z) (w : world) :
  log (exec (Arm._NRF24L01_RegisterWrite_8 h r v) w)
  = log (exec (Example.NRF24L01_RegisterWrite_8 h r v) w).
Proof. unfold exec. now rewrite Arm_write8_run, Example_write8_run. Qed.

Lemma read_then_write_agree
    (h : nRF24L01_h) (reg : Z) (f : Z -> Z) (w : world) :
  log (exec (bind (Arm.NRF24L01_RegisterRead_8 h reg)
               (fun v => Arm._NRF24L01_RegisterWrite_8 h reg (f v))) w)
  = log (exec (bind (Example.NRF24L01_RegisterRead_8 h reg)
                 (fun v => Example.NRF24L01_RegisterWrite_8 h reg (f v))) w).
Proof.
  unfold exec, bind.
  now rewrite Arm_read8_run, Example_read8_run, Arm_write8_run,
    Example_write8_run.
Qed.

Lemma read_write_ce_agree
    (h : nRF24L01_h) (reg : Z) (f : Z -> Z) (ta te : M unit) (w : world) :
  (forall w0, log (exec ta w0) = log (exec te w0)) ->
  (forall w1 w2, log w1 = log w2 ->
                 g_ulCEBase w1 = g_ulCEBase w2 ->
                 g_ulCEPin w1 = g_ulCEPin w2 ->
                 log (exec te w1) = log (exec te w2)) ->
  log (exec (bind (Arm.NRF24L01_RegisterRead_8 h reg)
               (fun v => bind (Arm._NRF24L01_RegisterWrite_8 h reg (f v))
                           (fun _ => ta))) w)
  = log (exec (bind (Example.NRF24L01_RegisterRead_8 h reg)
                 (fun v => bind (Example.NRF24L01_RegisterWrite_8 h reg (f v))
                             (fun _ => te))) w).
Proof.
  intros Hsame Hlocal. unfold exec, bind.
  rewrite Arm_read8_run, Example_read8_run, Arm_write8_run,
    Example_write8_run.
  unfold exec in Hsame, Hlocal. rewrite Hsame. now apply Hlocal.
Qed.

Lemma write_multi_agree
    (h : nRF24L01_h) (r : Z) (data : list Z) (w : world) :
  Z.of_nat (length data) + 1 < 4294967296 ->
  log (exec (Arm._NRF24L01_RegisterWrite_Multi h r (Some data)
               (Z.of_nat (length data))) w)
  = log (exec (Example.NRF24L01_RegisterWrite_Multi h r (Some data)
                 (Z.of_nat (length data))) w).
Proof.
  intros Hlen. unfold exec.
  destruct (heap w (alloc_count w)) as [junk|] eqn:Hheap.
  - now rewrite (Arm_write_multi_run h r data junk w Hheap Hlen),
      (Example_write_multi_run h r data junk w Hheap).
  - unfold Arm._NRF24L01_RegisterWrite_Multi,
      Example.NRF24L01_RegisterWrite_Multi, bind, malloc.
    now rewrite Hheap.
Qed.

Lemma first_five_agree
    (h : nRF24L01_h) (r : Z) (address : list Z) (w : world) :
  (5 <= length address)%nat ->
  log (exec (Arm._NRF24L01_RegisterWrite_Multi h r (Some address) 5) w)
  = log (exec (Example.NRF24L01_RegisterWrite_Multi h r (Some address) 5) w).
Proof.
  intros Hlen. unfold exec.
  rewrite Arm_write_multi_prefix, Example_write_multi_prefix.
  change (Z.to_nat 5) with 5%nat.
  assert (Hfive : Z.of_nat (length (firstn 5 address)) = 5)
    by (rewrite length_firstn; lia).
  pose proof (write_multi_agree h r (firstn 5 address) w
                ltac:(rewrite Hfive; lia)) as Hagree.
  rewrite Hfive in Hagree. exact Hagree.
Qed.

Lemma command_agree (c : Z) (w : world) :
  log (exec (Arm._NRF24L01_SendCommand c None 0) w)
  = log (exec (Example._NRF24L01_SendCommand c None 0) w).
Proof.
  unfold exec. destruct (heap w (alloc_count w)) as [junk|] eqn:Hheap.
  - now rewrite (Arm_send_command_bare c junk w Hheap),
      (Example_send_command_bare c junk w Hheap).
  - now rewrite (Arm_send_command_no_memory c None 0 w Hheap),
      (Example_send_command_no_memory c None 0 w Hheap).
Qed.

(** X23: for the operations below the two files are interchangeable on the
    bus: from the same world, with the same arguments and the same allocator
    outcome, they record the same events (and the reads return the same
    value).  Register read, status, 8-bit write, channel, LNA gain, power up
    and down, RX mode, RX-ready test, payload width, both flushes, and the
    address setters for addresses of five bytes or more. *)
Theorem variants_agree_on_the_wire
    (h : nRF24L01_h) (b : nRF24L01_rest) (w : world) :
  (forall r,
     Arm.NRF24L01_RegisterRead_8 h r w
       = Example.NRF24L01_RegisterRead_8 h r w) /\
  Arm.NRF24L01_GetStatus h w = Example.NRF24L01_GetStatus h w /\
  Arm.NRF24L01_IsDataReadyRx h b w = Example.NRF24L01_IsDataReadyRx h b w /\
  (forall p,
     Arm.NRF24L01_GetRxDataAmount h p w
       = Example.NRF24L01_GetRxDataAmount h p w) /\
  (forall r v,
     log (exec (Arm._NRF24L01_RegisterWrite_8 h r v) w)
       = log (exec (Example.NRF24L01_RegisterWrite_8 h r v) w)) /\
  (forall c,
     log (exec (Arm.NRF24L01_SetRFChannel h c) w)
       = log (exec (Example.NRF24L01_SetRFChannel h c) w)) /\
  (forall a,
     log (exec (Arm.NRF24L01_SetLNAGain h a) w)
       = log (exec (Example.NRF24L01_SetLNAGain h a) w)) /\
  log (exec (Arm.NRF24L01_PowerUp h b) w)
    = log (exec (Example.NRF24L01_PowerUp h b) w) /\
  log (exec (Arm.NRF24L01_PowerDown h b) w)
    = log (exec (Example.NRF24L01_PowerDown h b) w) /\
  log (exec (Arm.NRF24L01_EnableRxMode h b) w)
    = log (exec (Example.NRF24L01_EnableRxMode h b) w) /\
  log (exec (Arm.NRF24L01_FlushTX h) w)
    = log (exec (Example.NRF24L01_FlushTX h) w) /\
  log (exec (Arm.NRF24L01_FlushRX h) w)
    = log (exec (Example.NRF24L01_FlushRX h) w) /\
  (forall address, (5 <= length address)%nat ->
     log (exec (Arm.NRF24L01_SetTXAddress h (Some address)) w)
       = log (exec (Example.NRF24L01_SetTXAddress h (Some address)) w) /\
     forall p,
       log (exec (Arm.NRF24L01_SetRxAddress h p (Some address)) w)
         = log (exec (Example.NRF24L01_SetRxAddress h p (Some address)) w)).
Proof.
  assert (Hread : forall r, Arm.NRF24L01_RegisterRead_8 h r w
                            = Example.NRF24L01_RegisterRead_8 h r w)
    by (intros r; now rewrite Arm_read8_run, Example_read8_run).
  repeat match goal with |- _ /\ _ => split end.
  - exact Hread.
  - unfold Arm.NRF24L01_GetStatus, Example.NRF24L01_GetStatus, bind.
    now rewrite Hread.
  - unfold Arm.NRF24L01_IsDataReadyRx, Example.NRF24L01_IsDataReadyRx, bind.
    now rewrite Hread.
  - intros p.
    unfold Arm.NRF24L01_GetRxDataAmount, Example.NRF24L01_GetRxDataAmount,
      bind.
    destruct (p <? 6); [now rewrite Arm_read8_run, Example_read8_run|].
    reflexivity.
  - intros r v. exact (write8_agree h r v w).
  - intros c. unfold Arm.NRF24L01_SetRFChannel, Example.NRF24L01_SetRFChannel.
    exact (write8_agree h _ c w).
  - intros a. unfold Arm.NRF24L01_SetLNAGain, Example.NRF24L01_SetLNAGain.
    exact (read_then_write_agree h _
             (fun v => u8 (Z.lor v (Z.shiftl a 0))) w).
  - unfold Arm.NRF24L01_PowerUp, Example.NRF24L01_PowerUp.
    exact (read_then_write_agree h _
             (fun v => u8 (Z.lor v (RF24_PWR_UP b))) w).
  - unfold Arm.NRF24L01_PowerDown, Example.NRF24L01_PowerDown.
    refine (read_write_ce_agree h _
              (fun v => u8 (Z.land v (Z.lnot (RF24_PWR_UP b))))
              Arm._NRF24L01_CELow Example._NRF24L01_CELow w _ _).
    + intros w0. reflexivity.
    + intros w1 w2 Hl Hb Hp. unfold exec, Example._NRF24L01_CELow,
        ROM_GPIOPinWrite, modify, record. cbn [snd log].
      now rewrite Hl, Hb, Hp.
  - unfold Arm.NRF24L01_EnableRxMode, Example.NRF24L01_EnableRxMode.
    refine (read_write_ce_agree h _
              (fun v => u8 (Z.lor v (RF24_PRIM_RX b)))
              Arm._NRF24L01_CEHigh Example._NRF24L01_CEHigh w _ _).
    + intros w0. reflexivity.
    + intros w1 w2 Hl Hb Hp. unfold exec, Example._NRF24L01_CEHigh,
        ROM_GPIOPinWrite, modify, record. cbn [snd log].
      now rewrite Hl, Hb, Hp.
  - unfold Arm.NRF24L01_FlushTX, Example.NRF24L01_FlushTX.
    exact (command_agree _ w).
  - unfold Arm.NRF24L01_FlushRX, Example.NRF24L01_FlushRX.
    exact (command_agree _ w).
  - intros address Hlen. split.
    + unfold Arm.NRF24L01_SetTXAddress, Example.NRF24L01_SetTXAddress.
      exact (first_five_agree h _ address w Hlen).
    + intros p.
      rewrite Arm_set_rx_address_cases, Example_set_rx_address_cases.
      destruct ((0 <=? p) && (p <=? 1));
        [exact (first_five_agree h _ address w Hlen)|].
      destruct ((2 <=? p) && (p <=? 5));
        [exact (write8_agree h _ _ w) | reflexivity].
Qed.

Lemma variants_agree_on_the_wire_witness :
  (5 <= length [0xAA; 0xBB; 0xCC; 0xDD; 0xEE])%nat /\
  log (exec (Arm.NRF24L01_SetRxAddress datasheet 1
               (Some [0xAA; 0xBB; 0xCC; 0xDD; 0xEE]))
            (boot (scripted [0x0E] 0) heap_ok))
    = log (exec (Example.NRF24L01_SetRxAddress datasheet 1
                   (Some [0xAA; 0xBB; 0xCC; 0xDD; 0xEE]))
                (boot (scripted [0x0E] 0) heap_ok)).
Proof.
  split; [simpl; lia|].
  destruct (variants_agree_on_the_wire datasheet datasheet_rest
              (boot (scripted [0x0E] 0) heap_ok))
    as (_ & _ & _ & _ & _ & _ & _ & _ & _ & _ & _ & _ & Haddr).
  exact (proj2 (Haddr [0xAA; 0xBB; 0xCC; 0xDD; 0xEE] ltac:(simpl; lia)) 1).
Defined.

(** X24: the air-data-rate argument is shifted by one between the two
    files: the arm variant's [NRF24L01_SetAirDataRate(a)] and the example
    variant's [NRF24L01_SetAirDataRate(a + 1)] record the same events, for
    every byte [a] below 255.  The example variant called with 0 wraps to
    255 and ORs [0xF8] into the register. *)
Theorem air_data_rate_argument_is_shifted
    (h : nRF24L01_h) (w : world) (a : Z) :
  0 <= a < 255 ->
  log (exec (Arm.NRF24L01_SetAirDataRate h a) w)
    = log (exec (Example.NRF24L01_SetAirDataRate h (a + 1)) w) /\
  log (exec (Example.NRF24L01_SetAirDataRate h 0) w)
    = log (exec (Arm.NRF24L01_SetAirDataRate h 255) w) /\
  forall v, u8 (Z.lor v (Z.shiftl 255 3)) = Z.lor (u8 v) 0xF8.
Proof.
  intros Ha.
  unfold Arm.NRF24L01_SetAirDataRate, Example.NRF24L01_SetAirDataRate.
  cbv zeta. split; [|split].
  - replace (a + 1 - 1) with a by lia.
    rewrite (u8_id a) by (unfold is_u8; lia).
    exact (read_then_write_agree h _
             (fun v => u8 (Z.lor v (Z.shiftl a 3))) w).
  - change (u8 (0 - 1)) with 255. symmetry.
    exact (read_then_write_agree h _
             (fun v => u8 (Z.lor v (Z.shiftl 255 3))) w).
  - intros v. rewrite u8_lor. reflexivity.
Qed.

Lemma air_data_rate_argument_is_shifted_witness :
  0 <= 1 < 255 /\
  log (exec (Arm.NRF24L01_SetAirDataRate datasheet 1)
            (boot (scripted [0x0E; 0x07] 0) heap_ok))
    = log (exec (Example.NRF24L01_SetAirDataRate datasheet (1 + 1))
                (boot (scripted [0x0E; 0x07] 0) heap_ok)).
Proof.
  split; [lia|].
  exact (proj1 (air_data_rate_argument_is_shifted datasheet
                  (boot (scripted [0x0E; 0x07] 0) heap_ok) 1
                  ltac:(lia))).
Defined.
